(** * route-extractor: a shallow embedding of [src/index.ts]

    The development follows the layout of the source file: JavaScript string
    primitives and the regular expressions used by the converters, Node's
    [path] module (POSIX flavour), the data model ([RouteInfo],
    [FrameworkInfo], [ExtractionResult]), the environment the extractor
    consumes (file system probe, glob, Babel parser), then the functions of
    [index.ts] in source order, and finally the properties.

    Strings are byte strings: every character the source tests for is ASCII,
    and no byte of a multi-byte UTF-8 sequence is an ASCII character, so the
    behaviour on file names coincides with the UTF-16 view of JavaScript. *)

From Stdlib Require Import String Ascii List Bool Arith Lia.
From stdpp Require Import gmap strings.
Import ListNotations.
Local Open Scope string_scope.
Local Open Scope list_scope.

(* ================================================================== *)
(** ** JavaScript string primitives *)
(* ================================================================== *)

Module JsString.

(** [s.startsWith(p)] *)
Definition startsWith (s p : string) : bool := String.prefix p s.

(** [s.includes(sub)]: [sub] occurs at some position of [s]. *)
Fixpoint includes (s sub : string) : bool :=
  String.prefix sub s ||
  match s with
  | EmptyString => false
  | String _ s' => includes s' sub
  end.

(** [s.endsWith(suf)]: some suffix of [s] is [suf]. *)
Fixpoint endsWith (s suf : string) : bool :=
  String.eqb s suf ||
  match s with
  | EmptyString => false
  | String _ s' => endsWith s' suf
  end.

(** [s.replace(/...$/, "")] for a pattern anchored at the end of the
    input: the leftmost position whose remainder is accepted by
    [atEnd] is where the match starts; the match is deleted. *)
Fixpoint replaceAtEnd (atEnd : string -> bool) (s : string) : string :=
  if atEnd s then EmptyString
  else match s with
       | EmptyString => EmptyString
       | String c s' => String c (replaceAtEnd atEnd s')
       end.

(** [s.replace(re, ...)] for a global ([/g]) pattern that never matches
    the empty string.  [matchAt t] tries the pattern at the start of [t]
    and returns the replacement text and the length of the match.
    The scan goes left to right; after a match it resumes behind the
    matched text ([skip] counts the characters of the match still to be
    passed over). *)
Fixpoint replaceAllFrom (matchAt : string -> option (string * nat))
         (skip : nat) (s : string) : string :=
  match s with
  | EmptyString => EmptyString
  | String c s' =>
      match skip with
      | S k => replaceAllFrom matchAt k s'
      | O =>
          match matchAt s with
          | Some (repl, len) => repl +:+ replaceAllFrom matchAt (len - 1) s'
          | None => String c (replaceAllFrom matchAt 0 s')
          end
      end
  end.

Definition replaceAll (matchAt : string -> option (string * nat))
           (s : string) : string :=
  replaceAllFrom matchAt 0 s.

(** JavaScript truthiness of a string value. *)
Definition truthy (s : string) : bool := negb (String.eqb s "").

End JsString.

(* ================================================================== *)
(** ** The regular expressions of the two converters *)
(* ================================================================== *)

Module Regex.
Import JsString.

(** [/\.(tsx|ts|jsx|js)$/]: the remainder of the input is one of the
    four extensions. *)
Definition isSourceExtension (s : string) : bool :=
  String.eqb s ".tsx" || String.eqb s ".ts" ||
  String.eqb s ".jsx" || String.eqb s ".js".

(** [([^\]]+)\]] : the longest run of characters other than "]"
    (possibly empty here), which must be followed by "]". *)
Fixpoint runToClose (s : string) : option string :=
  match s with
  | EmptyString => None
  | String c s' =>
      if Ascii.eqb c "]" then Some EmptyString
      else match runToClose s' with
           | Some run => Some (String c run)
           | None => None
           end
  end.

(** [/\[([^\]]+)\]/g] with replacement [":$1"]. *)
Definition matchBracket (s : string) : option (string * nat) :=
  match s with
  | String "[" t =>
      match runToClose t with
      | Some run =>
          if String.eqb run "" then None
          else Some (":" +:+ run, String.length run + 2)
      | None => None
      end
  | _ => None
  end.

(** [/\[\.\.\.([^\]]+)\]/g] with replacement ["*"]. *)
Definition matchSpread (s : string) : option (string * nat) :=
  match s with
  | String "[" (String "." (String "." (String "." t))) =>
      match runToClose t with
      | Some run =>
          if String.eqb run "" then None
          else Some ("*", String.length run + 5)
      | None => None
      end
  | _ => None
  end.

End Regex.

(* ================================================================== *)
(** ** The two file-path to route-path converters *)
(* ================================================================== *)

Import JsString Regex.

(** [convertNextJSAppPathToRoute] (index.ts, lines 232-263).  The declared
    result type is [string | null]; the function never returns [null],
    the result of [route || "/"] is a string. *)
Definition convertNextJSAppPathToRoute (filePath : string) : string :=
  (* Remove file extensions *)
  let route := replaceAtEnd isSourceExtension filePath in
  (* Handle special files *)
  let route :=
    if endsWith route "/page" then replaceAtEnd (String.eqb "/page") route
    else if endsWith route "/layout" then replaceAtEnd (String.eqb "/layout") route
    else if endsWith route "/loading" then replaceAtEnd (String.eqb "/loading") route
    else if endsWith route "/error" then replaceAtEnd (String.eqb "/error") route
    else if endsWith route "/not-found" then replaceAtEnd (String.eqb "/not-found") route
    else route in
  (* Handle dynamic routes *)
  let route := replaceAll matchBracket route in
  let route := replaceAll matchSpread route in
  (* Handle index routes *)
  let route :=
    if String.eqb route "index" then "/"
    else if startsWith route "/" then route
    else "/" +:+ route in
  if truthy route then route else "/".

(** [convertNextJSPagesPathToRoute] (index.ts, lines 268-282). *)
Definition convertNextJSPagesPathToRoute (filePath : string) : string :=
  let route := replaceAtEnd isSourceExtension filePath in
  if String.eqb route "index" then "/"
  else
    let route := replaceAll matchBracket route in
    let route := replaceAll matchSpread route in
    "/" +:+ route.


(* ================================================================== *)
(** ** Node's [path] module, POSIX flavour *)
(* ================================================================== *)

(** The extractor calls [path.join], [path.resolve], [path.relative],
    [path.dirname] and [path.extname].  They belong to the Node runtime,
    not to the repository; they are modelled here after Node's POSIX
    implementation.  [cwd] stands for [process.cwd()], which is always an
    absolute path. *)
Module Path.

(** [s.split("/")] *)
Fixpoint segments (s : string) : list string :=
  match s with
  | EmptyString => [EmptyString]
  | String c s' =>
      if Ascii.eqb c "/" then EmptyString :: segments s'
      else match segments s' with
           | [] => [String c EmptyString]
           | seg :: rest => String c seg :: rest
           end
  end.

Definition joinSegments (segs : list string) : string :=
  String.concat "/" segs.

(** One segment of [normalizeString]; [acc] is the stack of segments
    kept so far, most recent first. *)
Definition normalizeStep (allowAboveRoot : bool) (acc : list string)
           (seg : string) : list string :=
  if String.eqb seg "" || String.eqb seg "." then acc
  else if String.eqb seg ".." then
    match acc with
    | top :: rest =>
        if String.eqb top ".." then (if allowAboveRoot then ".." :: acc else acc)
        else rest
    | [] => if allowAboveRoot then [".."] else []
    end
  else seg :: acc.

Definition normalizeString (allowAboveRoot : bool) (segs : list string)
  : list string :=
  rev (fold_left (normalizeStep allowAboveRoot) segs []).

Definition isAbsolute (p : string) : bool := startsWith p "/".

(** [path.normalize] *)
Definition normalize (p : string) : string :=
  if String.eqb p "" then "."
  else
    let trailingSeparator := endsWith p "/" in
    let body := joinSegments (normalizeString (negb (isAbsolute p)) (segments p)) in
    if String.eqb body "" then
      (if isAbsolute p then "/" else if trailingSeparator then "./" else ".")
    else
      let body := if trailingSeparator then body +:+ "/" else body in
      if isAbsolute p then "/" +:+ body else body.

(** [path.join(...paths)] *)
Definition join (paths : list string) : string :=
  match List.filter truthy paths with
  | [] => "."
  | parts => normalize (joinSegments parts)
  end.

(** The right-to-left accumulation of [path.resolve]: the arguments are
    prepended until an absolute one has been met; empty ones are skipped. *)
Fixpoint resolveRaw (paths : list string) : string * bool :=
  match paths with
  | [] => (EmptyString, false)
  | p :: rest =>
      let '(acc, absolute) := resolveRaw rest in
      if absolute then (acc, true)
      else if String.eqb p "" then (acc, false)
      else (p +:+ "/" +:+ acc, isAbsolute p)
  end.

(** The segments of [path.resolve(...paths)] below the root. *)
Definition resolveSegments (cwd : string) (paths : list string) : list string :=
  let '(raw, absolute) := resolveRaw paths in
  normalizeString false (segments (if absolute then raw else cwd +:+ "/" +:+ raw)).

(** [path.resolve(...paths)] *)
Definition resolve (cwd : string) (paths : list string) : string :=
  "/" +:+ joinSegments (resolveSegments cwd paths).

Fixpoint dropCommon (from to : list string) : list string * list string :=
  match from, to with
  | f :: from', t :: to' =>
      if String.eqb f t then dropCommon from' to' else (from, to)
  | _, _ => (from, to)
  end.

(** [path.relative(from, to)] *)
Definition relative (cwd from to : string) : string :=
  let '(up, down) := dropCommon (resolveSegments cwd [from]) (resolveSegments cwd [to]) in
  joinSegments (repeat ".." (List.length up) ++ down).

(** The backward scan of [path.dirname] over the characters at index 1
    and above (given last first): the index, counted from 1, of the
    separator that ends the directory part. *)
Fixpoint dirnameScan (matchedSlash : bool) (r : list ascii) : option nat :=
  match r with
  | [] => None
  | c :: r' =>
      if Ascii.eqb c "/" then
        (if matchedSlash then dirnameScan true r' else Some (List.length r'))
      else dirnameScan false r'
  end.

(** [path.dirname(p)] *)
Definition dirname (p : string) : string :=
  match p with
  | EmptyString => "."
  | String c0 rest =>
      let hasRoot := Ascii.eqb c0 "/" in
      match dirnameScan true (rev (list_ascii_of_string rest)) with
      | None => if hasRoot then "/" else "."
      | Some k =>
          if hasRoot && (k =? 0)%nat then "//"
          else substring 0 (1 + k) p
      end
  end.

(** The state of the backward scan of [path.extname]. *)
Record ExtScan := mkExtScan {
  startDot : option nat;
  startPart : nat;
  endIdx : option nat;
  matchedSlash : bool;
  preDotState : Z;
  finished : bool
}.

Definition extnameStep (st : ExtScan) (ic : nat * ascii) : ExtScan :=
  if finished st then st
  else
    let '(i, code) := ic in
    if Ascii.eqb code "/" then
      if negb (matchedSlash st)
      then mkExtScan (startDot st) (i + 1) (endIdx st) (matchedSlash st) (preDotState st) true
      else st
    else
      let st :=
        match endIdx st with
        | None => mkExtScan (startDot st) (startPart st) (Some (i + 1)) false (preDotState st) false
        | Some _ => st
        end in
      if Ascii.eqb code "." then
        match startDot st with
        | None => mkExtScan (Some i) (startPart st) (endIdx st) (matchedSlash st) (preDotState st) false
        | Some _ =>
            if negb (preDotState st =? 1)%Z
            then mkExtScan (startDot st) (startPart st) (endIdx st) (matchedSlash st) 1%Z false
            else st
        end
      else
        match startDot st with
        | Some _ => mkExtScan (startDot st) (startPart st) (endIdx st) (matchedSlash st) (-1)%Z false
        | None => st
        end.

(** [path.extname(p)] *)
Definition extname (p : string) : string :=
  let chars := list_ascii_of_string p in
  let indexed := combine (seq 0 (List.length chars)) chars in
  let st := fold_left extnameStep (rev indexed) (mkExtScan None 0 None true 0%Z false) in
  match startDot st, endIdx st with
  | Some sd, Some e =>
      if (preDotState st =? 0)%Z
         || ((preDotState st =? 1)%Z && (sd =? e - 1)%nat && (sd =? startPart st + 1)%nat)
      then EmptyString
      else substring sd (e - sd) p
  | _, _ => EmptyString
  end.

End Path.

(* ================================================================== *)
(** ** Data model (index.ts, lines 14-38) *)
(* ================================================================== *)

(* The nested induction principles are stated by hand further down. *)
#[local] Set Warnings "-register-all".

Record ImportedComponent := mkImportedComponent {
  ic_name : string;
  ic_path : string;
  ic_fullPath : option string
}.

(** [RouteInfo]; every field marked [?] in the interface is an option. *)
Inductive RouteInfo := mkRouteInfo {
  path : string;
  component : option string;
  children : option (list RouteInfo);
  dynamic : option bool;
  catchAll : option bool;
  resolvedComponentPath : option string;
  importedComponent : option ImportedComponent
}.

Inductive FrameworkName := nextjs | vite | react_router_dom | unknown.

Record FrameworkInfo := mkFrameworkInfo {
  name : FrameworkName;
  version : option string
}.

Record ExtractionResult := mkExtractionResult {
  framework : FrameworkInfo;
  routes : list RouteInfo;
  errors : list string
}.

(** A record together with all the records nested below it. *)
Fixpoint allRoutes (r : RouteInfo) : list RouteInfo :=
  r :: match children r with
       | Some cs => flat_map allRoutes cs
       | None => []
       end.

(* ================================================================== *)
(** ** The syntax tree delivered by the Babel parser *)
(* ================================================================== *)

(** The name of a JSX element or attribute. *)
Inductive JSXName :=
| JSXIdentifier (name : string)
| JSXMemberExpression (object property : string)
| JSXNamespacedName (namespace name : string).

Inductive ImportSpecifierNode :=
| ImportDefaultSpecifier (local : string)
| ImportSpecifier (local : string)
| ImportNamespaceSpecifier (local : string).

Inductive JSXAttributeNode (N : Type) :=
| JSXAttribute (name : JSXName) (value : option N)
| JSXSpreadAttribute (argument : N).

Inductive ObjectMember (N : Type) :=
| ObjectProperty (key value : N)
| ObjectMethod (parts : list N)
| SpreadElement (argument : N).

Arguments JSXAttribute {N} name value.
Arguments JSXSpreadAttribute {N} argument.
Arguments ObjectProperty {N} key value.
Arguments ObjectMethod {N} parts.
Arguments SpreadElement {N} argument.

(** The node kinds the extractor inspects; every other kind is [OtherNode]
    with its child nodes in document order. *)
Inductive Node :=
| Identifier (name : string)
| StringLiteral (value : string)
| ImportDeclaration (source : string) (specifiers : list ImportSpecifierNode)
| JSXElement (name : JSXName) (attributes : list (JSXAttributeNode Node))
             (kids : list Node)
| JSXExpressionContainer (expression : Node)
| ArrayExpression (elements : list (option Node))
| ObjectExpression (properties : list (ObjectMember Node))
| CallExpression (callee : Node) (arguments : list Node)
| OtherNode (kids : list Node).

(** The order in which [traverse] enters the nodes: a node, then its
    children from left to right. *)
Fixpoint preorder (n : Node) : list Node :=
  n :: match n with
       | Identifier _ | StringLiteral _ | ImportDeclaration _ _ => []
       | JSXElement _ attrs kids =>
           flat_map (fun a => match a with
                              | JSXAttribute _ (Some v) => preorder v
                              | JSXAttribute _ None => []
                              | JSXSpreadAttribute arg => preorder arg
                              end) attrs
           ++ flat_map preorder kids
       | JSXExpressionContainer e => preorder e
       | ArrayExpression els =>
           flat_map (fun e => match e with
                              | Some x => preorder x
                              | None => []
                              end) els
       | ObjectExpression props =>
           flat_map (fun p => match p with
                              | ObjectProperty k v => preorder k ++ preorder v
                              | ObjectMethod parts => flat_map preorder parts
                              | SpreadElement arg => preorder arg
                              end) props
       | CallExpression callee args => preorder callee ++ flat_map preorder args
       | OtherNode kids => flat_map preorder kids
       end.

(* ================================================================== *)
(** ** The environment: file system probe, glob and parser *)
(* ================================================================== *)

(** The outcome of a call that may throw. *)
Inductive Outcome (A : Type) :=
| Returned (a : A)
| Thrown (message : string).

Arguments Returned {A} a.
Arguments Thrown {A} message.

(** The two sections of the manifest the detector reads; an absent section
    is the empty map (spreading [undefined] adds no key). *)
Record PackageJson := mkPackageJson {
  dependencies : gmap string string;
  devDependencies : gmap string string
}.

(** What the extractor observes of the outside world.  [readJson] covers
    [fs.readJson] up to the point where the two sections are read: a
    manifest that cannot be parsed, or whose top-level value has no
    properties, is a [Thrown] outcome. *)
Record World := mkWorld {
  cwd : string;
  pathExists : string -> bool;
  readJson : string -> Outcome PackageJson;
  glob : string -> string -> list string -> Outcome (list string);
  readFile : string -> Outcome string;
  parse : string -> Outcome Node
}.

(* ================================================================== *)
(** ** Framework detection (index.ts, lines 92-134) *)
(* ================================================================== *)

(** [obj[key]] used as a condition: the value when it is a non-empty
    string. *)
Definition truthyLookup (m : gmap string string) (key : string) : option string :=
  match m !! key with
  | Some v => if truthy v then Some v else None
  | None => None
  end.

(** [{ ...packageJson.dependencies, ...packageJson.devDependencies }]:
    on a common key the later spread wins. *)
Definition mergedDependencies (packageJson : PackageJson) : gmap string string :=
  devDependencies packageJson ∪ dependencies packageJson.

(** The manifest part of [detectFramework]: the framework named by the
    merged dependencies, if any. *)
Definition frameworkOfManifest (packageJson : PackageJson) : option FrameworkInfo :=
  let deps := mergedDependencies packageJson in
  match truthyLookup deps "next" with
  | Some v => Some (mkFrameworkInfo nextjs (Some v))
  | None =>
      match truthyLookup deps "vite" with
      | Some v => Some (mkFrameworkInfo vite (Some v))
      | None =>
          match truthyLookup deps "react-router-dom" with
          | Some v => Some (mkFrameworkInfo react_router_dom (Some v))
          | None => None
          end
      end
  end.

(** The fallback of [detectFramework]: framework-specific files. *)
Definition frameworkOfConfigFiles (w : World) (projectPath : string) : FrameworkInfo :=
  if pathExists w (Path.join [projectPath; "next.config.js"])
     || pathExists w (Path.join [projectPath; "next.config.ts"])
  then mkFrameworkInfo nextjs None
  else if pathExists w (Path.join [projectPath; "vite.config.js"])
          || pathExists w (Path.join [projectPath; "vite.config.ts"])
  then mkFrameworkInfo vite None
  else mkFrameworkInfo unknown None.

Definition detectFramework (w : World) (projectPath : string) : Outcome FrameworkInfo :=
  let packageJsonPath := Path.join [projectPath; "package.json"] in
  if pathExists w packageJsonPath then
    match readJson w packageJsonPath with
    | Thrown msg => Thrown msg
    | Returned packageJson =>
        match frameworkOfManifest packageJson with
        | Some fw => Returned fw
        | None => Returned (frameworkOfConfigFiles w projectPath)
        end
    end
  else Returned (frameworkOfConfigFiles w projectPath).

(* ================================================================== *)
(** ** Next.js extraction (index.ts, lines 139-227) *)
(* ================================================================== *)

Definition sourcePattern : string := "**/*.{tsx,ts,jsx,js}".

(** The body of the loop shared by the two Next.js extractors: the record
    pushed for one file, if any. *)
Definition nextJSRouteOfFile (convert : string -> string) (w : World)
           (dir projectPath file : string) : option RouteInfo :=
  let relativePath := Path.relative (cwd w) dir file in
  let routePath := convert relativePath in
  if truthy routePath then
    Some (mkRouteInfo routePath
            (Some relativePath)
            None
            (Some (includes routePath "[" || includes routePath "..."))
            (Some (includes routePath "..."))
            (Some (Path.relative (cwd w) projectPath file))
            None)
  else None.

Definition extractNextJSAppRoutes (w : World) (appDir projectPath : string)
  : list RouteInfo :=
  match glob w sourcePattern appDir [] with
  | Thrown _ => []
  | Returned files =>
      flat_map (fun file =>
                  match nextJSRouteOfFile convertNextJSAppPathToRoute w appDir projectPath file with
                  | Some r => [r]
                  | None => []
                  end) files
  end.

Definition extractNextJSPagesRoutes (w : World) (pagesDir projectPath : string)
  : list RouteInfo :=
  match glob w sourcePattern pagesDir [] with
  | Thrown _ => []
  | Returned files =>
      flat_map (fun file =>
                  match nextJSRouteOfFile convertNextJSPagesPathToRoute w pagesDir projectPath file with
                  | Some r => [r]
                  | None => []
                  end) files
  end.

Definition extractNextJSRoutes (w : World) (projectPath : string) : list RouteInfo :=
  let pagesDir := Path.join [projectPath; "pages"] in
  let appDir := Path.join [projectPath; "app"] in
  (if pathExists w appDir then extractNextJSAppRoutes w appDir projectPath else [])
  ++ (if pathExists w pagesDir then extractNextJSPagesRoutes w pagesDir projectPath else []).

(* ================================================================== *)
(** ** Import resolution (index.ts, lines 652-693) *)
(* ================================================================== *)

Definition getRelativePath (w : World) (filePath projectPath : string) : string :=
  Path.relative (cwd w) projectPath filePath.

Definition resolveImportPath (w : World) (importPath currentFile projectPath : string)
  : string :=
  if startsWith importPath "." then
    let currentDir := Path.dirname currentFile in
    let resolvedPath := Path.resolve (cwd w) [currentDir; importPath] in
    if negb (truthy (Path.extname importPath)) then
      match List.find (fun ext => pathExists w (resolvedPath +:+ ext))
                      [".tsx"; ".ts"; ".jsx"; ".js"] with
      | Some ext => getRelativePath w (resolvedPath +:+ ext) projectPath
      | None => getRelativePath w (resolvedPath +:+ ".tsx") projectPath
      end
    else getRelativePath w resolvedPath projectPath
  else if startsWith importPath "/" || startsWith importPath "src/" then
    getRelativePath w (Path.resolve (cwd w) [projectPath; importPath]) projectPath
  else importPath.

(* ================================================================== *)
(** ** Declaration-based extraction (index.ts, lines 372-647) *)
(* ================================================================== *)

(** The context of one file's extraction. *)
Record FileContext := mkFileContext {
  fc_world : World;
  fc_filePath : string;
  fc_projectPath : string;
  fc_imports : gmap string string
}.

(** The record both extractors start from. *)
Definition initialRouteInfo (fc : FileContext) : RouteInfo :=
  mkRouteInfo "/"
    (Some (getRelativePath (fc_world fc) (fc_filePath fc) (fc_projectPath fc)))
    (Some []) None None None None.

(** [routeInfo.path = v; routeInfo.dynamic = v.includes(":");
     routeInfo.catchAll = v.includes("*")] *)
Definition setPath (v : string) (ri : RouteInfo) : RouteInfo :=
  mkRouteInfo v (component ri) (children ri)
    (Some (includes v ":")) (Some (includes v "*"))
    (resolvedComponentPath ri) (importedComponent ri).

Definition setChildren (cs : list RouteInfo) (ri : RouteInfo) : RouteInfo :=
  mkRouteInfo (path ri) (component ri) (Some cs) (dynamic ri) (catchAll ri)
    (resolvedComponentPath ri) (importedComponent ri).

(** The block repeated for [component] and [element] in both extractors:
    look the component name up in the import table and, when the
    specifier is truthy, record the import and its resolved path. *)
Definition trackImportedComponent (fc : FileContext) (componentName : string)
           (ri : RouteInfo) : RouteInfo :=
  match fc_imports fc !! componentName with
  | Some importPath =>
      if truthy importPath then
        let fullPath :=
          resolveImportPath (fc_world fc) importPath (fc_filePath fc) (fc_projectPath fc) in
        mkRouteInfo (path ri) (component ri) (children ri) (dynamic ri) (catchAll ri)
          (Some fullPath)
          (Some (mkImportedComponent componentName importPath (Some fullPath)))
      else ri
  | None => ri
  end.

(** The type guards of [@babel/types] used by the extractors; an absent
    attribute value ([null]) fails every guard. *)
Definition isStringLiteral (n : option Node) : bool :=
  match n with Some (StringLiteral _) => true | _ => false end.

Definition isIdentifier (n : option Node) : bool :=
  match n with Some (Identifier _) => true | _ => false end.

Definition isJSXExpressionContainer (n : option Node) : bool :=
  match n with Some (JSXExpressionContainer _) => true | _ => false end.

Definition isJSXElement (n : option Node) : bool :=
  match n with Some (JSXElement _ _ _) => true | _ => false end.

Definition isArrayExpression (n : option Node) : bool :=
  match n with Some (ArrayExpression _) => true | _ => false end.

(** One iteration of the attribute loop of [extractRouteFromJSXElement].
    Each branch of the source's [if / else if] chain is guarded as in the
    source; the inner [match] reads the fields the guard has established. *)
Definition jsxAttributeStep (fc : FileContext) (routeInfo : RouteInfo)
           (attr : JSXAttributeNode Node) : RouteInfo :=
  match attr with
  | JSXAttribute (JSXIdentifier attrName) value =>
      if String.eqb attrName "path" && isStringLiteral value then
        match value with
        | Some (StringLiteral v) => setPath v routeInfo
        | _ => routeInfo
        end
      else if String.eqb attrName "component" && isJSXExpressionContainer value then
        match value with
        | Some (JSXExpressionContainer (Identifier componentName)) =>
            trackImportedComponent fc componentName routeInfo
        | _ => routeInfo
        end
      else if String.eqb attrName "element" && isJSXExpressionContainer value then
        match value with
        | Some (JSXExpressionContainer (JSXElement (JSXIdentifier componentName) _ _)) =>
            trackImportedComponent fc componentName routeInfo
        | _ => routeInfo
        end
      else routeInfo
  | _ => routeInfo
  end.

(** [extractRouteFromJSXElement] (lines 462-532), on the attributes of the
    opening element.  The declared result type allows [null]; the function
    always returns the record. *)
Definition extractRouteFromJSXElement (fc : FileContext)
           (attributes : list (JSXAttributeNode Node)) : option RouteInfo :=
  Some (fold_left (jsxAttributeStep fc) attributes (initialRouteInfo fc)).

(** [extractRouteFromObjectExpression] (lines 567-647).  It is only ever
    called on object expressions; on them it always returns the record.
    The property loop is the [fold_left]; its body follows the source's
    [if / else if] chain. *)
Fixpoint extractRouteFromObjectExpression (fc : FileContext) (node : Node)
  : option RouteInfo :=
  match node with
  | ObjectExpression properties =>
      Some (fold_left
        (fun routeInfo prop =>
           match prop with
           | ObjectProperty (Identifier key) value =>
               if String.eqb key "path" && isStringLiteral (Some value) then
                 match value with
                 | StringLiteral v => setPath v routeInfo
                 | _ => routeInfo
                 end
               else if String.eqb key "component" && isIdentifier (Some value) then
                 match value with
                 | Identifier componentName =>
                     trackImportedComponent fc componentName routeInfo
                 | _ => routeInfo
                 end
               else if String.eqb key "element" && isJSXElement (Some value) then
                 match value with
                 | JSXElement (JSXIdentifier componentName) _ _ =>
                     trackImportedComponent fc componentName routeInfo
                 | _ => routeInfo
                 end
               else if String.eqb key "children" && isArrayExpression (Some value) then
                 match value with
                 | ArrayExpression elements =>
                     setChildren
                       (flat_map
                          (fun element =>
                             match element with
                             | Some (ObjectExpression _ as el) =>
                                 match extractRouteFromObjectExpression fc el with
                                 | Some child => [child]
                                 | None => []
                                 end
                             | _ => []
                             end) elements)
                       routeInfo
                 | _ => routeInfo
                 end
               else routeInfo
           | _ => routeInfo
           end)
        properties (initialRouteInfo fc))
  | _ => None
  end.

(** [extractRoutesFromCreateBrowserRouter] (lines 537-562), on the
    argument list of the call. *)
Definition extractRoutesFromCreateBrowserRouter (fc : FileContext)
           (args : list Node) : list RouteInfo :=
  match args with
  | ArrayExpression elements :: _ =>
      flat_map (fun element =>
                  match element with
                  | Some (ObjectExpression _ as el) =>
                      match extractRouteFromObjectExpression fc el with
                      | Some routeInfo => [routeInfo]
                      | None => []
                      end
                  | _ => []
                  end) elements
  | _ => []
  end.

(** First pass of [extractReactRouterRoutesFromFile]: the import table. *)
Definition collectImports (ast : Node) : gmap string string :=
  fold_left
    (fun imports n =>
       match n with
       | ImportDeclaration source specifiers =>
           fold_left (fun imports specifier =>
                        match specifier with
                        | ImportDefaultSpecifier componentName =>
                            <[componentName := source]> imports
                        | ImportSpecifier localName =>
                            <[localName := source]> imports
                        | ImportNamespaceSpecifier _ => imports
                        end) specifiers imports
       | _ => imports
       end)
    (preorder ast) ∅.

(** The [Route] elements entered by the second pass, in document order,
    each given by its attributes. *)
Definition routeElements (ast : Node) : list (list (JSXAttributeNode Node)) :=
  flat_map (fun n => match n with
                     | JSXElement (JSXIdentifier tag) attributes _ =>
                         if String.eqb tag "Route" then [attributes] else []
                     | _ => []
                     end) (preorder ast).

(** The [createBrowserRouter(...)] calls entered by the second pass, each
    given by its argument list. *)
Definition routerCalls (ast : Node) : list (list Node) :=
  flat_map (fun n => match n with
                     | CallExpression (Identifier callee) args =>
                         if String.eqb callee "createBrowserRouter" then [args] else []
                     | _ => []
                     end) (preorder ast).

Definition extractReactRouterRoutesFromFile (w : World)
           (filePath content projectPath : string) : list RouteInfo :=
  match parse w content with
  | Thrown _ => []
  | Returned ast =>
      let fc := mkFileContext w filePath projectPath (collectImports ast) in
      let jsxResults := List.map (extractRouteFromJSXElement fc) (routeElements ast) in
      let routerArrays :=
        List.map (extractRoutesFromCreateBrowserRouter fc) (routerCalls ast) in
      flat_map (fun ri => match ri with Some r => [r] | None => [] end) jsxResults
      ++ List.concat routerArrays
  end.

(* ================================================================== *)
(** ** Project scans (index.ts, lines 287-367) *)
(* ================================================================== *)

Definition scanIgnore : list string :=
  ["**/node_modules/**"; "**/dist/**"; "**/build/**"].

(** The condition that selects a file for parsing. *)
Definition hasRouterSignal (content : string) : bool :=
  includes content "react-router-dom"
  || includes content "BrowserRouter"
  || includes content "Routes".

(** The file loop of [extractViteRoutes]; [routes] is the array filled so
    far.  A failing [readFile] leaves the loop through the enclosing
    [catch], and what has been collected is returned. *)
Fixpoint viteFileLoop (w : World) (projectPath : string) (files : list string)
         (routes : list RouteInfo) : list RouteInfo :=
  match files with
  | [] => routes
  | file :: rest =>
      match readFile w file with
      | Thrown _ => routes
      | Returned content =>
          if hasRouterSignal content then
            viteFileLoop w projectPath rest
              (routes ++ extractReactRouterRoutesFromFile w file content projectPath)
          else viteFileLoop w projectPath rest routes
      end
  end.

Definition extractViteRoutes (w : World) (projectPath : string) : list RouteInfo :=
  match glob w sourcePattern projectPath scanIgnore with
  | Thrown _ => []
  | Returned routerFiles => viteFileLoop w projectPath routerFiles []
  end.

(** [`${route.path}|${route.component || "no-component"}`] *)
Definition routeKey (route : RouteInfo) : string :=
  path route +:+ "|" +:+
  match component route with
  | Some c => if truthy c then c else "no-component"
  | None => "no-component"
  end.

(** The state of [extractReactRouterRoutes]: the result array and the set
    of keys seen so far. *)
Definition addRoute (st : list RouteInfo * gset string) (route : RouteInfo)
  : list RouteInfo * gset string :=
  let '(routes, seenRoutes) := st in
  if bool_decide (routeKey route ∈ seenRoutes) then st
  else (routes ++ [route], {[routeKey route]} ∪ seenRoutes).

Fixpoint reactRouterFileLoop (w : World) (projectPath : string) (files : list string)
         (st : list RouteInfo * gset string) : list RouteInfo :=
  match files with
  | [] => fst st
  | file :: rest =>
      match readFile w file with
      | Thrown _ => fst st
      | Returned content =>
          if hasRouterSignal content then
            reactRouterFileLoop w projectPath rest
              (fold_left addRoute
                 (extractReactRouterRoutesFromFile w file content projectPath) st)
          else reactRouterFileLoop w projectPath rest st
      end
  end.

Definition extractReactRouterRoutes (w : World) (projectPath : string)
  : list RouteInfo :=
  match glob w sourcePattern projectPath scanIgnore with
  | Thrown _ => []
  | Returned routerFiles => reactRouterFileLoop w projectPath routerFiles ([], ∅)
  end.

(* ================================================================== *)
(** ** The entry point (index.ts, lines 45-87) *)
(* ================================================================== *)

Definition extractSiteRoutes (w : World) (projectPath : string) : ExtractionResult :=
  if negb (pathExists w projectPath) then
    mkExtractionResult (mkFrameworkInfo unknown None) []
      ["Project path does not exist: " +:+ projectPath]
  else
    match detectFramework w projectPath with
    | Thrown msg =>
        mkExtractionResult (mkFrameworkInfo unknown None) []
          ["Error during extraction: " +:+ msg]
    | Returned fw =>
        match name fw with
        | nextjs => mkExtractionResult fw (extractNextJSRoutes w projectPath) []
        | vite => mkExtractionResult fw (extractViteRoutes w projectPath) []
        | react_router_dom =>
            mkExtractionResult fw (extractReactRouterRoutes w projectPath) []
        | unknown => mkExtractionResult fw [] ["Unsupported or unknown framework"]
        end
    end.

(* ================================================================== *)
(** ** Concrete projects *)
(* ================================================================== *)

(** A project given by explicit tables: the paths that exist, the parsed
    manifests, what [glob] lists for a directory, and the source files
    with their text and syntax tree.  All keys are absolute paths; the
    probes resolve their argument against the working directory first. *)
Record Project := mkProject {
  pr_cwd : string;
  pr_existing : list string;
  pr_manifests : list (string * Outcome PackageJson);
  pr_listings : list (string * list string);
  pr_sources : list (string * (string * Outcome Node))
}.

Definition lookupPath {A : Type} (key : string) (table : list (string * A))
  : option A :=
  match List.find (fun e => String.eqb (fst e) key) table with
  | Some e => Some (snd e)
  | None => None
  end.

Definition worldOf (p : Project) : World :=
  mkWorld (pr_cwd p)
    (fun f => existsb (String.eqb (Path.resolve (pr_cwd p) [f])) (pr_existing p))
    (fun f => match lookupPath (Path.resolve (pr_cwd p) [f]) (pr_manifests p) with
              | Some o => o
              | None => Thrown "ENOENT: no such file or directory"
              end)
    (fun _ dir _ => match lookupPath (Path.resolve (pr_cwd p) [dir]) (pr_listings p) with
                    | Some files => Returned files
                    | None => Returned []
                    end)
    (fun f => match lookupPath (Path.resolve (pr_cwd p) [f]) (pr_sources p) with
              | Some (content, _) => Returned content
              | None => Thrown "ENOENT: no such file or directory"
              end)
    (fun content =>
       match List.find (fun e => String.eqb (fst (snd e)) content) (pr_sources p) with
       | Some (_, (_, ast)) => ast
       | None => Thrown "Unexpected token"
       end).

Module Scenarios.

(** The project of the repository's test file: a manifest with
    [next: "14.0.0"], three pages and three app-router files. *)
Definition nextProject : World :=
  worldOf (mkProject "/w"
    ["/w/test-project"; "/w/test-project/package.json";
     "/w/test-project/pages"; "/w/test-project/app"]
    [("/w/test-project/package.json",
      Returned (mkPackageJson {["next" := "14.0.0"]} ∅))]
    [("/w/test-project/pages",
      ["/w/test-project/pages/index.tsx";
       "/w/test-project/pages/users/[id].tsx";
       "/w/test-project/pages/blog/[...slug].tsx"]);
     ("/w/test-project/app",
      ["/w/test-project/app/page.tsx";
       "/w/test-project/app/dashboard/page.tsx";
       "/w/test-project/app/users/[id]/page.tsx"])]
    []).

(** The same manifest with the pages directory only. *)
Definition nextPagesProject : World :=
  worldOf (mkProject "/w"
    ["/w/test-project"; "/w/test-project/package.json"; "/w/test-project/pages"]
    [("/w/test-project/package.json",
      Returned (mkPackageJson {["next" := "14.0.0"]} ∅))]
    [("/w/test-project/pages",
      ["/w/test-project/pages/index.tsx";
       "/w/test-project/pages/users/[id].tsx";
       "/w/test-project/pages/blog/[...slug].tsx"])]
    []).

(** An app directory holding a directory whose name has a stray bracket. *)
Definition strayBracketProject : World :=
  worldOf (mkProject "/w"
    ["/w/site"; "/w/site/app"; "/w/site/next.config.js"]
    []
    [("/w/site/app", ["/w/site/app/a]/page.tsx"; "/w/site/app/users/[id]/page.tsx"])]
    []).

(** Nothing exists. *)
Definition emptyDisk : World := worldOf (mkProject "/w" [] [] [] []).

(** No manifest, and a config file of both frameworks. *)
Definition bothConfigsProject : World :=
  worldOf (mkProject "/w"
    ["/w/site"; "/w/site/next.config.js"; "/w/site/vite.config.ts"] [] [] []).

(** No manifest, a vite config file only. *)
Definition viteConfigProject : World :=
  worldOf (mkProject "/w" ["/w/site"; "/w/site/vite.config.js"] [] [] []).

Definition jsxAttr (attrName : string) (v : Node) : JSXAttributeNode Node :=
  JSXAttribute (JSXIdentifier attrName) (Some v).

Definition jsxUse (componentName : string) : Node :=
  JSXExpressionContainer (JSXElement (JSXIdentifier componentName) [] []).

(** [src/App.tsx] of a react-router-dom project:
<<
  import { Routes, Route } from 'react-router-dom';
  import Home from './pages/Home';
  import { NotFound } from 'some-ui-kit';
  export default () => (
    <Routes>
      <Route path='/' element={<Home />} />
      <Route element={<Home />} />
      <Route path='*' element={<NotFound />} />
    </Routes>);
  export const router = createBrowserRouter([
    { path: '/a', children: [{ path: '/a/:b' }, { element: <Home /> }] },
    { component: NotFound }, 42 ]);
>> *)
Definition appSourceText : string :=
  "import { Routes, Route } from 'react-router-dom'; ...".

Definition appSourceTree : Node :=
  OtherNode
    [ ImportDeclaration "react-router-dom" [ImportSpecifier "Routes"; ImportSpecifier "Route"];
      ImportDeclaration "./pages/Home" [ImportDefaultSpecifier "Home"];
      ImportDeclaration "some-ui-kit" [ImportSpecifier "NotFound"];
      OtherNode
        [ JSXElement (JSXIdentifier "Routes") []
            [ JSXElement (JSXIdentifier "Route")
                [jsxAttr "path" (StringLiteral "/"); jsxAttr "element" (jsxUse "Home")] [];
              JSXElement (JSXIdentifier "Route")
                [jsxAttr "element" (jsxUse "Home")] [];
              JSXElement (JSXIdentifier "Route")
                [jsxAttr "path" (StringLiteral "*"); jsxAttr "element" (jsxUse "NotFound")] [] ] ];
      OtherNode
        [ CallExpression (Identifier "createBrowserRouter")
            [ ArrayExpression
                [ Some (ObjectExpression
                    [ ObjectProperty (Identifier "path") (StringLiteral "/a");
                      ObjectProperty (Identifier "children")
                        (ArrayExpression
                           [ Some (ObjectExpression
                               [ObjectProperty (Identifier "path") (StringLiteral "/a/:b")]);
                             Some (ObjectExpression
                               [ObjectProperty (Identifier "element")
                                  (JSXElement (JSXIdentifier "Home") [] [])]) ]) ]);
                  Some (ObjectExpression
                    [ObjectProperty (Identifier "component") (Identifier "NotFound")]);
                  Some (OtherNode []) ] ] ] ].

Definition routerProject : World :=
  worldOf (mkProject "/w"
    ["/w/app"; "/w/app/package.json"; "/w/app/src/App.tsx"; "/w/app/src/pages/Home.jsx"]
    [("/w/app/package.json",
      Returned (mkPackageJson {["react-router-dom" := "^6.4.0"]} ∅))]
    [("/w/app", ["/w/app/src/App.tsx"])]
    [("/w/app/src/App.tsx", (appSourceText, Returned appSourceTree))]).

(** Two files of a react-router-dom project whose routes differ in path
    and in file, [<Route path='/x|y' />] in [z.tsx] and
    [<Route path='/x' />] in [y|z.tsx]. *)
Definition routeFile (signal routePath : string) : string * Outcome Node :=
  (signal,
   Returned (OtherNode
     [ JSXElement (JSXIdentifier "Routes") []
         [ JSXElement (JSXIdentifier "Route")
             [jsxAttr "path" (StringLiteral routePath)] [] ] ])).

Definition barProject (manifestKey : string) : World :=
  worldOf (mkProject "/w"
    ["/w/app"; "/w/app/package.json"; "/w/app/z.tsx"; "/w/app/y|z.tsx"]
    [("/w/app/package.json",
      Returned (mkPackageJson {[manifestKey := "^6.4.0"]} ∅))]
    [("/w/app", ["/w/app/z.tsx"; "/w/app/y|z.tsx"])]
    [("/w/app/z.tsx", routeFile "<Routes><Route path='/x|y' /></Routes>" "/x|y");
     ("/w/app/y|z.tsx", routeFile "<Routes><Route path='/x' /></Routes>" "/x")]).

End Scenarios.

(** The reading of "later (path, component) duplicates removed": a record
    is kept unless an earlier record of the list has the same path and the
    same component. *)
Definition samePathAndComponent (a b : RouteInfo) : bool :=
  String.eqb (path a) (path b) &&
  match component a, component b with
  | Some x, Some y => String.eqb x y
  | None, None => true
  | _, _ => false
  end.

Fixpoint removeLaterDuplicatesFrom (earlier : list RouteInfo) (l : list RouteInfo)
  : list RouteInfo :=
  match l with
  | [] => []
  | r :: rest =>
      if existsb (samePathAndComponent r) earlier
      then removeLaterDuplicatesFrom earlier rest
      else r :: removeLaterDuplicatesFrom (earlier ++ [r]) rest
  end.

Definition removeLaterDuplicates (l : list RouteInfo) : list RouteInfo :=
  removeLaterDuplicatesFrom [] l.

(** What the source does instead: the same scan on the key strings. *)
Definition removeLaterKeys (l : list RouteInfo) : list RouteInfo :=
  fst (fold_left addRoute l ([], ∅)).

(** The summary of a record used when results are displayed. *)
Definition routeSummary (r : RouteInfo) : string * option bool * option bool :=
  (path r, dynamic r, catchAll r).

(* ================================================================== *)
(** ** Predicates used in the statements *)
(* ================================================================== *)

(** Bracket segments of a file path: outside any bracket, just behind an
    opening bracket, or inside a segment with at least one character. *)
Inductive BracketState := Outside | Opened | Inside.

Definition bracketStep (st : BracketState) (c : ascii) : option BracketState :=
  match st with
  | Outside =>
      if Ascii.eqb c "[" then Some Opened
      else if Ascii.eqb c "]" then None
      else Some Outside
  | Opened =>
      if Ascii.eqb c "[" || Ascii.eqb c "]" then None else Some Inside
  | Inside =>
      if Ascii.eqb c "[" then None
      else if Ascii.eqb c "]" then Some Outside
      else Some Inside
  end.

Fixpoint scanBrackets (st : BracketState) (s : string) : option BracketState :=
  match s with
  | EmptyString => Some st
  | String c s' =>
      match bracketStep st c with
      | Some st' => scanBrackets st' s'
      | None => None
      end
  end.

(** Every bracket of [s] belongs to a segment [[name]] whose name is not
    empty and holds no bracket. *)
Definition wellBracketed (s : string) : bool :=
  match scanBrackets Outside s with
  | Some Outside => true
  | _ => false
  end.

(** Neither "[" nor "]" occurs in [s]. *)
Fixpoint bracketFree (s : string) : bool :=
  match s with
  | EmptyString => true
  | String c s' => negb (Ascii.eqb c "[") && negb (Ascii.eqb c "]") && bracketFree s'
  end.

(** A [path] attribute whose value is a string literal. *)
Definition isUsablePathAttribute (attr : JSXAttributeNode Node) : bool :=
  match attr with
  | JSXAttribute (JSXIdentifier attrName) (Some (StringLiteral _)) =>
      String.eqb attrName "path"
  | _ => false
  end.

(** A [path] property whose value is a string literal. *)
Definition isUsablePathProperty (prop : ObjectMember Node) : bool :=
  match prop with
  | ObjectProperty (Identifier key) (StringLiteral _) => String.eqb key "path"
  | _ => false
  end.

(** The object literals of the array passed to [createBrowserRouter]. *)
Definition descriptorObjects (args : list Node) : list Node :=
  match args with
  | ArrayExpression elements :: _ =>
      flat_map (fun element =>
                  match element with
                  | Some (ObjectExpression _ as el) => [el]
                  | _ => []
                  end) elements
  | _ => []
  end.

(** The records nested below a record. *)
Definition nestedRoutes (r : RouteInfo) : list RouteInfo :=
  match children r with
  | Some cs => flat_map allRoutes cs
  | None => []
  end.

(** An import specifier that [resolveImportPath] treats as the name of an
    external package. *)
Definition isExternalSpecifier (importPath : string) : bool :=
  negb (startsWith importPath ".")
  && negb (startsWith importPath "/")
  && negb (startsWith importPath "src/").

(** A path segment that is not empty and does not begin with a separator. *)
Definition properSegment (x : string) : bool :=
  truthy x && negb (startsWith x "/").

(** *** Induction over syntax trees

    The induction principle for [Node] that reaches the nodes held in
    attribute lists, element lists and object members. *)

Definition attributeAll (P : Node -> Prop) (a : JSXAttributeNode Node) : Prop :=
  match a with
  | JSXAttribute _ (Some v) => P v
  | JSXAttribute _ None => True
  | JSXSpreadAttribute arg => P arg
  end.

Definition elementAll (P : Node -> Prop) (e : option Node) : Prop :=
  match e with
  | Some x => P x
  | None => True
  end.

Definition memberAll (P : Node -> Prop) (m : ObjectMember Node) : Prop :=
  match m with
  | ObjectProperty k v => P k /\ P v
  | ObjectMethod parts => Forall P parts
  | SpreadElement arg => P arg
  end.

Section NodeInduction.

Variable P : Node -> Prop.
Hypothesis P_Identifier : forall s, P (Identifier s).
Hypothesis P_StringLiteral : forall s, P (StringLiteral s).
Hypothesis P_ImportDeclaration : forall source specifiers,
    P (ImportDeclaration source specifiers).
Hypothesis P_JSXElement : forall tag attrs kids,
    Forall (attributeAll P) attrs -> Forall P kids -> P (JSXElement tag attrs kids).
Hypothesis P_JSXExpressionContainer : forall e, P e -> P (JSXExpressionContainer e).
Hypothesis P_ArrayExpression : forall els,
    Forall (elementAll P) els -> P (ArrayExpression els).
Hypothesis P_ObjectExpression : forall props,
    Forall (memberAll P) props -> P (ObjectExpression props).
Hypothesis P_CallExpression : forall callee args,
    P callee -> Forall P args -> P (CallExpression callee args).
Hypothesis P_OtherNode : forall kids, Forall P kids -> P (OtherNode kids).

Fixpoint Node_nested_ind (n : Node) : P n :=
  let nodes :=
    fix nodes (l : list Node) : Forall P l :=
      match l with
      | [] => @List.Forall_nil _ P
      | x :: l' => @List.Forall_cons _ _ x l' (Node_nested_ind x) (nodes l')
      end in
  match n with
  | Identifier s => P_Identifier s
  | StringLiteral s => P_StringLiteral s
  | ImportDeclaration source specifiers => P_ImportDeclaration source specifiers
  | JSXElement tag attrs kids =>
      P_JSXElement tag attrs kids
        ((fix attributes (l : list (JSXAttributeNode Node)) : Forall (attributeAll P) l :=
            match l with
            | [] => @List.Forall_nil _ _
            | a :: l' =>
                @List.Forall_cons _ _ a l'
                  (match a return attributeAll P a with
                   | JSXAttribute _ (Some v) => Node_nested_ind v
                   | JSXAttribute _ None => I
                   | JSXSpreadAttribute arg => Node_nested_ind arg
                   end)
                  (attributes l')
            end) attrs)
        (nodes kids)
  | JSXExpressionContainer e => P_JSXExpressionContainer e (Node_nested_ind e)
  | ArrayExpression els =>
      P_ArrayExpression els
        ((fix elements (l : list (option Node)) : Forall (elementAll P) l :=
            match l with
            | [] => @List.Forall_nil _ _
            | e :: l' =>
                @List.Forall_cons _ _ e l'
                  (match e return elementAll P e with
                   | Some x => Node_nested_ind x
                   | None => I
                   end)
                  (elements l')
            end) els)
  | ObjectExpression props =>
      P_ObjectExpression props
        ((fix members (l : list (ObjectMember Node)) : Forall (memberAll P) l :=
            match l with
            | [] => @List.Forall_nil _ _
            | m :: l' =>
                @List.Forall_cons _ _ m l'
                  (match m return memberAll P m with
                   | ObjectProperty k v => conj (Node_nested_ind k) (Node_nested_ind v)
                   | ObjectMethod parts => nodes parts
                   | SpreadElement arg => Node_nested_ind arg
                   end)
                  (members l')
            end) props)
  | CallExpression callee args =>
      P_CallExpression callee args (Node_nested_ind callee) (nodes args)
  | OtherNode kids => P_OtherNode kids (nodes kids)
  end.

End NodeInduction.

(** The record under construction still has the default path and no
    [dynamic] / [catchAll] flag. *)
Definition pathUnset (ri : RouteInfo) : Prop :=
  path ri = "/" /\ dynamic ri = None /\ catchAll ri = None.

(** The pair the deduplication is meant to work on. *)
Definition pathAndComponent (r : RouteInfo) : string * option string :=
  (path r, component r).

(* ================================================================== *)
(** ** The command line front end (bin/cli.js, lines 163-253) *)
(* ================================================================== *)

(** [main] of the command line tool, as far as its control flow goes:
    the argument loop, the branch taken and the exit status.  What is
    written to the console is not modelled; a run is described by the
    branch and by the data the branch prints from. *)
Module Cli.

Record Options := mkOptions {
  json : bool;
  pretty : bool;
  help : bool;
  version : bool
}.

(** [!projectPath]: [null] and the empty string are falsy. *)
Definition falsyPath (projectPath : option string) : bool :=
  match projectPath with
  | Some p => negb (truthy p)
  | None => true
  end.

(** One iteration of the argument loop (lines 176-192). *)
Definition parseStep (st : Options * option string) (arg : string)
  : Options * option string :=
  let '(options, projectPath) := st in
  if String.eqb arg "--json" then
    (mkOptions true false (help options) (version options), projectPath)
  else if String.eqb arg "--pretty" then
    (mkOptions false true (help options) (version options), projectPath)
  else if String.eqb arg "--help" || String.eqb arg "-h" then
    (mkOptions (json options) (pretty options) true (version options), projectPath)
  else if String.eqb arg "--version" || String.eqb arg "-v" then
    (mkOptions (json options) (pretty options) (help options) true, projectPath)
  else if falsyPath projectPath && negb (startsWith arg "-") then
    (options, Some arg)
  else st.

Definition parseArgs (args : list string) : Options * option string :=
  fold_left parseStep args (mkOptions false true false false, None).

(** The branch a run of [main] ends in. *)
Inductive Run :=
| Usage
| Version
| MissingPath
| Analyzed (resolvedPath : string) (options : Options) (result : ExtractionResult).

(** [main], given [process.argv.slice(2)]. *)
Definition main (w : World) (args : list string) : Run :=
  let '(options, projectPath) := parseArgs args in
  if help options then Usage
  else if version options then Version
  else
    match projectPath with
    | Some p =>
        if truthy p then
          let resolvedPath := Path.resolve (cwd w) [cwd w; p] in
          Analyzed resolvedPath options (extractSiteRoutes w resolvedPath)
        else MissingPath
    | None => MissingPath
    end.

(** The exit status of the process: [process.exit(0)] after the usage or
    the version, [process.exit(1)] without a project path or when the
    result carries errors, and the status of a normal end otherwise. *)
Definition exitCode (r : Run) : nat :=
  match r with
  | Usage | Version => 0
  | MissingPath => 1
  | Analyzed _ _ result => if (0 <? List.length (errors result))%nat then 1 else 0
  end.

End Cli.

(* ================================================================== *)
(** ** Further predicates used in the statements *)
(* ================================================================== *)

(** The basenames the app-style converter treats as special, and the
    source extensions both converters remove. *)
Definition specialBasenames : list string :=
  ["page"; "layout"; "loading"; "error"; "not-found"].

Definition sourceExtensions : list string := [".tsx"; ".ts"; ".jsx"; ".js"].

(** The character [c] does not occur in [s]. *)
Fixpoint charFree (c : ascii) (s : string) : bool :=
  match s with
  | EmptyString => true
  | String x s' => negb (Ascii.eqb x c) && charFree c s'
  end.

(** The flags of a declared route agree with its path: either no path was
    read and the flags are unset, or both flags are set from the path. *)
Definition flagsMatchPath (r : RouteInfo) : Prop :=
  (path r = "/" /\ dynamic r = None /\ catchAll r = None)
  \/ (dynamic r = Some (includes (path r) ":")
      /\ catchAll r = Some (includes (path r) "*")).

(** [importedComponent] and [resolvedComponentPath] go together: both are
    absent, or the import is recorded with a non-empty specifier and its
    [fullPath] is the resolved path. *)
Definition importConsistent (r : RouteInfo) : Prop :=
  match importedComponent r with
  | Some ic =>
      truthy (ic_path ic) = true
      /\ ic_fullPath ic = resolvedComponentPath r
      /\ resolvedComponentPath r <> None
  | None => resolvedComponentPath r = None
  end.

(** The flags of a record of the file-based strategy, as computed from
    the converted route path. *)
Definition fileFlagsMatchPath (r : RouteInfo) : Prop :=
  dynamic r = Some (includes (path r) "[" || includes (path r) "...")
  /\ catchAll r = Some (includes (path r) "...").

(** The import recorded in a declared route, against the import table of
    the declaring file: the component name is bound in the table to the
    recorded specifier, the specifier is not empty, and the resolved path
    is what [resolveImportPath] gives for it. *)
Definition importRecorded (fc : FileContext) (r : RouteInfo) : Prop :=
  match importedComponent r with
  | Some ic =>
      fc_imports fc !! ic_name ic = Some (ic_path ic)
      /\ truthy (ic_path ic) = true
      /\ resolvedComponentPath r
         = Some (resolveImportPath (fc_world fc) (ic_path ic)
                   (fc_filePath fc) (fc_projectPath fc))
      /\ ic_fullPath ic = resolvedComponentPath r
  | None => resolvedComponentPath r = None
  end.

(** What the records of a strategy look like: the component is present
    and not an absolute path; a record of the file-based strategy has no
    [children] and no [importedComponent] but a resolved path, a declared
    route has a [children] list. *)
Definition recordShape (fw : FrameworkName) (r : RouteInfo) : Prop :=
  (exists c, component r = Some c /\ Path.isAbsolute c = false)
  /\ match fw with
     | nextjs =>
         children r = None /\ importedComponent r = None
         /\ resolvedComponentPath r <> None
     | _ => children r <> None /\ importConsistent r
     end.

(** The values of the [path] attributes of an element that are string
    literals, in the order of the attributes. *)
Definition attributePaths (attributes : list (JSXAttributeNode Node)) : list string :=
  flat_map (fun attr =>
              match attr with
              | JSXAttribute (JSXIdentifier attrName) (Some (StringLiteral v)) =>
                  if String.eqb attrName "path" then [v] else []
              | _ => []
              end) attributes.

(** The values of the [path] properties of an object literal that are
    string literals, in the order of the properties. *)
Definition propertyPaths (properties : list (ObjectMember Node)) : list string :=
  flat_map (fun prop =>
              match prop with
              | ObjectProperty (Identifier key) (StringLiteral v) =>
                  if String.eqb key "path" then [v] else []
              | _ => []
              end) properties.

(** The import declarations of a file that bind a local name, by a
    default or a named specifier, with their sources. *)
Definition bindsName (componentName source : string) (n : Node) : Prop :=
  match n with
  | ImportDeclaration source' specifiers =>
      source' = source
      /\ (In (ImportDefaultSpecifier componentName) specifiers
          \/ In (ImportSpecifier componentName) specifiers)
  | _ => False
  end.

(** A path segment that [path.resolve] keeps as it is. *)
Definition plainSegment (x : string) : bool :=
  truthy x && negb (String.eqb x ".") && negb (String.eqb x "..").

(** The argument the command line takes as project path: the first one
    that is not empty and does not begin with a dash. *)
Definition isPathArgument (arg : string) : bool :=
  truthy arg && negb (startsWith arg "-").

(** The project path [main] goes on with, if any. *)
Definition effectivePath (projectPath : option string) : option string :=
  match projectPath with
  | Some p => if truthy p then Some p else None
  | None => None
  end.

Definition isHelpFlag (arg : string) : bool :=
  String.eqb arg "--help" || String.eqb arg "-h".

Definition isVersionFlag (arg : string) : bool :=
  String.eqb arg "--version" || String.eqb arg "-v".

Module MoreScenarios.

(** A project whose manifest cannot be parsed; a vite config is present. *)
Definition brokenManifestProject : World :=
  worldOf (mkProject "/w"
    ["/w/site"; "/w/site/package.json"; "/w/site/vite.config.ts"]
    [("/w/site/package.json", Thrown "Unexpected token } in JSON at position 17")]
    [] []).

(** [next] in both sections of the manifest, with [vite] and
    [react-router-dom] beside it and a vite config file on disk. *)
Definition mixedManifestProject : World :=
  worldOf (mkProject "/w"
    ["/w/site"; "/w/site/package.json"; "/w/site/vite.config.ts"]
    [("/w/site/package.json",
      Returned (mkPackageJson
                  (<["next" := "13.5.0"]> (<["react-router-dom" := "^6.4.0"]> ∅))
                  (<["next" := "14.0.0"]> (<["vite" := "^5.0.0"]> ∅))))]
    [] []).

(** A scan over four files: a route file, a file that cannot be parsed, a
    file that cannot be read and a second route file. *)
Definition scanProject : World :=
  worldOf (mkProject "/w"
    ["/w/app"; "/w/app/package.json"]
    [("/w/app/package.json",
      Returned (mkPackageJson {["vite" := "^5.0.0"]} ∅))]
    [("/w/app", ["/w/app/a.tsx"; "/w/app/broken.tsx"; "/w/app/gone.tsx"; "/w/app/b.tsx"])]
    [("/w/app/a.tsx", Scenarios.routeFile "<Routes><Route path='/a' /></Routes>" "/a");
     ("/w/app/broken.tsx", ("<Routes><Route path=", Thrown "Unexpected token (1:20)"));
     ("/w/app/b.tsx", Scenarios.routeFile "<Routes><Route path='/b/:id' /></Routes>" "/b/:id")]).

(** [next] declared in [dependencies], and with an empty version in
    [devDependencies]. *)
Definition maskedNextProject : World :=
  worldOf (mkProject "/w"
    ["/w/site"; "/w/site/package.json"]
    [("/w/site/package.json",
      Returned (mkPackageJson {["next" := "14.0.0"]} {["next" := ""]}))]
    [] []).

End MoreScenarios.

(* ================================================================== *)
(** ** Nested descriptors, import origins and format flags *)
(* ================================================================== *)

(** The array literals given as [children] of an object literal, in the
    order of the properties. *)
Definition childArrays (properties : list (ObjectMember Node))
  : list (list (option Node)) :=
  flat_map (fun prop =>
              match prop with
              | ObjectProperty (Identifier key) (ArrayExpression elements) =>
                  if String.eqb key "children" then [elements] else []
              | _ => []
              end) properties.

(** The object literals among the elements of an array literal. *)
Definition elementObjects (elements : list (option Node)) : list Node :=
  flat_map (fun element =>
              match element with
              | Some (ObjectExpression _ as el) => [el]
              | _ => []
              end) elements.

(** The route descriptors directly below an object literal: the object
    literals of its last [children] array. *)
Definition nestedDescriptors (properties : list (ObjectMember Node)) : list Node :=
  elementObjects (List.last (childArrays properties) []).

(** [descriptorUnder top d]: the object literal [d] is [top] itself or a
    route descriptor at some depth below it. *)
Inductive descriptorUnder : Node -> Node -> Prop :=
| descriptorUnder_here (properties : list (ObjectMember Node)) :
    descriptorUnder (ObjectExpression properties) (ObjectExpression properties)
| descriptorUnder_child (properties : list (ObjectMember Node)) (el d : Node) :
    In el (nestedDescriptors properties) ->
    descriptorUnder el d ->
    descriptorUnder (ObjectExpression properties) d.

(** A path relative to the project root: a result of [path.relative]
    from the project root to some location. *)
Definition projectRelative (w : World) (projectPath p : string) : Prop :=
  exists file, p = Path.relative (cwd w) projectPath file.

(** Where the resolved component path of a record comes from.  It is
    never absolute.  With a recorded import whose specifier names an
    external package it is that specifier, unchanged; otherwise it is a
    path relative to the project root. *)
Definition resolvedPathOrigin (w : World) (projectPath : string) (r : RouteInfo)
  : Prop :=
  forall p, resolvedComponentPath r = Some p ->
    Path.isAbsolute p = false
    /\ match importedComponent r with
       | Some ic =>
           ic_fullPath ic = Some p
           /\ if isExternalSpecifier (ic_path ic)
              then p = ic_path ic
              else projectRelative w projectPath p
       | None => projectRelative w projectPath p
       end.

(** The two arguments that select the output format. *)
Definition isFormatFlag (arg : string) : bool :=
  String.eqb arg "--json" || String.eqb arg "--pretty".

(** The last format flag of an argument list, if any. *)
Definition lastFormatFlag (args : list string) : option string :=
  List.find isFormatFlag (rev args).

Module ImportScenarios.

(** [src/App.tsx] of a project that imports a component by URL:
<<
  import { Routes, Route } from 'react-router-dom';
  import Banner from 'https://esm.sh/some-ui-kit';
  export default () => (
    <Routes>
      <Route path='/' element={<Banner />} />
    </Routes>);
>> *)
Definition urlSourceText : string :=
  "import { Routes, Route } from 'react-router-dom'; import Banner from 'https://esm.sh/some-ui-kit'; ...".

Definition urlSourceTree : Node :=
  OtherNode
    [ ImportDeclaration "react-router-dom" [ImportSpecifier "Routes"; ImportSpecifier "Route"];
      ImportDeclaration "https://esm.sh/some-ui-kit" [ImportDefaultSpecifier "Banner"];
      OtherNode
        [ JSXElement (JSXIdentifier "Routes") []
            [ JSXElement (JSXIdentifier "Route")
                [Scenarios.jsxAttr "path" (StringLiteral "/");
                 Scenarios.jsxAttr "element" (Scenarios.jsxUse "Banner")] [] ] ] ].

Definition urlImportProject : World :=
  worldOf (mkProject "/w"
    ["/w/app"; "/w/app/package.json"; "/w/app/src/App.tsx"]
    [("/w/app/package.json",
      Returned (mkPackageJson {["react-router-dom" := "^6.4.0"]} ∅))]
    [("/w/app", ["/w/app/src/App.tsx"])]
    [("/w/app/src/App.tsx", (urlSourceText, Returned urlSourceTree))]).

End ImportScenarios.

Module ConverterExamples.
Example pages_index : convertNextJSPagesPathToRoute "index.tsx" = "/".
Proof. reflexivity. Qed.
Example pages_user : convertNextJSPagesPathToRoute "users/[id].tsx" = "/users/:id".
Proof. reflexivity. Qed.
Example pages_blog : convertNextJSPagesPathToRoute "blog/[...slug].tsx" = "/blog/:...slug".
Proof. reflexivity. Qed.
Example app_root : convertNextJSAppPathToRoute "page.tsx" = "/page".
Proof. reflexivity. Qed.
Example app_dashboard : convertNextJSAppPathToRoute "dashboard/page.tsx" = "/dashboard".
Proof. reflexivity. Qed.
Example app_user : convertNextJSAppPathToRoute "users/[id]/page.tsx" = "/users/:id".
Proof. reflexivity. Qed.
Example app_optional : convertNextJSAppPathToRoute "shop/[[...slug]]/page.tsx" = "/shop/:*".
Proof. reflexivity. Qed.
Example app_stray : convertNextJSAppPathToRoute "a]/page.tsx" = "/a]".
Proof. reflexivity. Qed.
End ConverterExamples.

Module PathExamples.
Import Path.
Example join_rel : join ["./test-project"; "pages"] = "test-project/pages".
Proof. reflexivity. Qed.
Example join_abs : join ["/w/proj/"; "package.json"] = "/w/proj/package.json".
Proof. reflexivity. Qed.
Example resolve_up : resolve "/w" ["/w/proj/src"; "../pages/Home"] = "/w/proj/pages/Home".
Proof. reflexivity. Qed.
Example relative_down : relative "/w" "proj" "/w/proj/pages/users/[id].tsx" = "pages/users/[id].tsx".
Proof. reflexivity. Qed.
Example relative_up : relative "/w" "/w/proj/a" "/w/lib/x.ts" = "../../lib/x.ts".
Proof. reflexivity. Qed.
Example relative_same : relative "/w" "proj" "/w/proj" = "".
Proof. reflexivity. Qed.
Example dirname_file : dirname "/w/proj/src/App.tsx" = "/w/proj/src".
Proof. reflexivity. Qed.
Example dirname_top : dirname "/App.tsx" = "/".
Proof. reflexivity. Qed.
Example extname_none : extname "./pages/Home" = "".
Proof. reflexivity. Qed.
Example extname_some : extname "./pages/Home.view.tsx" = ".tsx".
Proof. reflexivity. Qed.
Example extname_dotfile : extname "./.env" = "".
Proof. reflexivity. Qed.
Example extname_dots : extname ".." = "".
Proof. reflexivity. Qed.
End PathExamples.

(* ================================================================== *)
(** * Properties *)
(* ================================================================== *)

(** ** Strings *)

#[local] Arguments String.append : simpl nomatch.

Section StringFacts.

Lemma append_empty_r (s : string) : s +:+ "" = s.
Proof. induction s as [|c s IH]; simpl; [reflexivity | now rewrite IH]. Qed.

Lemma append_assoc (a b c : string) : (a +:+ b) +:+ c = a +:+ (b +:+ c).
Proof. induction a as [|x a IH]; simpl; [reflexivity | now rewrite IH]. Qed.

Lemma prefix_append (sub a b : string) :
  String.prefix sub a = true -> String.prefix sub (a +:+ b) = true.
Proof.
  revert a; induction sub as [|x sub IH]; intros a H; [now destruct (a +:+ b)|].
  destruct a as [|y a]; simpl in *; [discriminate|].
  destruct (ascii_dec x y); [now apply IH | discriminate].
Qed.

Lemma includes_cons (c : ascii) (s sub : string) :
  includes (String c s) sub = String.prefix sub (String c s) || includes s sub.
Proof. reflexivity. Qed.

Lemma includes_append (a b sub : string) :
  includes a sub = true -> includes (a +:+ b) sub = true.
Proof.
  induction a as [|c a IH]; intros H.
  - destruct sub; [destruct b; reflexivity | discriminate].
  - change (String c a +:+ b) with (String c (a +:+ b)).
    rewrite includes_cons in *. apply orb_true_iff in H as [H|H].
    + change (String c (a +:+ b)) with (String c a +:+ b).
      now rewrite (prefix_append _ _ _ H).
    + rewrite (IH H). apply orb_true_r.
Qed.

Lemma prefix_char (c x : ascii) (s : string) :
  String.prefix (String c "") (String x s) = Ascii.eqb x c.
Proof.
  cbn [String.prefix]. destruct (ascii_dec c x) as [->|Hne].
  - rewrite Ascii.eqb_refl. now destruct s.
  - symmetry. apply Ascii.eqb_neq. congruence.
Qed.

Lemma includes_open (s : string) :
  bracketFree s = true -> includes s "[" = false.
Proof.
  induction s as [|c s IH]; intros H; [reflexivity|].
  rewrite includes_cons, prefix_char. cbn [bracketFree] in H.
  apply andb_true_iff in H as [H Hs]. apply andb_true_iff in H as [Ho _].
  apply negb_true_iff in Ho. now rewrite Ho, (IH Hs).
Qed.

Lemma includes_close (s : string) :
  bracketFree s = true -> includes s "]" = false.
Proof.
  induction s as [|c s IH]; intros H; [reflexivity|].
  rewrite includes_cons, prefix_char. cbn [bracketFree] in H.
  apply andb_true_iff in H as [H Hs]. apply andb_true_iff in H as [_ Hc].
  apply negb_true_iff in Hc. now rewrite Hc, (IH Hs).
Qed.

Lemma bracketFree_append (a b : string) :
  bracketFree (a +:+ b) = bracketFree a && bracketFree b.
Proof.
  induction a as [|c a IH]; simpl; [reflexivity|].
  now rewrite IH, andb_assoc.
Qed.

(** What an end-anchored replacement removes is a suffix accepted by the
    pattern, or nothing. *)
Lemma replaceAtEnd_split (atEnd : string -> bool) (s : string) :
  exists t, s = replaceAtEnd atEnd s +:+ t /\ (t = "" \/ atEnd t = true).
Proof.
  induction s as [|c s (t & Hs & Ht)]; simpl.
  - destruct (atEnd "") eqn:E; exists ""; auto.
  - destruct (atEnd (String c s)) eqn:E.
    + exists (String c s). auto.
    + exists t. simpl. split; [now rewrite <- Hs | exact Ht].
Qed.

Lemma isSourceExtension_bracketFree (t : string) :
  isSourceExtension t = true -> bracketFree t = true.
Proof.
  unfold isSourceExtension. rewrite !orb_true_iff, !String.eqb_eq.
  intros [[[->| ->]| ->]| ->]; reflexivity.
Qed.

End StringFacts.

(** ** Bracket segments and the plain-bracket substitution *)

Section Brackets.

Lemma bracketStep_plain (st : BracketState) (c : ascii) :
  Ascii.eqb c "[" = false -> Ascii.eqb c "]" = false ->
  bracketStep st c = Some (match st with Outside => Outside | _ => Inside end).
Proof. intros Ho Hc. destruct st; simpl; now rewrite Ho, Hc. Qed.

(** Over a bracket-free text the scan can only end outside if it started
    outside. *)
Lemma scanBrackets_plain (t : string) (st : BracketState) :
  bracketFree t = true -> scanBrackets st t = Some Outside -> st = Outside.
Proof.
  revert st; induction t as [|c t IH]; simpl; intros st Hfree Hscan.
  - congruence.
  - apply andb_true_iff in Hfree as [H Ht]. apply andb_true_iff in H as [Ho Hc].
    apply negb_true_iff in Ho, Hc.
    rewrite (bracketStep_plain st c Ho Hc) in Hscan.
    specialize (IH _ Ht Hscan). destruct st; congruence.
Qed.

(** Removing a bracket-free suffix keeps a path well bracketed. *)
Lemma scanBrackets_strip (s t : string) (st : BracketState) :
  bracketFree t = true ->
  scanBrackets st (s +:+ t) = Some Outside -> scanBrackets st s = Some Outside.
Proof.
  revert st; induction s as [|c s IH]; simpl; intros st Hfree Hscan.
  - now rewrite (scanBrackets_plain t st Hfree Hscan).
  - destruct (bracketStep st c); [eauto | discriminate].
Qed.

Lemma wellBracketed_strip (s t : string) :
  bracketFree t = true -> wellBracketed (s +:+ t) = true -> wellBracketed s = true.
Proof.
  unfold wellBracketed. intros Hfree H.
  destruct (scanBrackets Outside (s +:+ t)) as [[]|] eqn:E; try discriminate.
  now rewrite (scanBrackets_strip s t Outside Hfree E).
Qed.

Lemma wellBracketed_replaceAtEnd (atEnd : string -> bool) (s : string) :
  (forall t, atEnd t = true -> bracketFree t = true) ->
  wellBracketed s = true -> wellBracketed (replaceAtEnd atEnd s) = true.
Proof.
  intros Hfree H. destruct (replaceAtEnd_split atEnd s) as (t & Hs & Ht).
  rewrite Hs in H. apply (wellBracketed_strip _ t); [|exact H].
  destruct Ht as [->|Ht]; [reflexivity | now apply Hfree].
Qed.

(** A scan that resumes behind a match of the given length. *)
Lemma replaceAllFrom_skip (m : string -> option (string * nat)) (u rest : string) :
  replaceAllFrom m (String.length u) (u +:+ rest) = replaceAllFrom m 0 rest.
Proof. induction u as [|c u IH]; simpl; [destruct rest|]; auto. Qed.

(** The invariant of the plain-bracket substitution along a well
    bracketed text. Outside a segment the output has no bracket; inside
    one, the text splits into the rest of the name, the closing bracket
    and a remainder for which the same holds. *)
Lemma replaceAll_brackets (s : string) (st : BracketState) :
  scanBrackets st s = Some Outside ->
  match st with
  | Outside => bracketFree (replaceAllFrom matchBracket 0 s) = true
  | _ =>
      exists run rest,
        s = run +:+ String "]" rest /\ runToClose s = Some run /\
        bracketFree run = true /\ (st = Opened -> run <> "") /\
        bracketFree (replaceAllFrom matchBracket 0 rest) = true
  end.
Proof.
  revert st; induction s as [|c s IH]; intros st Hscan.
  - simpl in Hscan. injection Hscan as ->. reflexivity.
  - simpl in Hscan.
    destruct (bracketStep st c) as [st'|] eqn:Estep; [|discriminate].
    specialize (IH st' Hscan).
    destruct st; simpl in Estep.
    + (* outside *)
      destruct (Ascii.eqb c "[") eqn:Eo.
      * apply Ascii.eqb_eq in Eo as ->. injection Estep as <-.
        destruct IH as (run & rest & -> & Hrun & Hfree & Hne & Hrest).
        cbn [replaceAllFrom matchBracket]. rewrite Hrun.
        destruct (String.eqb run "") eqn:Erun.
        { apply String.eqb_eq in Erun. now elim Hne. }
        replace (String.length run + 2 - 1) with (String.length (run +:+ "]")).
        2:{ clear. induction run; simpl; [reflexivity|]. rewrite IHrun. lia. }
        replace (run +:+ String "]" rest) with ((run +:+ "]") +:+ rest)
          by (now rewrite append_assoc).
        rewrite replaceAllFrom_skip.
        change (bracketFree (String ":" run +:+ replaceAllFrom matchBracket 0 rest) = true).
        change (String ":" run +:+ ?x) with (String ":" (run +:+ x)).
        simpl. now rewrite bracketFree_append, Hfree, Hrest.
      * destruct (Ascii.eqb c "]") eqn:Ec; [discriminate|]. injection Estep as <-.
        cbn [replaceAllFrom].
        assert (matchBracket (String c s) = None) as ->.
        { unfold matchBracket. destruct c as [[] [] [] [] [] [] [] []]; try reflexivity.
          discriminate. }
        simpl. now rewrite Eo, Ec, IH.
    + (* just opened *)
      destruct (Ascii.eqb c "[" || Ascii.eqb c "]") eqn:E; [discriminate|].
      apply orb_false_iff in E as [Eo Ec]. injection Estep as <-.
      destruct IH as (run & rest & -> & Hrun & Hfree & _ & Hrest).
      exists (String c run), rest. simpl. rewrite Ec, Hrun, Eo, Hfree.
      repeat split; auto; try discriminate.
    + (* inside *)
      destruct (Ascii.eqb c "[") eqn:Eo; [discriminate|].
      destruct (Ascii.eqb c "]") eqn:Ec.
      * apply Ascii.eqb_eq in Ec as ->. injection Estep as <-.
        exists "", s. simpl. repeat split; auto; try discriminate.
      * injection Estep as <-.
        destruct IH as (run & rest & -> & Hrun & Hfree & _ & Hrest).
        exists (String c run), rest. simpl. rewrite Ec, Hrun, Eo, Hfree.
        repeat split; auto; try discriminate.
Qed.

Lemma replaceAll_matchBracket_free (s : string) :
  wellBracketed s = true -> bracketFree (replaceAll matchBracket s) = true.
Proof.
  unfold wellBracketed, replaceAll. intros H.
  destruct (scanBrackets Outside s) as [[]|] eqn:E; try discriminate.
  exact (replaceAll_brackets s Outside E).
Qed.

(** The spread pattern needs an opening bracket: on a bracket-free text
    the second substitution changes nothing. *)
Lemma replaceAll_matchSpread_free (s : string) :
  bracketFree s = true -> replaceAll matchSpread s = s.
Proof.
  unfold replaceAll. induction s as [|c s IH]; intros H; [reflexivity|].
  cbn [bracketFree] in H.
  apply andb_true_iff in H as [H Hs]. apply andb_true_iff in H as [Ho _].
  apply negb_true_iff in Ho. cbn [replaceAllFrom].
  assert (matchSpread (String c s) = None) as ->.
  { unfold matchSpread. destruct c as [[] [] [] [] [] [] [] []]; try reflexivity.
    discriminate. }
  now rewrite (IH Hs).
Qed.

End Brackets.

(** ** Relative paths *)

Section PathFacts.

Lemma startsWith_cons (c : ascii) (s : string) :
  startsWith (String c s) "/" = Ascii.eqb c "/".
Proof. apply prefix_char. Qed.

(** No segment produced by splitting begins with the separator. *)
Lemma segments_noSlash (s : string) :
  Forall (fun x => startsWith x "/" = false) (Path.segments s).
Proof.
  induction s as [|c s IH]; cbn [Path.segments].
  - repeat constructor.
  - destruct (Ascii.eqb c "/") eqn:E.
    + constructor; [reflexivity | exact IH].
    + destruct (Path.segments s) as [|seg rest].
      * constructor; [|constructor]. now rewrite startsWith_cons.
      * inversion IH; subst. constructor; [|assumption]. now rewrite startsWith_cons.
Qed.

Lemma normalizeStep_proper (allowAboveRoot : bool) (acc : list string) (seg : string) :
  Forall (fun x => properSegment x = true) acc ->
  startsWith seg "/" = false ->
  Forall (fun x => properSegment x = true) (Path.normalizeStep allowAboveRoot acc seg).
Proof.
  intros Hacc Hseg. unfold Path.normalizeStep.
  destruct (String.eqb seg "" || String.eqb seg ".") eqn:E1; [assumption|].
  apply orb_false_iff in E1 as [Hne _].
  destruct (String.eqb seg "..") eqn:E2.
  - destruct acc as [|top rest].
    + destruct allowAboveRoot; repeat constructor.
    + inversion Hacc; subst.
      destruct (String.eqb top ".."); [destruct allowAboveRoot|]; auto.
  - constructor; [|assumption].
    unfold properSegment, truthy. now rewrite Hne, Hseg.
Qed.

Lemma normalizeString_proper (allowAboveRoot : bool) (segs : list string) :
  Forall (fun x => startsWith x "/" = false) segs ->
  Forall (fun x => properSegment x = true) (Path.normalizeString allowAboveRoot segs).
Proof.
  unfold Path.normalizeString. intros H.
  apply Forall_rev.
  assert (forall acc, Forall (fun x => properSegment x = true) acc ->
            Forall (fun x => properSegment x = true)
              (fold_left (Path.normalizeStep allowAboveRoot) segs acc)) as Hfold.
  { induction H as [|seg segs Hseg _ IH]; intros acc Hacc; cbn [fold_left].
    - assumption.
    - apply IH. now apply normalizeStep_proper. }
  apply Hfold. constructor.
Qed.

Lemma resolveSegments_proper (cwd : string) (paths : list string) :
  Forall (fun x => properSegment x = true) (Path.resolveSegments cwd paths).
Proof.
  unfold Path.resolveSegments. destruct (Path.resolveRaw paths) as [raw absolute].
  apply normalizeString_proper, segments_noSlash.
Qed.

Lemma dropCommon_Forall (P : string -> Prop) (from to : list string) :
  Forall P from -> Forall P to ->
  Forall P (fst (Path.dropCommon from to)) /\ Forall P (snd (Path.dropCommon from to)).
Proof.
  revert to; induction from as [|f from IH]; intros to Hf Ht; cbn [Path.dropCommon].
  - now split.
  - destruct to as [|t to]; [now split|].
    destruct (String.eqb f t); [|now split].
    inversion Hf; inversion Ht; subst. now apply IH.
Qed.

(** Joining proper segments never yields an absolute path. *)
Lemma joinSegments_relative (segs : list string) :
  Forall (fun x => properSegment x = true) segs ->
  Path.isAbsolute (Path.joinSegments segs) = false.
Proof.
  intros H. destruct H as [|x xs Hx _]; [reflexivity|].
  unfold properSegment, truthy in Hx. apply andb_true_iff in Hx as [Hne Hslash].
  apply negb_true_iff in Hslash.
  destruct x as [|c x]; [discriminate|].
  rewrite startsWith_cons in Hslash.
  unfold Path.isAbsolute, Path.joinSegments. cbn [String.concat].
  destruct xs; [now rewrite startsWith_cons|].
  change (String c x +:+ ?y) with (String c (x +:+ y)).
  now rewrite startsWith_cons.
Qed.

(** [path.relative] never returns an absolute path. *)
Lemma relative_not_absolute (cwd from to : string) :
  Path.isAbsolute (Path.relative cwd from to) = false.
Proof.
  unfold Path.relative.
  destruct (dropCommon_Forall (fun x => properSegment x = true)
              (Path.resolveSegments cwd [from]) (Path.resolveSegments cwd [to])
              (resolveSegments_proper _ _) (resolveSegments_proper _ _)) as [_ Hdown].
  destruct (Path.dropCommon _ _) as [up down]. cbn [snd] in Hdown.
  apply joinSegments_relative, List.Forall_app. split; [|exact Hdown].
  induction (List.length up); cbn [repeat]; constructor; auto.
Qed.

(** The result of [resolveImportPath] is never an absolute path: it is
    either produced by [path.relative] or an import specifier that does
    not begin with a separator. *)
Lemma resolveImportPath_relative (w : World) (importPath currentFile projectPath : string) :
  Path.isAbsolute (resolveImportPath w importPath currentFile projectPath) = false.
Proof.
  unfold resolveImportPath, getRelativePath.
  destruct (startsWith importPath ".").
  - destruct (negb _); [destruct (List.find _ _)|]; apply relative_not_absolute.
  - destruct (startsWith importPath "/") eqn:E; cbn [orb].
    + apply relative_not_absolute.
    + destruct (startsWith importPath "src/"); [apply relative_not_absolute | exact E].
Qed.

(** [resolveImportPath] returns a path relative to the project root, or
    the specifier of an external package as it is. *)
Lemma resolveImportPath_provenance (w : World)
      (importPath currentFile projectPath : string) :
  (exists file,
     resolveImportPath w importPath currentFile projectPath
     = Path.relative (cwd w) projectPath file)
  \/ (resolveImportPath w importPath currentFile projectPath = importPath
      /\ isExternalSpecifier importPath = true).
Proof.
  unfold resolveImportPath, getRelativePath, isExternalSpecifier.
  destruct (startsWith importPath ".").
  - left. destruct (negb _); [destruct (List.find _ _)|]; eauto.
  - destruct (startsWith importPath "/"); cbn [orb]; [eauto|].
    destruct (startsWith importPath "src/"); [eauto | now right].
Qed.

End PathFacts.

(** ** Invariants of the declaration-based extractors *)

Lemma allRoutes_unfold (r : RouteInfo) : allRoutes r = r :: nestedRoutes r.
Proof. now destruct r. Qed.

(** A property of single records that the record under construction has
    from the start and that every update keeps holds for every record the
    extractors return, nested ones included. *)
Section DeclarationInvariant.

Variable fc : FileContext.
Variable Q : RouteInfo -> Prop.
Hypothesis Q_initial : Q (initialRouteInfo fc).
Hypothesis Q_setPath : forall v ri, Q ri -> Q (setPath v ri).
Hypothesis Q_track : forall c ri, Q ri -> Q (trackImportedComponent fc c ri).
Hypothesis Q_setChildren : forall cs ri, Q ri -> Q (setChildren cs ri).

Let Inv (ri : RouteInfo) : Prop := Q ri /\ Forall Q (nestedRoutes ri).

Lemma Inv_initial : Inv (initialRouteInfo fc).
Proof. split; [exact Q_initial | constructor]. Qed.

Lemma Inv_setPath (v : string) (ri : RouteInfo) : Inv ri -> Inv (setPath v ri).
Proof. intros [H1 H2]. split; [now apply Q_setPath | exact H2]. Qed.

Lemma Inv_track (c : string) (ri : RouteInfo) :
  Inv ri -> Inv (trackImportedComponent fc c ri).
Proof.
  intros [H1 H2]. split; [now apply Q_track|].
  unfold trackImportedComponent.
  destruct (fc_imports fc !! c) as [importPath|]; [|exact H2].
  destruct (truthy importPath); exact H2.
Qed.

Lemma Inv_setChildren (cs : list RouteInfo) (ri : RouteInfo) :
  Inv ri -> Forall (fun c => Forall Q (allRoutes c)) cs -> Inv (setChildren cs ri).
Proof.
  intros [H1 _] Hcs. split; [now apply Q_setChildren|].
  unfold nestedRoutes. cbn [children setChildren]. now apply List.Forall_flat_map.
Qed.

Lemma Inv_all (ri : RouteInfo) : Inv ri -> Forall Q (allRoutes ri).
Proof. intros [H1 H2]. rewrite allRoutes_unfold. now constructor. Qed.

Lemma jsxAttributeStep_Inv (ri : RouteInfo) (attr : JSXAttributeNode Node) :
  Inv ri -> Inv (jsxAttributeStep fc ri attr).
Proof.
  intros H. unfold jsxAttributeStep.
  destruct attr as [[attrName| |] value|]; try exact H.
  repeat match goal with
         | |- Inv (if ?b then _ else _) => destruct b
         | |- Inv (match ?x with _ => _ end) => destruct x
         end;
    auto using Inv_setPath, Inv_track.
Qed.

Lemma extractRouteFromJSXElement_all (attributes : list (JSXAttributeNode Node))
      (r : RouteInfo) :
  extractRouteFromJSXElement fc attributes = Some r -> Forall Q (allRoutes r).
Proof.
  unfold extractRouteFromJSXElement. intros [= <-]. apply Inv_all.
  generalize (initialRouteInfo fc) Inv_initial.
  induction attributes as [|a l IH]; intros ri H; cbn [fold_left];
    [exact H | apply IH, jsxAttributeStep_Inv, H].
Qed.

Let P0 (n : Node) : Prop :=
  forall r, extractRouteFromObjectExpression fc n = Some r -> Forall Q (allRoutes r).

Let P1 (n : Node) : Prop :=
  P0 n /\ match n with
          | ArrayExpression els => Forall (elementAll P0) els
          | _ => True
          end.

Lemma children_all (els : list (option Node)) :
  Forall (elementAll P0) els ->
  Forall (fun c => Forall Q (allRoutes c))
    (flat_map (fun element =>
                 match element with
                 | Some (ObjectExpression _ as el) =>
                     match extractRouteFromObjectExpression fc el with
                     | Some child => [child]
                     | None => []
                     end
                 | _ => []
                 end) els).
Proof.
  intros H. apply List.Forall_flat_map.
  eapply List.Forall_impl; [|exact H]. intros [el|] Hel; [|constructor].
  destruct el; try solve [constructor].
  constructor; [|constructor]. now apply Hel.
Qed.

Lemma extractRouteFromObjectExpression_nested (n : Node) : P1 n.
Proof.
  induction n using Node_nested_ind; split; try exact I;
    try (intros r Hr; discriminate Hr).
  - (* array *)
    eapply List.Forall_impl; [|eassumption]. intros [x|] Hx; [exact (proj1 Hx) | exact I].
  - (* object *)
    intros r. cbn [extractRouteFromObjectExpression]. intros [= <-].
    apply Inv_all. generalize (initialRouteInfo fc) Inv_initial.
    induction H as [|prop props Hprop _ IH]; intros ri Hri; cbn [fold_left];
      [exact Hri|].
    apply IH. clear IH.
    destruct prop as [key value| |]; try exact Hri.
    destruct key as [keyName|?|? ?|? ? ?|?|?|?|? ?|?]; try exact Hri.
    destruct Hprop as [_ [_ Hvalue]].
    repeat match goal with
           | |- Inv (if ?b then _ else _) => destruct b
           end;
      destruct value as [?|?|? ?|tag ? ?|?|?|?|? ?|?]; try destruct tag;
      try exact Hri; auto using Inv_setPath, Inv_track.
    apply Inv_setChildren; [exact Hri|]. now apply children_all.
Qed.

Lemma extractRouteFromObjectExpression_all (n : Node) (r : RouteInfo) :
  extractRouteFromObjectExpression fc n = Some r -> Forall Q (allRoutes r).
Proof. apply extractRouteFromObjectExpression_nested. Qed.

Lemma extractRoutesFromCreateBrowserRouter_all (args : list Node) :
  Forall (fun r => Forall Q (allRoutes r)) (extractRoutesFromCreateBrowserRouter fc args).
Proof.
  unfold extractRoutesFromCreateBrowserRouter.
  destruct args as [|[] ?]; try solve [constructor].
  apply List.Forall_flat_map, List.Forall_forall. intros [el|] _; [|constructor].
  destruct el; try solve [constructor].
  constructor; [|constructor].
  now apply (extractRouteFromObjectExpression_all (ObjectExpression properties)).
Qed.

End DeclarationInvariant.

(** ** Declarations without a usable path *)

Section PathUnset.

Variable fc : FileContext.

Lemma pathUnset_initial : pathUnset (initialRouteInfo fc).
Proof. repeat split. Qed.

Lemma pathUnset_track (c : string) (ri : RouteInfo) :
  pathUnset ri -> pathUnset (trackImportedComponent fc c ri).
Proof.
  intros H. unfold trackImportedComponent.
  destruct (fc_imports fc !! c) as [importPath|]; [|exact H].
  destruct (truthy importPath); exact H.
Qed.

Lemma jsxAttributeStep_pathUnset (ri : RouteInfo) (attr : JSXAttributeNode Node) :
  isUsablePathAttribute attr = false ->
  pathUnset ri -> pathUnset (jsxAttributeStep fc ri attr).
Proof.
  intros Hattr H. unfold jsxAttributeStep.
  destruct attr as [[attrName| |] value|]; try exact H.
  cbn [isUsablePathAttribute] in Hattr.
  destruct (String.eqb attrName "path" && isStringLiteral value) eqn:E.
  - apply andb_true_iff in E as [E1 E2].
    destruct value as [[]|]; try discriminate. congruence.
  - repeat match goal with
           | |- pathUnset (if ?b then _ else _) => destruct b
           | |- pathUnset (match ?x with _ => _ end) => destruct x
           end; auto using pathUnset_track.
Qed.

Lemma extractRouteFromJSXElement_pathUnset (attributes : list (JSXAttributeNode Node)) :
  forallb (fun a => negb (isUsablePathAttribute a)) attributes = true ->
  exists r, extractRouteFromJSXElement fc attributes = Some r /\ pathUnset r.
Proof.
  intros H. eexists. split; [reflexivity|].
  generalize (initialRouteInfo fc) pathUnset_initial.
  induction attributes as [|a l IH]; intros ri Hri; cbn [fold_left]; [exact Hri|].
  cbn [forallb] in H. apply andb_true_iff in H as [Ha Hl].
  apply negb_true_iff in Ha. now apply IH, jsxAttributeStep_pathUnset.
Qed.

Lemma extractRouteFromObjectExpression_pathUnset (properties : list (ObjectMember Node)) :
  forallb (fun p => negb (isUsablePathProperty p)) properties = true ->
  exists r, extractRouteFromObjectExpression fc (ObjectExpression properties) = Some r
            /\ pathUnset r.
Proof.
  intros H. eexists. split; [reflexivity|].
  generalize (initialRouteInfo fc) pathUnset_initial.
  induction properties as [|prop l IH]; intros ri Hri; cbn [fold_left]; [exact Hri|].
  cbn [forallb] in H. apply andb_true_iff in H as [Hp Hl].
  apply negb_true_iff in Hp. apply (IH Hl). clear IH Hl.
  destruct prop as [key value| |]; try exact Hri.
  destruct key as [keyName|?|? ?|? ? ?|?|?|?|? ?|?]; try exact Hri.
  cbn [isUsablePathProperty] in Hp.
  destruct (String.eqb keyName "path" && isStringLiteral (Some value)) eqn:E.
  - apply andb_true_iff in E as [E1 E2].
    destruct value; try discriminate. congruence.
  - repeat match goal with
           | |- pathUnset (if ?b then _ else _) => destruct b
           end;
      destruct value as [?|?|? ?|tag ? ?|?|?|?|? ?|?]; try destruct tag;
      try exact Hri; auto using pathUnset_track.
Qed.

(** Every object literal of the router array yields one record. *)
Lemma extractRoutesFromCreateBrowserRouter_map (args : list Node) :
  List.map Some (extractRoutesFromCreateBrowserRouter fc args)
  = List.map (extractRouteFromObjectExpression fc) (descriptorObjects args).
Proof.
  unfold extractRoutesFromCreateBrowserRouter, descriptorObjects.
  destruct args as [|[] ?]; try reflexivity.
  induction elements as [|[el|] l IH]; cbn [flat_map]; [reflexivity| |exact IH].
  destruct el; try exact IH.
  rewrite !List.map_app, IH. reflexivity.
Qed.

End PathUnset.

(** ** The per-file extraction and the project scans *)

Section FileExtraction.

Variables (w : World) (filePath content projectPath : string) (ast : Node).
Hypothesis parsed : parse w content = Returned ast.

Let fc : FileContext := mkFileContext w filePath projectPath (collectImports ast).

(** The result of a file: one record per [Route] element, then one per
    object literal of each router array. *)
Lemma extractReactRouterRoutesFromFile_map :
  List.map Some (extractReactRouterRoutesFromFile w filePath content projectPath)
  = List.map (extractRouteFromJSXElement fc) (routeElements ast)
    ++ List.map (extractRouteFromObjectExpression fc)
         (flat_map descriptorObjects (routerCalls ast)).
Proof.
  unfold extractReactRouterRoutesFromFile. rewrite parsed. fold fc.
  rewrite List.map_app. f_equal.
  - induction (routeElements ast) as [|a l IH]; [reflexivity|].
    cbn [List.map flat_map]. rewrite List.map_app, IH. reflexivity.
  - induction (routerCalls ast) as [|a l IH]; [reflexivity|].
    cbn [List.map List.concat flat_map]. rewrite !List.map_app, IH.
    now rewrite extractRoutesFromCreateBrowserRouter_map.
Qed.

Lemma extractReactRouterRoutesFromFile_length :
  List.length (extractReactRouterRoutesFromFile w filePath content projectPath)
  = List.length (routeElements ast)
    + List.length (flat_map descriptorObjects (routerCalls ast)).
Proof.
  rewrite <- (List.length_map Some), extractReactRouterRoutesFromFile_map.
  now rewrite List.length_app, !List.length_map.
Qed.

Lemma extractReactRouterRoutesFromFile_jsx (attributes : list (JSXAttributeNode Node))
      (r : RouteInfo) :
  In attributes (routeElements ast) ->
  extractRouteFromJSXElement fc attributes = Some r ->
  In r (extractReactRouterRoutesFromFile w filePath content projectPath).
Proof.
  intros Hin Hr.
  assert (In (Some r)
            (List.map Some (extractReactRouterRoutesFromFile w filePath content projectPath)))
    as H.
  { rewrite extractReactRouterRoutesFromFile_map. apply in_or_app. left.
    rewrite <- Hr. now apply in_map. }
  apply in_map_iff in H as (x & [= ->] & Hx). exact Hx.
Qed.

Lemma extractReactRouterRoutesFromFile_object (node : Node) (r : RouteInfo) :
  In node (flat_map descriptorObjects (routerCalls ast)) ->
  extractRouteFromObjectExpression fc node = Some r ->
  In r (extractReactRouterRoutesFromFile w filePath content projectPath).
Proof.
  intros Hin Hr.
  assert (In (Some r)
            (List.map Some (extractReactRouterRoutesFromFile w filePath content projectPath)))
    as H.
  { rewrite extractReactRouterRoutesFromFile_map. apply in_or_app. right.
    rewrite <- Hr. now apply in_map. }
  apply in_map_iff in H as (x & [= ->] & Hx). exact Hx.
Qed.

End FileExtraction.

(** ** The three strategies *)

Section Strategies.

Variables (w : World) (projectPath : string).

(** Where the records of the file-based strategy come from. *)
Lemma extractNextJSRoutes_In (r : RouteInfo) :
  In r (extractNextJSRoutes w projectPath) ->
  (exists file,
     nextJSRouteOfFile convertNextJSAppPathToRoute w
       (Path.join [projectPath; "app"]) projectPath file = Some r
     /\ In r (extractNextJSAppRoutes w (Path.join [projectPath; "app"]) projectPath))
  \/ (exists file,
        nextJSRouteOfFile convertNextJSPagesPathToRoute w
          (Path.join [projectPath; "pages"]) projectPath file = Some r).
Proof.
  unfold extractNextJSRoutes. intros H. apply in_app_or in H as [H|H].
  - left. destruct (pathExists w _); [|contradiction].
    assert (H' := H). unfold extractNextJSAppRoutes in H.
    destruct (glob w _ _ _) as [files|]; [|contradiction].
    apply in_flat_map in H as (file & _ & Hr). exists file.
    destruct (nextJSRouteOfFile _ _ _ _ _) as [r'|]; [|contradiction].
    destruct Hr as [->|[]]. now split.
  - right. destruct (pathExists w _); [|contradiction].
    unfold extractNextJSPagesRoutes in H.
    destruct (glob w _ _ _) as [files|]; [|contradiction].
    apply in_flat_map in H as (file & _ & Hr). exists file.
    destruct (nextJSRouteOfFile _ _ _ _ _) as [r'|]; [|contradiction].
    now destruct Hr as [->|[]].
Qed.

(** The fields of a record of the file-based strategy. *)
Lemma nextJSRouteOfFile_fields (convert : string -> string) (dir file : string)
      (r : RouteInfo) :
  nextJSRouteOfFile convert w dir projectPath file = Some r ->
  path r = convert (Path.relative (cwd w) dir file)
  /\ component r = Some (Path.relative (cwd w) dir file)
  /\ children r = None
  /\ dynamic r = Some (includes (path r) "[" || includes (path r) "...")
  /\ catchAll r = Some (includes (path r) "...")
  /\ resolvedComponentPath r = Some (Path.relative (cwd w) projectPath file).
Proof.
  unfold nextJSRouteOfFile. destruct (truthy _); [|discriminate].
  intros [= <-]. repeat split.
Qed.

Variable Q : RouteInfo -> Prop.
Hypothesis Q_initial : forall fc,
    fc_world fc = w -> fc_projectPath fc = projectPath -> Q (initialRouteInfo fc).
Hypothesis Q_setPath : forall v ri, Q ri -> Q (setPath v ri).
Hypothesis Q_track : forall fc c ri,
    fc_world fc = w -> fc_projectPath fc = projectPath ->
    Q ri -> Q (trackImportedComponent fc c ri).
Hypothesis Q_setChildren : forall cs ri, Q ri -> Q (setChildren cs ri).

Let deep (r : RouteInfo) : Prop := Forall Q (allRoutes r).

Lemma extractReactRouterRoutesFromFile_all (file content : string) :
  Forall deep (extractReactRouterRoutesFromFile w file content projectPath).
Proof.
  unfold extractReactRouterRoutesFromFile.
  destruct (parse w content) as [ast|]; [|constructor].
  set (fc := mkFileContext w file projectPath (collectImports ast)).
  assert (Q (initialRouteInfo fc)) as Hinitial by now apply Q_initial.
  assert (forall c ri, Q ri -> Q (trackImportedComponent fc c ri)) as Htrack
    by (intros c ri; now apply Q_track).
  apply List.Forall_app. split.
  - apply List.Forall_flat_map, List.Forall_forall. intros ri Hri.
    apply in_map_iff in Hri as (attributes & <- & _).
    constructor; [|constructor]. unfold deep.
    eapply (extractRouteFromJSXElement_all fc Q); try reflexivity; auto.
  - apply List.Forall_concat, List.Forall_forall. intros l Hl.
    apply in_map_iff in Hl as (args & <- & _).
    apply (extractRoutesFromCreateBrowserRouter_all fc Q); auto.
Qed.

Lemma viteFileLoop_all (files : list string) (routes : list RouteInfo) :
  Forall deep routes -> Forall deep (viteFileLoop w projectPath files routes).
Proof.
  revert routes; induction files as [|file rest IH]; intros routes H;
    cbn [viteFileLoop]; [exact H|].
  destruct (readFile w file) as [content|]; [|exact H].
  destruct (hasRouterSignal content); apply IH; [|exact H].
  apply List.Forall_app. split; [exact H | apply extractReactRouterRoutesFromFile_all].
Qed.

Lemma addRoute_all (st : list RouteInfo * gset string) (route : RouteInfo) :
  Forall deep (fst st) -> deep route -> Forall deep (fst (addRoute st route)).
Proof.
  destruct st as [routes seen]. unfold addRoute. intros H Hr.
  destruct (bool_decide _); [exact H|].
  cbn [fst] in *. apply List.Forall_app. split; [exact H | now constructor].
Qed.

Lemma fold_addRoute_all (l : list RouteInfo) (st : list RouteInfo * gset string) :
  Forall deep (fst st) -> Forall deep l -> Forall deep (fst (fold_left addRoute l st)).
Proof.
  revert st; induction l as [|r l IH]; intros st H Hl; cbn [fold_left]; [exact H|].
  inversion Hl; subst. apply IH; [now apply addRoute_all | assumption].
Qed.

Lemma reactRouterFileLoop_all (files : list string) (st : list RouteInfo * gset string) :
  Forall deep (fst st) -> Forall deep (reactRouterFileLoop w projectPath files st).
Proof.
  revert st; induction files as [|file rest IH]; intros st H;
    cbn [reactRouterFileLoop]; [exact H|].
  destruct (readFile w file) as [content|]; [|exact H].
  destruct (hasRouterSignal content); apply IH; [|exact H].
  apply fold_addRoute_all; [exact H | apply extractReactRouterRoutesFromFile_all].
Qed.

Lemma extractViteRoutes_all : Forall deep (extractViteRoutes w projectPath).
Proof.
  unfold extractViteRoutes. destruct (glob w _ _ _); [|constructor].
  apply viteFileLoop_all. constructor.
Qed.

Lemma extractReactRouterRoutes_all : Forall deep (extractReactRouterRoutes w projectPath).
Proof.
  unfold extractReactRouterRoutes. destruct (glob w _ _ _); [|constructor].
  apply reactRouterFileLoop_all. constructor.
Qed.

End Strategies.

(** ** The two project scans differ by the key filter only *)

Section ScanRefinement.

Variables (w : World) (projectPath : string).

Lemma viteFileLoop_app (files : list string) (routes : list RouteInfo) :
  viteFileLoop w projectPath files routes
  = routes ++ viteFileLoop w projectPath files [].
Proof.
  revert routes; induction files as [|file rest IH]; intros routes;
    cbn [viteFileLoop]; [now rewrite List.app_nil_r|].
  destruct (readFile w file) as [content|]; [|now rewrite List.app_nil_r].
  destruct (hasRouterSignal content); [|apply IH].
  rewrite IH, (IH ([] ++ _)). now rewrite List.app_assoc.
Qed.

Lemma reactRouterFileLoop_fold (files : list string) (st : list RouteInfo * gset string) :
  reactRouterFileLoop w projectPath files st
  = fst (fold_left addRoute (viteFileLoop w projectPath files []) st).
Proof.
  revert st; induction files as [|file rest IH]; intros st;
    cbn [reactRouterFileLoop viteFileLoop]; [reflexivity|].
  destruct (readFile w file) as [content|]; [|reflexivity].
  destruct (hasRouterSignal content); [|apply IH].
  rewrite IH. cbn [List.app].
  rewrite (viteFileLoop_app rest (extractReactRouterRoutesFromFile w file content projectPath)).
  now rewrite List.fold_left_app.
Qed.

(** The react-router-dom scan returns what the vite scan returns, passed
    through the filter on key strings. *)
Lemma extractReactRouterRoutes_removeLaterKeys :
  extractReactRouterRoutes w projectPath
  = removeLaterKeys (extractViteRoutes w projectPath).
Proof.
  unfold extractReactRouterRoutes, extractViteRoutes, removeLaterKeys.
  destruct (glob w _ _ _); [apply reactRouterFileLoop_fold | reflexivity].
Qed.

End ScanRefinement.

(** ** Key strings and (path, component) pairs *)

Section KeyFilter.

(** Records with the same path and component have the same key. *)
Lemma samePathAndComponent_routeKey (a b : RouteInfo) :
  samePathAndComponent a b = true -> routeKey a = routeKey b.
Proof.
  unfold samePathAndComponent, routeKey. intros H.
  apply andb_true_iff in H as [Hp Hc]. apply String.eqb_eq in Hp. rewrite Hp.
  destruct (component a) as [x|], (component b) as [y|]; try discriminate;
    [|reflexivity].
  apply String.eqb_eq in Hc. now subst.
Qed.

(** As long as different pairs have different keys, the filter on keys
    removes exactly the later (path, component) duplicates. *)
Lemma fold_addRoute_pairs (l routes : list RouteInfo) (seen : gset string) :
  (forall k, k ∈ seen <-> exists a, In a routes /\ routeKey a = k) ->
  (forall a b, In a (routes ++ l) -> In b (routes ++ l) ->
               routeKey a = routeKey b -> samePathAndComponent a b = true) ->
  fst (fold_left addRoute l (routes, seen))
  = routes ++ removeLaterDuplicatesFrom routes l.
Proof.
  revert routes seen; induction l as [|r l IH]; intros routes seen Hseen Hinj;
    cbn [fold_left removeLaterDuplicatesFrom].
  - now rewrite List.app_nil_r.
  - unfold addRoute at 2. case_bool_decide as Hkey.
    + apply Hseen in Hkey as (a & Ha & Hk).
      assert (existsb (samePathAndComponent r) routes = true) as ->.
      { apply existsb_exists. exists a. split; [exact Ha|].
        apply Hinj; [apply in_or_app; right; now left | apply in_or_app; now left | easy]. }
      apply IH; [exact Hseen|].
      intros x y Hx Hy. apply Hinj.
      * apply in_app_or in Hx as [Hx|Hx]; apply in_or_app;
          [now left | right; now right].
      * apply in_app_or in Hy as [Hy|Hy]; apply in_or_app;
          [now left | right; now right].
    + assert (existsb (samePathAndComponent r) routes = false) as ->.
      { apply not_true_is_false. intros H. apply existsb_exists in H as (a & Ha & Hs).
        apply Hkey, Hseen. exists a. split; [exact Ha|].
        symmetry. now apply samePathAndComponent_routeKey. }
      rewrite (IH (routes ++ [r]) ({[routeKey r]} ∪ seen)).
      * now rewrite <- List.app_assoc.
      * intros k. rewrite elem_of_union, elem_of_singleton, Hseen. split.
        -- intros [->|(a & Ha & Hk)].
           ++ exists r. split; [apply in_or_app; right; now left | reflexivity].
           ++ exists a. split; [apply in_or_app; now left | exact Hk].
        -- intros (a & Ha & Hk). apply in_app_or in Ha as [Ha|[<-|[]]]; eauto.
      * intros x y Hx Hy. rewrite <- List.app_assoc in Hx, Hy. now apply Hinj.
Qed.

Lemma removeLaterKeys_removeLaterDuplicates (l : list RouteInfo) :
  (forall a b, In a l -> In b l ->
               routeKey a = routeKey b -> samePathAndComponent a b = true) ->
  removeLaterKeys l = removeLaterDuplicates l.
Proof.
  intros Hinj. unfold removeLaterKeys, removeLaterDuplicates.
  rewrite (fold_addRoute_pairs l [] ∅); [reflexivity| |exact Hinj].
  intros k. split; [intros H; now apply elem_of_empty in H | intros (a & [] & _)].
Qed.

End KeyFilter.

(* ================================================================== *)
(** * Properties stated by the specification *)
(* ================================================================== *)

(** ** File-based routing *)

(** C1, on the project of scenario 1 (manifest with [next: "14.0.0"],
    [pages/index.tsx], [pages/users/[id].tsx], [pages/blog/[...slug].tsx]):
    the framework is reported as nextjs 14.0.0 and the route ["/"] is
    found, but the record of [pages/users/[id].tsx] has [dynamic = false],
    and [pages/blog/[...slug].tsx] yields the path ["/blog/:...slug"], not
    ["/blog/*"]: the plain-bracket substitution runs first and consumes
    the spread segment, and the flags are computed from the converted
    path. *)
Theorem C1_pages_scenario_result :
  let result := extractSiteRoutes Scenarios.nextPagesProject "./test-project" in
  framework result = mkFrameworkInfo nextjs (Some "14.0.0")
  /\ List.map routeSummary (routes result)
     = [ ("/", Some false, Some false);
         ("/users/:id", Some false, Some false);
         ("/blog/:...slug", Some true, Some true) ]
  /\ errors result = [].
Proof. vm_compute. repeat split. Qed.

(** C2, on the three app-router files of scenario 2: [dashboard/page.tsx]
    and [users/[id]/page.tsx] yield the route of their directory, but the
    root-level [page.tsx] yields ["/page"], not ["/"]: the special-file
    test asks for a separator before the basename, so the path is never
    emptied and the ["/"] fallback is never taken. *)
Theorem C2_app_special_files :
  convertNextJSAppPathToRoute "page.tsx" = "/page"
  /\ convertNextJSAppPathToRoute "dashboard/page.tsx" = "/dashboard"
  /\ convertNextJSAppPathToRoute "users/[id]/page.tsx" = "/users/:id"
  /\ List.map path
       (extractNextJSAppRoutes Scenarios.nextProject
          (Path.join ["./test-project"; "app"]) "./test-project")
     = ["/page"; "/dashboard"; "/users/:id"].
Proof. vm_compute. repeat split. Qed.

(** The app-style converter never returns the empty string and its result
    begins with ["/"]. *)
Lemma convertNextJSAppPathToRoute_rooted (filePath : string) :
  startsWith (convertNextJSAppPathToRoute filePath) "/" = true.
Proof.
  unfold convertNextJSAppPathToRoute.
  match goal with
  | |- context [replaceAll matchSpread ?x] => generalize (replaceAll matchSpread x)
  end.
  intros route. destruct (String.eqb route "index"); [reflexivity|].
  destruct (startsWith route "/") eqn:E.
  - destruct route; [discriminate | exact E].
  - now destruct route.
Qed.

(** On a well bracketed file path the app-style converter leaves no
    bracket behind. *)
Lemma convertNextJSAppPathToRoute_bracketFree (filePath : string) :
  wellBracketed filePath = true ->
  bracketFree (convertNextJSAppPathToRoute filePath) = true.
Proof.
  intros H. unfold convertNextJSAppPathToRoute.
  apply (wellBracketed_replaceAtEnd isSourceExtension) in H;
    [|apply isSourceExtension_bracketFree].
  set (route0 := replaceAtEnd isSourceExtension filePath) in *.
  match goal with
  | |- context [replaceAll matchBracket ?x] => assert (wellBracketed x = true) as H1
  end.
  { repeat match goal with
           | |- wellBracketed (if ?b then _ else _) = true => destruct b
           end; try exact H;
      (apply wellBracketed_replaceAtEnd; [|exact H]);
      intros t Ht; apply String.eqb_eq in Ht; subst t; reflexivity. }
  apply replaceAll_matchBracket_free in H1.
  rewrite (replaceAll_matchSpread_free _ H1).
  match goal with
  | H1 : bracketFree ?x = true |- _ => generalize dependent x
  end.
  intros route Hroute.
  destruct (String.eqb route "index"); [reflexivity|].
  destruct (startsWith route "/").
  - destruct route; [reflexivity | exact Hroute].
  - cbn. exact Hroute.
Qed.

(** C3 as stated fails: the app directory [a]] holds [page.tsx], and the
    record extracted for it has the path ["/a]"], which contains a
    bracket. *)
Lemma C3_counterexample :
  exists r,
    In r (extractNextJSAppRoutes Scenarios.strayBracketProject
            (Path.join ["site"; "app"]) "site")
    /\ ~ (startsWith (path r) "/" = true
          /\ includes (path r) "[" = false
          /\ includes (path r) "]" = false
          /\ (catchAll r = Some true <-> includes (path r) "*" = true)).
Proof.
  exists (mkRouteInfo "/a]" (Some "a]/page.tsx") None (Some false) (Some false)
            (Some "app/a]/page.tsx") None).
  split; [vm_compute; auto|].
  intros (_ & _ & H & _). vm_compute in H. discriminate.
Qed.

(** C3, amended: every record of the app-style extraction has a path that
    begins with ["/"]; and when every bracket of the file's relative path
    (the record's [component]) belongs to a segment [[name]] with a
    non-empty, bracket-free name, the path contains neither ["["] nor
    ["]"]. *)
Theorem C3_app_route_path_shape (w : World) (appDir projectPath : string)
        (r : RouteInfo) (relativePath : string) :
  In r (extractNextJSAppRoutes w appDir projectPath) ->
  component r = Some relativePath ->
  startsWith (path r) "/" = true
  /\ (wellBracketed relativePath = true ->
      includes (path r) "[" = false /\ includes (path r) "]" = false).
Proof.
  intros Hin Hc. unfold extractNextJSAppRoutes in Hin.
  destruct (glob w _ _ _) as [files|]; [|contradiction].
  apply in_flat_map in Hin as (file & _ & Hr).
  destruct (nextJSRouteOfFile _ _ _ _ _) as [r'|] eqn:E; [|contradiction].
  destruct Hr as [->|[]].
  apply nextJSRouteOfFile_fields in E as (Hp & Hc' & _).
  rewrite Hc' in Hc. injection Hc as <-. rewrite Hp. split.
  - apply convertNextJSAppPathToRoute_rooted.
  - intros Hwb. apply convertNextJSAppPathToRoute_bracketFree in Hwb.
    split; [now apply includes_open | now apply includes_close].
Qed.

Lemma C3_app_route_path_shape_witness :
  let r := mkRouteInfo "/users/:id" (Some "users/[id]/page.tsx") None
             (Some false) (Some false) (Some "app/users/[id]/page.tsx") None in
  In r (extractNextJSAppRoutes Scenarios.strayBracketProject
          (Path.join ["site"; "app"]) "site")
  /\ component r = Some "users/[id]/page.tsx"
  /\ wellBracketed "users/[id]/page.tsx" = true
  /\ startsWith (path r) "/" = true
  /\ includes (path r) "[" = false /\ includes (path r) "]" = false.
Proof.
  intros r.
  assert (In r (extractNextJSAppRoutes Scenarios.strayBracketProject
                  (Path.join ["site"; "app"]) "site")) as Hin
    by (vm_compute; auto).
  destruct (C3_app_route_path_shape Scenarios.strayBracketProject
              (Path.join ["site"; "app"]) "site" r "users/[id]/page.tsx"
              Hin eq_refl) as [Hs Hb].
  destruct (Hb eq_refl) as [Ho Hc].
  repeat split; assumption.
Defined.

(** ** Framework detection and the entry point *)

(** C6 as stated fails: a project without manifest that holds both
    [next.config.js] and [vite.config.ts] is classified as nextjs, not
    vite. *)
Lemma C6_counterexample :
  pathExists Scenarios.bothConfigsProject (Path.join ["site"; "package.json"]) = false
  /\ pathExists Scenarios.bothConfigsProject (Path.join ["site"; "vite.config.ts"]) = true
  /\ pathExists Scenarios.bothConfigsProject (Path.join ["site"; "next.config.js"]) = true
  /\ detectFramework Scenarios.bothConfigsProject "site"
     <> Returned (mkFrameworkInfo vite None)
  /\ detectFramework Scenarios.bothConfigsProject "site"
     = Returned (mkFrameworkInfo nextjs None).
Proof. vm_compute. repeat split. discriminate. Qed.

(** C6, amended: when the manifest is absent, or is read and names none of
    the three packages, detection falls back to the config files, and the
    next config ([next.config.js] or [next.config.ts]) is checked first:
    with a next config the result is nextjs without version, also when a
    vite config is present; without a next config and with a vite config
    ([vite.config.js] or [vite.config.ts]) it is vite without version;
    with neither it is unknown. *)
Theorem C6_config_file_fallback (w : World) (projectPath : string) :
  (pathExists w (Path.join [projectPath; "package.json"]) = false
   \/ exists packageJson,
        readJson w (Path.join [projectPath; "package.json"]) = Returned packageJson
        /\ frameworkOfManifest packageJson = None) ->
  detectFramework w projectPath
  = Returned
      (if pathExists w (Path.join [projectPath; "next.config.js"])
          || pathExists w (Path.join [projectPath; "next.config.ts"])
       then mkFrameworkInfo nextjs None
       else if pathExists w (Path.join [projectPath; "vite.config.js"])
               || pathExists w (Path.join [projectPath; "vite.config.ts"])
       then mkFrameworkInfo vite None
       else mkFrameworkInfo unknown None).
Proof.
  intros H. unfold detectFramework.
  destruct (pathExists w (Path.join [projectPath; "package.json"])) eqn:E.
  - destruct H as [H|(packageJson & Hread & Hnone)]; [discriminate|].
    rewrite Hread, Hnone. unfold frameworkOfConfigFiles.
    repeat match goal with |- context [if ?b then _ else _] => destruct b end;
      reflexivity.
  - unfold frameworkOfConfigFiles.
    repeat match goal with |- context [if ?b then _ else _] => destruct b end;
      reflexivity.
Qed.

Lemma C6_config_file_fallback_witness :
  (pathExists Scenarios.bothConfigsProject (Path.join ["site"; "package.json"]) = false
   \/ exists packageJson,
        readJson Scenarios.bothConfigsProject (Path.join ["site"; "package.json"])
        = Returned packageJson
        /\ frameworkOfManifest packageJson = None)
  /\ detectFramework Scenarios.bothConfigsProject "site"
     = Returned (mkFrameworkInfo nextjs None).
Proof.
  assert (pathExists Scenarios.bothConfigsProject (Path.join ["site"; "package.json"]) = false
          \/ exists packageJson,
               readJson Scenarios.bothConfigsProject (Path.join ["site"; "package.json"])
               = Returned packageJson
               /\ frameworkOfManifest packageJson = None) as H
    by (left; reflexivity).
  split; [exact H|].
  exact (C6_config_file_fallback Scenarios.bothConfigsProject "site" H).
Defined.

(** C7: when the project root does not exist, the result carries exactly
    one error, whose text contains "does not exist", no route, and the
    framework unknown.  The entry point is a total function into
    [ExtractionResult]: the call has no other outcome. *)
Theorem C7_missing_project_root (w : World) (projectPath : string) :
  pathExists w projectPath = false ->
  let result := extractSiteRoutes w projectPath in
  List.length (errors result) = 1
  /\ (exists message,
        errors result = [message] /\ includes message "does not exist" = true)
  /\ routes result = []
  /\ framework result = mkFrameworkInfo unknown None.
Proof.
  intros H. unfold extractSiteRoutes. rewrite H. cbn.
  repeat split.
  exists ("Project path does not exist: " +:+ projectPath). split; [reflexivity|].
  now apply includes_append.
Qed.

Lemma C7_missing_project_root_witness :
  pathExists Scenarios.emptyDisk "./non-existent-path" = false
  /\ errors (extractSiteRoutes Scenarios.emptyDisk "./non-existent-path")
     = ["Project path does not exist: ./non-existent-path"]
  /\ routes (extractSiteRoutes Scenarios.emptyDisk "./non-existent-path") = []
  /\ framework (extractSiteRoutes Scenarios.emptyDisk "./non-existent-path")
     = mkFrameworkInfo unknown None.
Proof.
  assert (pathExists Scenarios.emptyDisk "./non-existent-path" = false) as H
    by reflexivity.
  destruct (C7_missing_project_root Scenarios.emptyDisk "./non-existent-path" H)
    as (_ & _ & Hroutes & Hframework).
  split; [exact H|]. split; [reflexivity|].
  split; [exact Hroutes | exact Hframework].
Defined.

(** ** Declaration-based routing *)

(** C4, on [src/App.tsx] of a react-router-dom project declaring
    [<Route path='*' element={<NotFound />} />]: the record has
    [catchAll = true] and [dynamic = false].  The declaration-based
    extractors set [dynamic] from [":"] alone, whereas the file-based
    ones also count the catch-all marker. *)
Theorem C4_wildcard_route_not_dynamic :
  exists r,
    In r (routes (extractSiteRoutes Scenarios.routerProject "app"))
    /\ path r = "*" /\ catchAll r = Some true /\ dynamic r = Some false.
Proof.
  exists (mkRouteInfo "*" (Some "src/App.tsx") (Some []) (Some false) (Some true)
            (Some "some-ui-kit")
            (Some (mkImportedComponent "NotFound" "some-ui-kit" (Some "some-ui-kit")))).
  split; [vm_compute; auto | repeat split].
Qed.

(** The records of the file-based strategy do satisfy the invariant. *)
Lemma nextJS_catchAll_dynamic (w : World) (projectPath : string) (r : RouteInfo) :
  In r (extractNextJSRoutes w projectPath) ->
  catchAll r = Some true -> dynamic r = Some true.
Proof.
  intros Hin Hc.
  apply extractNextJSRoutes_In in Hin as [(file & H & _)|(file & H)];
    apply nextJSRouteOfFile_fields in H as (_ & _ & _ & Hd & Hc' & _);
    rewrite Hc' in Hc; injection Hc as Hc; rewrite Hd, Hc; now rewrite orb_true_r.
Qed.

(** C5, on a react-router-dom project with [<Route path='/x|y' />] in
    [z.tsx] and [<Route path='/x' />] in [y|z.tsx]: the two declarations
    differ in path and in component file, yet both have the key string
    ["/x|y|z.tsx"], and the result keeps the first one only. *)
Theorem C5_key_collision_drops_route :
  let w := Scenarios.barProject "react-router-dom" in
  List.map pathAndComponent (extractViteRoutes w "app")
  = [("/x|y", Some "z.tsx"); ("/x", Some "y|z.tsx")]
  /\ List.map routeKey (extractViteRoutes w "app") = ["/x|y|z.tsx"; "/x|y|z.tsx"]
  /\ name (framework (extractSiteRoutes w "app")) = react_router_dom
  /\ List.map pathAndComponent (routes (extractSiteRoutes w "app"))
     = [("/x|y", Some "z.tsx")].
Proof. vm_compute. repeat split. Qed.

(** C9, on the same two files: the react-router-dom scan returns one
    record, while the vite scan with later (path, component) duplicates
    removed returns two. *)
Theorem C9_scans_differ_on_key_collision :
  let w := Scenarios.barProject "vite" in
  List.map pathAndComponent (extractReactRouterRoutes w "app")
  = [("/x|y", Some "z.tsx")]
  /\ List.map pathAndComponent (removeLaterDuplicates (extractViteRoutes w "app"))
     = [("/x|y", Some "z.tsx"); ("/x", Some "y|z.tsx")]
  /\ extractReactRouterRoutes w "app"
     <> removeLaterDuplicates (extractViteRoutes w "app").
Proof.
  vm_compute. repeat split. discriminate.
Qed.

(* ================================================================== *)
(** * Further properties of the code *)
(* ================================================================== *)

(** ** The converters *)

Section ConverterFacts.

Lemma length_append (a b : string) :
  String.length (a +:+ b) = String.length a + String.length b.
Proof. induction a as [|c a IH]; simpl; [reflexivity | now rewrite IH]. Qed.

Lemma eqb_length (a b : string) :
  String.eqb a b = true -> String.length a = String.length b.
Proof. intros H. apply String.eqb_eq in H. now subst. Qed.

Lemma isSourceExtension_length (x : string) :
  isSourceExtension x = true -> String.length x <= 4.
Proof.
  unfold isSourceExtension. rewrite !orb_true_iff, !String.eqb_eq.
  intros [[[->| ->]| ->]| ->]; simpl; lia.
Qed.

(** An end-anchored pattern that only accepts texts no longer than [t]
    cannot match before [t] begins. *)
Lemma replaceAtEnd_append (atEnd : string -> bool) (dir t : string) :
  (forall x, atEnd x = true -> String.length x <= String.length t) ->
  replaceAtEnd atEnd (dir +:+ t) = dir +:+ replaceAtEnd atEnd t.
Proof.
  intros Hlen. induction dir as [|c dir IH]; [reflexivity|].
  change (String c dir +:+ t) with (String c (dir +:+ t)).
  cbn [replaceAtEnd]. destruct (atEnd (String c (dir +:+ t))) eqn:E.
  - apply Hlen in E. cbn [String.length] in E. rewrite length_append in E. lia.
  - now rewrite IH.
Qed.

Lemma endsWith_append (dir t suf : string) :
  String.length suf <= String.length t ->
  endsWith (dir +:+ t) suf = endsWith t suf.
Proof.
  intros Hlen. induction dir as [|c dir IH]; [reflexivity|].
  change (String c dir +:+ t) with (String c (dir +:+ t)).
  cbn [endsWith]. destruct (String.eqb (String c (dir +:+ t)) suf) eqn:E.
  - apply eqb_length in E. cbn [String.length] in E. rewrite length_append in E. lia.
  - exact IH.
Qed.

Lemma endsWith_spec (s suf : string) :
  endsWith s suf = true <-> exists p, s = p +:+ suf.
Proof.
  split.
  - induction s as [|c s IH]; cbn [endsWith]; intros H.
    + rewrite orb_false_r in H. apply String.eqb_eq in H. now exists "".
    + apply orb_true_iff in H as [H|H].
      * apply String.eqb_eq in H. now exists "".
      * destruct (IH H) as [p ->]. now exists (String c p).
  - intros [p ->]. induction p as [|c p IH].
    + destruct suf; cbn [endsWith String.append]; now rewrite String.eqb_refl.
    + change (String c p +:+ suf) with (String c (p +:+ suf)).
      cbn [endsWith]. rewrite IH. apply orb_true_r.
Qed.

(** Two ways of cutting one text: one of the two ends is an end of the
    other. *)
Lemma append_cut (a b c d : string) :
  a +:+ b = c +:+ d -> (exists e, b = e +:+ d) \/ (exists e, d = e +:+ b).
Proof.
  revert c; induction a as [|x a IH]; intros c H.
  - left. exists c. exact H.
  - destruct c as [|y c].
    + right. exists (String x a). symmetry. exact H.
    + injection H as _ H. exact (IH c H).
Qed.

(** An end test on [dir ++ t] is decided by [t] and the tested end alone
    when neither is an end of the other, or when [t] already ends so. *)
Lemma endsWith_append_dec (dir t suf : string) (v : bool) :
  endsWith t suf = v -> (v = false -> endsWith suf t = false) ->
  endsWith (dir +:+ t) suf = v.
Proof.
  intros Hv Hrev. destruct v.
  - apply endsWith_spec in Hv as [p ->]. apply endsWith_spec.
    exists (dir +:+ p). now rewrite append_assoc.
  - apply not_true_is_false. intros H. apply endsWith_spec in H as [p H].
    apply append_cut in H as [[e He]|[e He]].
    + assert (endsWith t suf = true) by (apply endsWith_spec; eauto). congruence.
    + assert (endsWith suf t = true) by (apply endsWith_spec; eauto).
      rewrite Hrev in *; [discriminate | reflexivity].
Qed.

(** A substitution whose replacement texts are not empty maps only the
    empty text to the empty text. *)
Lemma replaceAll_empty (m : string -> option (string * nat)) (s : string) :
  (forall t repl len, m t = Some (repl, len) -> repl <> "") ->
  replaceAll m s = "" -> s = "".
Proof.
  intros Hm. unfold replaceAll. destruct s as [|c s]; [reflexivity|].
  cbn [replaceAllFrom]. destruct (m (String c s)) as [[repl len]|] eqn:E;
    [|discriminate].
  intros H. apply Hm in E. destruct repl; [now elim E | discriminate].
Qed.

Lemma matchBracket_nonempty (t repl : string) (len : nat) :
  matchBracket t = Some (repl, len) -> repl <> "".
Proof.
  unfold matchBracket. destruct t as [|c t]; [discriminate|].
  destruct c as [[] [] [] [] [] [] [] []]; try discriminate.
  destruct (runToClose t) as [run|]; [|discriminate].
  destruct (String.eqb run ""); [discriminate|]. intros [= <- _]. discriminate.
Qed.

Lemma matchSpread_nonempty (t repl : string) (len : nat) :
  matchSpread t = Some (repl, len) -> repl <> "".
Proof.
  unfold matchSpread. intros H.
  repeat match type of H with
         | match ?x with _ => _ end = _ => destruct x; try discriminate
         | (if ?b then _ else _) = _ => destruct b; try discriminate
         end.
  injection H as <- _. discriminate.
Qed.

Lemma convertNextJSPagesPathToRoute_rooted (filePath : string) :
  startsWith (convertNextJSPagesPathToRoute filePath) "/" = true.
Proof.
  unfold convertNextJSPagesPathToRoute.
  destruct (String.eqb _ "index"); [reflexivity|].
  match goal with |- startsWith ("/" +:+ ?x) _ = _ => now destruct x end.
Qed.

Lemma rooted_truthy (s : string) : startsWith s "/" = true -> truthy s = true.
Proof. now destruct s. Qed.

End ConverterFacts.

(** X1: both file-based extractors turn every file that [glob] lists into
    exactly one record, in listing order: the converters never return an
    empty path, so the test on the route path never drops a file (the
    special files [layout], [loading], [error] and [not-found] included).
    The record's path is the converted relative path and its component
    the relative path. *)
Theorem nextJS_one_record_per_file (w : World) (dir projectPath : string)
        (files : list string) :
  glob w sourcePattern dir [] = Returned files ->
  List.map pathAndComponent (extractNextJSAppRoutes w dir projectPath)
  = List.map (fun file =>
                (convertNextJSAppPathToRoute (Path.relative (cwd w) dir file),
                 Some (Path.relative (cwd w) dir file))) files
  /\ List.map pathAndComponent (extractNextJSPagesRoutes w dir projectPath)
     = List.map (fun file =>
                   (convertNextJSPagesPathToRoute (Path.relative (cwd w) dir file),
                    Some (Path.relative (cwd w) dir file))) files.
Proof.
  intros Hglob. unfold extractNextJSAppRoutes, extractNextJSPagesRoutes.
  rewrite Hglob. clear Hglob. split.
  - induction files as [|file files IH]; [reflexivity|].
    cbn [flat_map List.map]. unfold nextJSRouteOfFile at 1.
    rewrite (rooted_truthy _ (convertNextJSAppPathToRoute_rooted _)).
    cbn [List.app List.map]. now rewrite IH.
  - induction files as [|file files IH]; [reflexivity|].
    cbn [flat_map List.map]. unfold nextJSRouteOfFile at 1.
    rewrite (rooted_truthy _ (convertNextJSPagesPathToRoute_rooted _)).
    cbn [List.app List.map]. now rewrite IH.
Qed.

Lemma nextJS_one_record_per_file_witness :
  glob Scenarios.nextProject sourcePattern (Path.join ["./test-project"; "app"]) []
  = Returned ["/w/test-project/app/page.tsx";
              "/w/test-project/app/dashboard/page.tsx";
              "/w/test-project/app/users/[id]/page.tsx"]
  /\ List.map pathAndComponent
       (extractNextJSAppRoutes Scenarios.nextProject
          (Path.join ["./test-project"; "app"]) "./test-project")
     = [("/page", Some "page.tsx");
        ("/dashboard", Some "dashboard/page.tsx");
        ("/users/:id", Some "users/[id]/page.tsx")].
Proof.
  assert (glob Scenarios.nextProject sourcePattern
            (Path.join ["./test-project"; "app"]) []
          = Returned ["/w/test-project/app/page.tsx";
                      "/w/test-project/app/dashboard/page.tsx";
                      "/w/test-project/app/users/[id]/page.tsx"]) as H
    by reflexivity.
  split; [exact H|].
  exact (proj1 (nextJS_one_record_per_file Scenarios.nextProject
                  (Path.join ["./test-project"; "app"]) "./test-project" _ H)).
Defined.

Lemma replaceAtEnd_literal (dir suf : string) :
  replaceAtEnd (String.eqb suf) (dir +:+ suf) = dir.
Proof.
  rewrite replaceAtEnd_append.
  - destruct suf; cbn [replaceAtEnd]; rewrite String.eqb_refl; apply append_empty_r.
  - intros x Hx. apply eqb_length in Hx. lia.
Qed.

(** Evaluation of the tests on [dir ++ t] for a literal [t]. *)
Ltac eval_end_tests dir :=
  repeat match goal with
         | |- context [replaceAtEnd isSourceExtension (dir +:+ ?t)] =>
             rewrite (replaceAtEnd_append isSourceExtension dir t)
               by (intros x Hx; apply isSourceExtension_length in Hx; cbn; lia);
             let v := eval vm_compute in (replaceAtEnd isSourceExtension t) in
             change (replaceAtEnd isSourceExtension t) with v
         | |- context [endsWith (dir +:+ ?t) ?suf] =>
             let v := eval vm_compute in (endsWith t suf) in
             rewrite (endsWith_append_dec dir t suf v)
               by (first [reflexivity | intros; reflexivity | discriminate])
         end.

(** X2: in a directory below the app root, the five special files denote
    the same route whatever their source extension: for every directory
    path [dir], every special basename and every source extension, the
    converter returns for [dir/<basename><ext>] what it returns for
    [dir/page.tsx]. *)
Theorem special_files_share_route (dir b ext : string) :
  In b specialBasenames -> In ext sourceExtensions ->
  convertNextJSAppPathToRoute (dir +:+ "/" +:+ b +:+ ext)
  = convertNextJSAppPathToRoute (dir +:+ "/page.tsx").
Proof.
  intros Hb Hext. unfold specialBasenames, sourceExtensions in *.
  repeat (destruct Hb as [<-|Hb]); try contradiction;
    repeat (destruct Hext as [<-|Hext]); try contradiction;
    unfold convertNextJSAppPathToRoute; cbv zeta; cbn [String.append];
    eval_end_tests dir; cbv iota;
    rewrite !replaceAtEnd_literal;
    reflexivity.
Qed.

Lemma special_files_share_route_witness :
  In "not-found" specialBasenames /\ In ".js" sourceExtensions
  /\ convertNextJSAppPathToRoute ("shop/[id]" +:+ "/" +:+ "not-found" +:+ ".js")
     = convertNextJSAppPathToRoute ("shop/[id]" +:+ "/page.tsx").
Proof.
  assert (In "not-found" specialBasenames) as Hb by (cbn; auto 10).
  assert (In ".js" sourceExtensions) as Hext by (cbn; auto 10).
  split; [exact Hb|]. split; [exact Hext|].
  exact (special_files_share_route "shop/[id]" "not-found" ".js" Hb Hext).
Defined.

(** X3: the pages-style converter returns ["/"] for exactly ten relative
    paths: [index], with or without one of the four source extensions,
    and the empty name, with or without one.  No other file maps to the
    root; in particular [blog/index.tsx] does not map to the route of its
    directory. *)
Theorem pages_root_route (filePath : string) :
  convertNextJSPagesPathToRoute filePath = "/"
  <-> In filePath ["index"; "index.tsx"; "index.ts"; "index.jsx"; "index.js";
                   ""; ".tsx"; ".ts"; ".jsx"; ".js"].
Proof.
  split.
  - intros H. unfold convertNextJSPagesPathToRoute in H.
    destruct (replaceAtEnd_split isSourceExtension filePath) as (t & Hs & Ht).
    assert (t = "" \/ In t sourceExtensions) as Ht'.
    { destruct Ht as [->|Ht]; [now left | right].
      unfold isSourceExtension in Ht. rewrite !orb_true_iff, !String.eqb_eq in Ht.
      destruct Ht as [[[->| ->]| ->]| ->]; cbn; auto 10. }
    destruct (String.eqb (replaceAtEnd isSourceExtension filePath) "index") eqn:E.
    + apply String.eqb_eq in E. rewrite E in Hs. rewrite Hs.
      destruct Ht' as [->|Ht']; [cbn; auto|].
      cbn in Ht'. cbn. intuition (subst; auto 10).
    + assert (replaceAtEnd isSourceExtension filePath = "") as E0.
      { apply (replaceAll_empty matchBracket); [apply matchBracket_nonempty|].
        apply (replaceAll_empty matchSpread); [apply matchSpread_nonempty|].
        now injection H. }
      rewrite E0 in Hs. rewrite Hs.
      destruct Ht' as [->|Ht']; [cbn; auto 10|].
      cbn in Ht'. cbn. intuition (subst; auto 10).
  - cbn. intros H. intuition (subst; reflexivity).
Qed.

Section CatchAllMarker.







End CatchAllMarker.



(** ** Framework detection and the entry point *)

Section Detection.

Lemma mergedDependencies_lookup (packageJson : PackageJson) (key : string) :
  mergedDependencies packageJson !! key
  = match devDependencies packageJson !! key with
    | Some v => Some v
    | None => dependencies packageJson !! key
    end.
Proof.
  unfold mergedDependencies.
  destruct (devDependencies packageJson !! key) as [v|] eqn:E.
  - now apply lookup_union_Some_l.
  - now rewrite lookup_union_r.
Qed.

End Detection.

(** X5: a readable manifest that declares [next] decides the detection,
    whatever else it declares and whatever config files exist: the
    framework is nextjs, and the version is the one of [devDependencies]
    when [next] is listed there, otherwise the one of [dependencies]
    (the version must not be the empty string). *)
Theorem manifest_next_wins (w : World) (projectPath : string)
        (packageJson : PackageJson) (v : string) :
  pathExists w (Path.join [projectPath; "package.json"]) = true ->
  readJson w (Path.join [projectPath; "package.json"]) = Returned packageJson ->
  (devDependencies packageJson !! "next" = Some v
   \/ (devDependencies packageJson !! "next" = None
       /\ dependencies packageJson !! "next" = Some v)) ->
  v <> "" ->
  detectFramework w projectPath = Returned (mkFrameworkInfo nextjs (Some v)).
Proof.
  intros Hexists Hread Hnext Hv. unfold detectFramework.
  rewrite Hexists, Hread. unfold frameworkOfManifest, truthyLookup.
  rewrite mergedDependencies_lookup.
  assert (truthy v = true) as Ht
    by (unfold truthy; apply negb_true_iff, String.eqb_neq, Hv).
  destruct Hnext as [->|[-> ->]]; now rewrite Ht.
Qed.

Lemma manifest_next_wins_witness :
  pathExists MoreScenarios.mixedManifestProject (Path.join ["site"; "package.json"]) = true
  /\ detectFramework MoreScenarios.mixedManifestProject "site"
     = Returned (mkFrameworkInfo nextjs (Some "14.0.0")).
Proof.
  assert (pathExists MoreScenarios.mixedManifestProject
            (Path.join ["site"; "package.json"]) = true) as Hexists by reflexivity.
  split; [exact Hexists|].
  apply (manifest_next_wins MoreScenarios.mixedManifestProject "site"
           (mkPackageJson
              (<["next" := "13.5.0"]> (<["react-router-dom" := "^6.4.0"]> ∅))
              (<["next" := "14.0.0"]> (<["vite" := "^5.0.0"]> ∅)))
           "14.0.0" Hexists eq_refl).
  - left. reflexivity.
  - discriminate.
Defined.

(** X6: an empty version hides the package.  When [devDependencies] lists
    [next] with the empty string, a readable manifest never makes the
    project nextjs with a version, even if [dependencies] declares [next]
    properly. *)
Theorem empty_dev_version_hides_next (w : World) (projectPath : string)
        (packageJson : PackageJson) (v : string) :
  pathExists w (Path.join [projectPath; "package.json"]) = true ->
  readJson w (Path.join [projectPath; "package.json"]) = Returned packageJson ->
  devDependencies packageJson !! "next" = Some "" ->
  detectFramework w projectPath <> Returned (mkFrameworkInfo nextjs (Some v)).
Proof.
  intros Hexists Hread Hdev. unfold detectFramework.
  rewrite Hexists, Hread. unfold frameworkOfManifest, truthyLookup.
  rewrite (mergedDependencies_lookup packageJson "next"), Hdev. cbn [truthy String.eqb negb].
  repeat match goal with
         | |- context [match ?x !! ?k with _ => _ end] => destruct (x !! k)
         | |- context [if truthy ?s then _ else _] => destruct (truthy s)
         end; try discriminate;
    unfold frameworkOfConfigFiles;
    repeat match goal with
           | |- context [if ?b then _ else _] => destruct b
           end; discriminate.
Qed.

Lemma empty_dev_version_hides_next_witness :
  pathExists MoreScenarios.maskedNextProject (Path.join ["site"; "package.json"]) = true
  /\ detectFramework MoreScenarios.maskedNextProject "site"
     <> Returned (mkFrameworkInfo nextjs (Some "14.0.0"))
  /\ detectFramework MoreScenarios.maskedNextProject "site"
     = Returned (mkFrameworkInfo unknown None).
Proof.
  assert (pathExists MoreScenarios.maskedNextProject
            (Path.join ["site"; "package.json"]) = true) as Hexists by reflexivity.
  split; [exact Hexists|]. split; [|reflexivity].
  exact (empty_dev_version_hides_next MoreScenarios.maskedNextProject "site"
           (mkPackageJson {["next" := "14.0.0"]} {["next" := ""]}) "14.0.0"
           Hexists eq_refl eq_refl).
Defined.

(** X7: a manifest that exists but cannot be read ends the run: the
    result carries the single error ["Error during extraction: <message>"],
    no route and the framework unknown; the config files are not looked
    at. *)
Theorem unreadable_manifest (w : World) (projectPath message : string) :
  pathExists w projectPath = true ->
  pathExists w (Path.join [projectPath; "package.json"]) = true ->
  readJson w (Path.join [projectPath; "package.json"]) = Thrown message ->
  extractSiteRoutes w projectPath
  = mkExtractionResult (mkFrameworkInfo unknown None) []
      ["Error during extraction: " +:+ message].
Proof.
  intros Hroot Hexists Hread. unfold extractSiteRoutes, detectFramework.
  now rewrite Hroot, Hexists, Hread.
Qed.

Lemma unreadable_manifest_witness :
  pathExists MoreScenarios.brokenManifestProject "site" = true
  /\ pathExists MoreScenarios.brokenManifestProject
       (Path.join ["site"; "vite.config.ts"]) = true
  /\ extractSiteRoutes MoreScenarios.brokenManifestProject "site"
     = mkExtractionResult (mkFrameworkInfo unknown None) []
         ["Error during extraction: Unexpected token } in JSON at position 17"].
Proof.
  assert (pathExists MoreScenarios.brokenManifestProject "site" = true) as Hroot
    by reflexivity.
  split; [exact Hroot|]. split; [reflexivity|].
  exact (unreadable_manifest MoreScenarios.brokenManifestProject "site"
           "Unexpected token } in JSON at position 17" Hroot eq_refl eq_refl).
Defined.

(** X8: the shape of every result of [extractSiteRoutes]: it carries at
    most one error; when it carries one it has no routes; and it is free
    of errors exactly when a framework was detected.  Failures inside a
    strategy (listing, reading or parsing files) never reach [errors]. *)
Theorem result_errors_shape (w : World) (projectPath : string) :
  let result := extractSiteRoutes w projectPath in
  List.length (errors result) <= 1
  /\ (errors result <> [] -> routes result = [])
  /\ (errors result = [] <-> name (framework result) <> unknown).
Proof.
  unfold extractSiteRoutes.
  destruct (negb (pathExists w projectPath)).
  - cbn. repeat split; auto; try discriminate. intros H. now elim H.
  - destruct (detectFramework w projectPath) as [[[] ?]|].
    1-3: cbn; repeat split; auto; try discriminate; intros H; now elim H.
    all: cbn; repeat split; auto; try discriminate; intros H; now elim H.
Qed.

(** ** The command line front end *)

Section CliFacts.

Import Cli.

(** What one argument does to the state of the argument loop. *)
Lemma parseStep_effect (options : Options) (projectPath : option string) (arg : string) :
  let st := parseStep (options, projectPath) arg in
  help (fst st) = help options || isHelpFlag arg
  /\ version (fst st) = version options || isVersionFlag arg
  /\ (pretty options = negb (json options) -> pretty (fst st) = negb (json (fst st)))
  /\ effectivePath (snd st)
     = match effectivePath projectPath with
       | Some p => Some p
       | None => if isPathArgument arg then Some arg else None
       end.
Proof.
  unfold parseStep, isHelpFlag, isVersionFlag, isPathArgument.
  destruct (String.eqb arg "--json") eqn:E1.
  { apply String.eqb_eq in E1 as ->. cbn.
    rewrite !orb_false_r. repeat split. now destruct (effectivePath projectPath). }
  destruct (String.eqb arg "--pretty") eqn:E2.
  { apply String.eqb_eq in E2 as ->. cbn.
    rewrite !orb_false_r. repeat split. now destruct (effectivePath projectPath). }
  destruct (String.eqb arg "--help" || String.eqb arg "-h") eqn:E3.
  { apply orb_true_iff in E3 as [E3|E3]; apply String.eqb_eq in E3 as ->; cbn;
      rewrite ?orb_true_r, ?orb_false_r; repeat split; auto;
      now destruct (effectivePath projectPath). }
  destruct (String.eqb arg "--version" || String.eqb arg "-v") eqn:E4.
  { apply orb_true_iff in E4 as [E4|E4]; apply String.eqb_eq in E4 as ->; cbn;
      rewrite ?orb_true_r, ?orb_false_r; repeat split; auto;
      now destruct (effectivePath projectPath). }
  rewrite !orb_false_r.
  assert (falsyPath projectPath = match effectivePath projectPath with
                                  | Some _ => false
                                  | None => true
                                  end) as ->.
  { destruct projectPath as [p|]; [|reflexivity]. cbn. now destruct (truthy p). }
  destruct (effectivePath projectPath) as [p|] eqn:Ep; cbn [andb fst snd].
  - repeat split; auto.
  - destruct (startsWith arg "-"); cbn [negb fst snd].
    + rewrite andb_false_r. repeat split; auto.
    + rewrite andb_true_r. repeat split; auto.
Qed.

(** The state after the whole argument list. *)
Lemma parseArgs_effect (args : list string) (options : Options)
      (projectPath : option string) :
  let st := fold_left parseStep args (options, projectPath) in
  help (fst st) = help options || existsb isHelpFlag args
  /\ version (fst st) = version options || existsb isVersionFlag args
  /\ (pretty options = negb (json options) -> pretty (fst st) = negb (json (fst st)))
  /\ effectivePath (snd st)
     = match effectivePath projectPath with
       | Some p => Some p
       | None => List.find isPathArgument args
       end.
Proof.
  revert options projectPath; induction args as [|arg args IH];
    intros options projectPath; cbn [fold_left existsb List.find].
  - cbn [fst snd]. rewrite !orb_false_r. repeat split; auto.
    now destruct (effectivePath projectPath).
  - destruct (parseStep_effect options projectPath arg) as (Hh & Hv & Hp & He).
    destruct (parseStep (options, projectPath) arg) as [options' projectPath'].
    cbn [fst snd] in *.
    destruct (IH options' projectPath') as (Hh' & Hv' & Hp' & He').
    rewrite Hh', Hv', He', Hh, Hv, He, !orb_assoc. repeat split; auto.
    destruct (effectivePath projectPath); [reflexivity|].
    now destruct (isPathArgument arg).
Qed.

Lemma find_snoc {A : Type} (f : A -> bool) (l : list A) (a : A) :
  List.find f (l ++ [a])
  = match List.find f l with
    | Some x => Some x
    | None => if f a then Some a else None
    end.
Proof.
  induction l as [|x l IH]; cbn [List.app List.find]; [reflexivity|].
  now destruct (f x).
Qed.

(** What one argument does to the format. *)
Lemma parseStep_json (options : Options) (projectPath : option string) (arg : string) :
  json (fst (parseStep (options, projectPath) arg))
  = if isFormatFlag arg then String.eqb arg "--json" else json options.
Proof.
  unfold parseStep, isFormatFlag.
  destruct (String.eqb arg "--json"); [reflexivity|].
  destruct (String.eqb arg "--pretty"); [reflexivity|]. cbn [orb].
  repeat match goal with
         | |- context [if ?b then _ else _] => destruct b
         end; reflexivity.
Qed.

Lemma parseArgs_json (args : list string) (options : Options)
      (projectPath : option string) :
  json (fst (fold_left parseStep args (options, projectPath)))
  = match lastFormatFlag args with
    | Some flag => String.eqb flag "--json"
    | None => json options
    end.
Proof.
  revert options projectPath; induction args as [|arg args IH];
    intros options projectPath; cbn [fold_left]; [reflexivity|].
  assert (H := parseStep_json options projectPath arg).
  destruct (parseStep (options, projectPath) arg) as [options' projectPath'].
  cbn [fst] in H. rewrite IH, H. unfold lastFormatFlag. cbn [rev].
  rewrite find_snoc. destruct (List.find isFormatFlag (rev args)); [reflexivity|].
  now destruct (isFormatFlag arg).
Qed.

End CliFacts.

(** X9: the two output formats exclude each other, and the last format
    flag decides, wherever it stands in the argument list: after any
    argument list [pretty] is the negation of [json], and [json] is set
    exactly when the last argument among [--json] and [--pretty] is
    [--json]; without such an argument the pretty form stays selected.
    Arguments after the last format flag (a project path, other options)
    do not change the format.  In particular a list that ends with
    [--json] selects JSON and one that ends with [--pretty] does not. *)
Theorem cli_format_flags (args : list string) :
  Cli.pretty (fst (Cli.parseArgs args)) = negb (Cli.json (fst (Cli.parseArgs args)))
  /\ Cli.json (fst (Cli.parseArgs args))
     = match lastFormatFlag args with
       | Some flag => String.eqb flag "--json"
       | None => false
       end
  /\ Cli.json (fst (Cli.parseArgs (args ++ ["--json"]))) = true
  /\ Cli.json (fst (Cli.parseArgs (args ++ ["--pretty"]))) = false.
Proof.
  unfold Cli.parseArgs. split; [|split; [|split]].
  - now apply (parseArgs_effect args).
  - apply parseArgs_json.
  - rewrite List.fold_left_app. cbn [fold_left].
    now destruct (fold_left Cli.parseStep args _) as [o p].
  - rewrite List.fold_left_app. cbn [fold_left].
    now destruct (fold_left Cli.parseStep args _) as [o p].
Qed.

(** X10: the project path the tool goes on with is the first argument
    that is not empty and does not begin with a dash; later such
    arguments, and every unknown option, are ignored without a message. *)
Theorem cli_project_path (args : list string) :
  effectivePath (snd (Cli.parseArgs args)) = List.find isPathArgument args.
Proof.
  unfold Cli.parseArgs.
  destruct (parseArgs_effect args (Cli.mkOptions false true false false) None)
    as (_ & _ & _ & H).
  exact H.
Qed.

(** X11: help comes first.  If a help or version flag occurs anywhere
    among the arguments, the run ends with status 0 without looking at
    any project: it shows the usage when [--help] or [-h] is among them,
    with or without a project path, and the version otherwise. *)
Theorem cli_help_and_version (w : World) (args : list string) :
  existsb isHelpFlag args || existsb isVersionFlag args = true ->
  Cli.main w args = (if existsb isHelpFlag args then Cli.Usage else Cli.Version)
  /\ Cli.exitCode (Cli.main w args) = 0.
Proof.
  intros H. unfold Cli.main, Cli.parseArgs.
  destruct (parseArgs_effect args (Cli.mkOptions false true false false) None)
    as (Hh & Hv & _ & _).
  destruct (fold_left Cli.parseStep args _) as [options projectPath].
  cbn [fst snd Cli.help Cli.version orb] in *. rewrite Hh, Hv.
  destruct (existsb isHelpFlag args); [now split|].
  cbn [orb] in H. rewrite H. now split.
Qed.

Lemma cli_help_and_version_witness :
  existsb isHelpFlag ["--json"; "-h"; "--version"]
  || existsb isVersionFlag ["--json"; "-h"; "--version"] = true
  /\ Cli.main Scenarios.emptyDisk ["--json"; "-h"; "--version"] = Cli.Usage
  /\ Cli.exitCode (Cli.main Scenarios.emptyDisk ["--json"; "-h"; "--version"]) = 0.
Proof.
  assert (existsb isHelpFlag ["--json"; "-h"; "--version"]
          || existsb isVersionFlag ["--json"; "-h"; "--version"] = true) as H
    by reflexivity.
  split; [exact H|].
  exact (cli_help_and_version Scenarios.emptyDisk ["--json"; "-h"; "--version"] H).
Defined.

(** X12: the exit status.  Without a help or version flag the run ends
    with status 0 exactly when a project path was given and the
    extraction on the resolved path detected a framework; it ends with 1
    when the path is missing or the result carries an error. *)
Theorem cli_exit_status (w : World) (args : list string) :
  existsb isHelpFlag args = false -> existsb isVersionFlag args = false ->
  (Cli.exitCode (Cli.main w args) = 0
   <-> exists p,
         List.find isPathArgument args = Some p
         /\ name (framework (extractSiteRoutes w (Path.resolve (cwd w) [cwd w; p])))
            <> unknown)
  /\ (Cli.exitCode (Cli.main w args) = 0 \/ Cli.exitCode (Cli.main w args) = 1).
Proof.
  intros Hhelp Hversion. rewrite <- cli_project_path.
  unfold Cli.main, Cli.parseArgs.
  destruct (parseArgs_effect args (Cli.mkOptions false true false false) None)
    as (Hh & Hv & _ & _).
  destruct (fold_left Cli.parseStep args _) as [options projectPath].
  cbn [fst snd Cli.help Cli.version orb] in *. rewrite Hh, Hv, Hhelp, Hversion.
  unfold effectivePath.
  destruct projectPath as [p|]; [destruct (truthy p)|]; cbn [Cli.exitCode].
  - destruct (result_errors_shape w (Path.resolve (cwd w) [cwd w; p]))
      as (_ & _ & Hiff).
    cbv zeta in Hiff.
    destruct (errors (extractSiteRoutes w (Path.resolve (cwd w) [cwd w; p]))) eqn:E;
      cbn [List.length Nat.ltb Nat.leb].
    + split; [|now left]. split; [|reflexivity].
      intros _. exists p. split; [reflexivity|]. now apply Hiff.
    + split; [|now right]. split; [discriminate|].
      intros (p' & [= <-] & Hn). apply Hiff in Hn. discriminate.
  - split; [|now right]. split; [discriminate | now intros (p' & [=] & _)].
  - split; [|now right]. split; [discriminate | now intros (p' & [=] & _)].
Qed.

Lemma cli_exit_status_witness :
  existsb isHelpFlag ["--verbose"; "app"; "--json"; "other"] = false
  /\ existsb isVersionFlag ["--verbose"; "app"; "--json"; "other"] = false
  /\ Cli.exitCode (Cli.main Scenarios.routerProject
                      ["--verbose"; "app"; "--json"; "other"]) = 0.
Proof.
  assert (existsb isHelpFlag ["--verbose"; "app"; "--json"; "other"] = false) as Hh
    by reflexivity.
  assert (existsb isVersionFlag ["--verbose"; "app"; "--json"; "other"] = false) as Hv
    by reflexivity.
  split; [exact Hh|]. split; [exact Hv|].
  apply (proj1 (cli_exit_status Scenarios.routerProject
                  ["--verbose"; "app"; "--json"; "other"] Hh Hv)).
  exists "app". split; [reflexivity|]. vm_compute. discriminate.
Defined.

(** ** The project scans *)

Section ScanFacts.

Variables (w : World) (projectPath : string).

Lemma viteFileLoop_stop (before after : list string) (file message : string)
      (routes : list RouteInfo) :
  readFile w file = Thrown message ->
  viteFileLoop w projectPath (before ++ file :: after) routes
  = viteFileLoop w projectPath before routes.
Proof.
  intros Hread. revert routes; induction before as [|f before IH]; intros routes;
    cbn [List.app viteFileLoop].
  - now rewrite Hread.
  - destruct (readFile w f) as [content|]; [|reflexivity].
    destruct (hasRouterSignal content); apply IH.
Qed.

Lemma reactRouterFileLoop_stop (before after : list string) (file message : string)
      (st : list RouteInfo * gset string) :
  readFile w file = Thrown message ->
  reactRouterFileLoop w projectPath (before ++ file :: after) st
  = reactRouterFileLoop w projectPath before st.
Proof.
  intros Hread. revert st; induction before as [|f before IH]; intros st;
    cbn [List.app reactRouterFileLoop].
  - now rewrite Hread.
  - destruct (readFile w f) as [content|]; [|reflexivity].
    destruct (hasRouterSignal content); apply IH.
Qed.

Lemma unusable_file_empty (file content : string) :
  hasRouterSignal content = false \/ (exists message, parse w content = Thrown message) ->
  (if hasRouterSignal content
   then extractReactRouterRoutesFromFile w file content projectPath
   else []) = [].
Proof.
  intros [->|[message H]]; [reflexivity|].
  unfold extractReactRouterRoutesFromFile. rewrite H. now destruct (hasRouterSignal _).
Qed.

Lemma viteFileLoop_skip (before after : list string) (file content : string)
      (routes : list RouteInfo) :
  readFile w file = Returned content ->
  hasRouterSignal content = false \/ (exists message, parse w content = Thrown message) ->
  viteFileLoop w projectPath (before ++ file :: after) routes
  = viteFileLoop w projectPath (before ++ after) routes.
Proof.
  intros Hread Hskip. apply (unusable_file_empty file) in Hskip.
  revert routes; induction before as [|f before IH]; intros routes;
    cbn [List.app viteFileLoop].
  - rewrite Hread. destruct (hasRouterSignal content); [|reflexivity].
    now rewrite Hskip, List.app_nil_r.
  - destruct (readFile w f) as [c|]; [|reflexivity].
    destruct (hasRouterSignal c); apply IH.
Qed.

Lemma reactRouterFileLoop_skip (before after : list string) (file content : string)
      (st : list RouteInfo * gset string) :
  readFile w file = Returned content ->
  hasRouterSignal content = false \/ (exists message, parse w content = Thrown message) ->
  reactRouterFileLoop w projectPath (before ++ file :: after) st
  = reactRouterFileLoop w projectPath (before ++ after) st.
Proof.
  intros Hread Hskip. apply (unusable_file_empty file) in Hskip.
  revert st; induction before as [|f before IH]; intros st;
    cbn [List.app reactRouterFileLoop].
  - rewrite Hread. destruct (hasRouterSignal content); [|reflexivity].
    now rewrite Hskip.
  - destruct (readFile w f) as [c|]; [|reflexivity].
    destruct (hasRouterSignal c); apply IH.
Qed.

End ScanFacts.

(** X13: a file that cannot be read ends the scan.  When [readFile] fails
    for a listed file, both project scans return what the files listed
    before it gave; the files listed after it are never examined, and no
    error is reported. *)
Theorem scan_stops_at_unreadable_file (w : World) (projectPath : string)
        (before after : list string) (file message : string) :
  glob w sourcePattern projectPath scanIgnore = Returned (before ++ file :: after) ->
  readFile w file = Thrown message ->
  extractViteRoutes w projectPath = viteFileLoop w projectPath before []
  /\ extractReactRouterRoutes w projectPath
     = reactRouterFileLoop w projectPath before ([], ∅).
Proof.
  intros Hglob Hread. unfold extractViteRoutes, extractReactRouterRoutes.
  rewrite Hglob. split.
  - now apply viteFileLoop_stop with (message := message).
  - now apply reactRouterFileLoop_stop with (message := message).
Qed.

Lemma scan_stops_at_unreadable_file_witness :
  glob MoreScenarios.scanProject sourcePattern "app" scanIgnore
  = Returned (["/w/app/a.tsx"; "/w/app/broken.tsx"] ++ "/w/app/gone.tsx" :: ["/w/app/b.tsx"])
  /\ readFile MoreScenarios.scanProject "/w/app/gone.tsx"
     = Thrown "ENOENT: no such file or directory"
  /\ List.map path (extractViteRoutes MoreScenarios.scanProject "app") = ["/a"]
  /\ errors (extractSiteRoutes MoreScenarios.scanProject "app") = [].
Proof.
  assert (glob MoreScenarios.scanProject sourcePattern "app" scanIgnore
          = Returned (["/w/app/a.tsx"; "/w/app/broken.tsx"]
                        ++ "/w/app/gone.tsx" :: ["/w/app/b.tsx"])) as Hglob
    by reflexivity.
  assert (readFile MoreScenarios.scanProject "/w/app/gone.tsx"
          = Thrown "ENOENT: no such file or directory") as Hread by reflexivity.
  split; [exact Hglob|]. split; [exact Hread|]. split; [|reflexivity].
  rewrite (proj1 (scan_stops_at_unreadable_file MoreScenarios.scanProject "app"
                    _ _ _ _ Hglob Hread)).
  reflexivity.
Defined.

(** X14: a file without routing signal, or one that cannot be parsed, is
    passed over.  Both project scans return what they return for the
    listing without that file: the files before and after it contribute
    as usual. *)
Theorem scan_skips_unusable_file (w : World) (projectPath : string)
        (before after : list string) (file content : string) :
  glob w sourcePattern projectPath scanIgnore = Returned (before ++ file :: after) ->
  readFile w file = Returned content ->
  hasRouterSignal content = false \/ (exists message, parse w content = Thrown message) ->
  extractViteRoutes w projectPath = viteFileLoop w projectPath (before ++ after) []
  /\ extractReactRouterRoutes w projectPath
     = reactRouterFileLoop w projectPath (before ++ after) ([], ∅).
Proof.
  intros Hglob Hread Hskip. unfold extractViteRoutes, extractReactRouterRoutes.
  rewrite Hglob. split.
  - now apply viteFileLoop_skip with (content := content).
  - now apply reactRouterFileLoop_skip with (content := content).
Qed.

Lemma scan_skips_unusable_file_witness :
  glob MoreScenarios.scanProject sourcePattern "app" scanIgnore
  = Returned (["/w/app/a.tsx"] ++ "/w/app/broken.tsx" :: ["/w/app/gone.tsx"; "/w/app/b.tsx"])
  /\ readFile MoreScenarios.scanProject "/w/app/broken.tsx"
     = Returned "<Routes><Route path="
  /\ (hasRouterSignal "<Routes><Route path=" = false
      \/ exists message,
           parse MoreScenarios.scanProject "<Routes><Route path=" = Thrown message)
  /\ extractViteRoutes MoreScenarios.scanProject "app"
     = viteFileLoop MoreScenarios.scanProject "app"
         (["/w/app/a.tsx"] ++ ["/w/app/gone.tsx"; "/w/app/b.tsx"]) [].
Proof.
  assert (glob MoreScenarios.scanProject sourcePattern "app" scanIgnore
          = Returned (["/w/app/a.tsx"]
                        ++ "/w/app/broken.tsx" :: ["/w/app/gone.tsx"; "/w/app/b.tsx"]))
    as Hglob by reflexivity.
  assert (readFile MoreScenarios.scanProject "/w/app/broken.tsx"
          = Returned "<Routes><Route path=") as Hread by reflexivity.
  assert (hasRouterSignal "<Routes><Route path=" = false
          \/ exists message,
               parse MoreScenarios.scanProject "<Routes><Route path=" = Thrown message)
    as Hskip by (right; eexists; reflexivity).
  split; [exact Hglob|]. split; [exact Hread|]. split; [exact Hskip|].
  exact (proj1 (scan_skips_unusable_file MoreScenarios.scanProject "app"
                  _ _ _ _ Hglob Hread Hskip)).
Defined.

(** ** The filter of the react-router-dom scan *)

Section FilterFacts.

(** Records with the same path and component have the same key. *)
Lemma pathAndComponent_routeKey (a b : RouteInfo) :
  pathAndComponent a = pathAndComponent b -> routeKey a = routeKey b.
Proof. unfold pathAndComponent, routeKey. now intros [= -> ->]. Qed.

(** The state of the filter after any number of records: the set holds
    the keys of the records kept, the keys of the records kept are
    pairwise distinct, the records kept so far stay in front, the new ones
    are a sublist of the records offered, and every record offered has
    its key among those of the records kept. *)
Lemma fold_addRoute_state (l routes : list RouteInfo) (seen : gset string) :
  (forall k, k ∈ seen <-> In k (List.map routeKey routes)) ->
  List.NoDup (List.map routeKey routes) ->
  List.NoDup (List.map routeKey (fst (fold_left addRoute l (routes, seen))))
  /\ (exists kept, fst (fold_left addRoute l (routes, seen)) = routes ++ kept
                   /\ sublist kept l)
  /\ (forall r, In r l ->
        In (routeKey r) (List.map routeKey (fst (fold_left addRoute l (routes, seen))))).
Proof.
  revert routes seen; induction l as [|r l IH]; intros routes seen Hseen Hnodup;
    cbn [fold_left].
  - split; [exact Hnodup|]. split; [|intros r []].
    exists []. split; [now rewrite List.app_nil_r | constructor].
  - unfold addRoute at 2 4 6. case_bool_decide as Hkey.
    + destruct (IH routes seen Hseen Hnodup) as (Hn & (kept & Hk & Hsub) & Hcover).
      split; [exact Hn|]. split.
      * exists kept. split; [exact Hk | now constructor].
      * intros r' [<-|Hr']; [|now apply Hcover].
        rewrite Hk, List.map_app. apply in_or_app. left. now apply Hseen.
    + destruct (IH (routes ++ [r]) ({[routeKey r]} ∪ seen))
        as (Hn & (kept & Hk & Hsub) & Hcover).
      * intros k. rewrite elem_of_union, elem_of_singleton, Hseen, List.map_app.
        cbn [List.map]. rewrite in_app_iff. cbn [In]. intuition.
      * rewrite List.map_app. cbn [List.map].
        apply NoDup_ListNoDup, NoDup_app.
        split; [now apply NoDup_ListNoDup|]. split; [|apply NoDup_singleton].
        intros k Hk1 Hk2. apply list_elem_of_singleton in Hk2 as ->.
        apply Hkey, Hseen. now apply list_elem_of_In.
      * split; [exact Hn|]. split.
        -- exists (r :: kept). split; [now rewrite Hk, <- List.app_assoc|].
           now constructor.
        -- intros r' [<-|Hr']; [|now apply Hcover].
           rewrite Hk, !List.map_app. apply in_or_app. left. apply in_or_app. right.
           now left.
Qed.

End FilterFacts.

(** X15: the react-router-dom result has no duplicates.  No two records
    of the result (at the top level) have the same key string, and
    therefore no two have the same (path, component) pair. *)
Theorem react_router_result_distinct (w : World) (projectPath : string) :
  List.NoDup (List.map routeKey (extractReactRouterRoutes w projectPath))
  /\ List.NoDup (List.map pathAndComponent (extractReactRouterRoutes w projectPath)).
Proof.
  assert (List.NoDup (List.map routeKey (extractReactRouterRoutes w projectPath))) as H.
  { rewrite extractReactRouterRoutes_removeLaterKeys. unfold removeLaterKeys.
    apply fold_addRoute_state; [|constructor].
    intros k. cbn [List.map In]. split; [intros Hk; now apply elem_of_empty in Hk | easy]. }
  split; [exact H|].
  induction (extractReactRouterRoutes w projectPath) as [|r l IH]; [constructor|].
  cbn [List.map] in *. inversion H as [|? ? Hnotin Hrest]; subst.
  constructor; [|now apply IH].
  intros Hin. apply Hnotin. apply in_map_iff in Hin as (r' & Heq & Hr').
  apply in_map_iff. exists r'. split; [now apply pathAndComponent_routeKey | exact Hr'].
Qed.

(** X16: the react-router-dom scan keeps records of the vite scan and
    loses no key.  Its result is a sublist of the vite result for the same
    project (same records, same order, some left out), and every key
    string of the vite result is the key of a record that is kept. *)
Theorem react_router_result_covers_vite (w : World) (projectPath : string) :
  sublist (extractReactRouterRoutes w projectPath) (extractViteRoutes w projectPath)
  /\ incl (List.map routeKey (extractViteRoutes w projectPath))
          (List.map routeKey (extractReactRouterRoutes w projectPath)).
Proof.
  rewrite extractReactRouterRoutes_removeLaterKeys. unfold removeLaterKeys.
  destruct (fold_addRoute_state (extractViteRoutes w projectPath) [] ∅)
    as (_ & (kept & Hk & Hsub) & Hcover).
  - intros k. cbn [List.map In]. split; [intros Hk; now apply elem_of_empty in Hk | easy].
  - constructor.
  - split; [now rewrite Hk|].
    intros k Hin. apply in_map_iff in Hin as (r & <- & Hr). now apply Hcover.
Qed.

(** ** The fields of the records *)

Section RecordFacts.

Variables (w : World) (projectPath : string).

Lemma nextJSRouteOfFile_noImport (convert : string -> string) (dir file : string)
      (r : RouteInfo) :
  nextJSRouteOfFile convert w dir projectPath file = Some r ->
  importedComponent r = None.
Proof.
  unfold nextJSRouteOfFile. destruct (truthy _); [|discriminate]. now intros [= <-].
Qed.

Lemma extractNextJSRoutes_allRoutes (r : RouteInfo) :
  In r (flat_map allRoutes (extractNextJSRoutes w projectPath)) ->
  exists convert dir file,
    nextJSRouteOfFile convert w dir projectPath file = Some r
    /\ importedComponent r = None.
Proof.
  intros H. apply in_flat_map in H as (r0 & Hr0 & Hr).
  apply extractNextJSRoutes_In in Hr0 as [(file & Hf & _)|(file & Hf)];
    assert (Hfields := nextJSRouteOfFile_fields w projectPath _ _ _ _ Hf);
    destruct Hfields as (_ & _ & Hc & _);
    rewrite allRoutes_unfold in Hr; unfold nestedRoutes in Hr; rewrite Hc in Hr;
    destruct Hr as [<-|[]]; eauto 6 using nextJSRouteOfFile_noImport.
Qed.

(** Every record of a parsed file, nested ones included, has a property
    that the record under construction has from the start and that every
    update keeps. *)
Lemma fileRecords_all (file content : string) (ast : Node) (Q : RouteInfo -> Prop) :
  parse w content = Returned ast ->
  let fc := mkFileContext w file projectPath (collectImports ast) in
  Q (initialRouteInfo fc) ->
  (forall v ri, Q ri -> Q (setPath v ri)) ->
  (forall c ri, Q ri -> Q (trackImportedComponent fc c ri)) ->
  (forall cs ri, Q ri -> Q (setChildren cs ri)) ->
  Forall Q (flat_map allRoutes (extractReactRouterRoutesFromFile w file content projectPath)).
Proof.
  intros Hparse fc H1 H2 H3 H4. apply List.Forall_flat_map.
  unfold extractReactRouterRoutesFromFile. rewrite Hparse. fold fc.
  apply List.Forall_app. split.
  - apply List.Forall_flat_map, List.Forall_forall. intros ri Hri.
    apply in_map_iff in Hri as (attributes & <- & _).
    constructor; [|constructor].
    eapply (extractRouteFromJSXElement_all fc Q); try reflexivity; auto.
  - apply List.Forall_concat, List.Forall_forall. intros l Hl.
    apply in_map_iff in Hl as (args & <- & _).
    apply (extractRoutesFromCreateBrowserRouter_all fc Q); auto.
Qed.

Lemma flagsMatchPath_setPath (v : string) (ri : RouteInfo) :
  flagsMatchPath (setPath v ri).
Proof. right. now split. Qed.

Lemma flagsMatchPath_track (fc : FileContext) (c : string) (ri : RouteInfo) :
  flagsMatchPath ri -> flagsMatchPath (trackImportedComponent fc c ri).
Proof.
  unfold trackImportedComponent.
  destruct (fc_imports fc !! c) as [importPath|]; [|easy].
  now destruct (truthy importPath).
Qed.

Lemma importConsistent_track (fc : FileContext) (c : string) (ri : RouteInfo) :
  importConsistent ri -> importConsistent (trackImportedComponent fc c ri).
Proof.
  unfold trackImportedComponent.
  destruct (fc_imports fc !! c) as [importPath|]; [|easy].
  destruct (truthy importPath) eqn:E; [|easy].
  intros _. unfold importConsistent. cbn [importedComponent ic_path ic_fullPath
                                           resolvedComponentPath].
  repeat split; [exact E | discriminate].
Qed.

Let declaredShape (r : RouteInfo) : Prop :=
  flagsMatchPath r /\ recordShape vite r.

Lemma declaredShape_initial (fc : FileContext) :
  fc_world fc = w -> fc_projectPath fc = projectPath -> declaredShape (initialRouteInfo fc).
Proof.
  intros _ _. split; [left; now repeat split|]. split; [|now split].
  eexists. split; [reflexivity|]. apply relative_not_absolute.
Qed.

Lemma declaredShape_setPath (v : string) (ri : RouteInfo) :
  declaredShape ri -> declaredShape (setPath v ri).
Proof. intros [_ H]. split; [apply flagsMatchPath_setPath | exact H]. Qed.

Lemma declaredShape_track (fc : FileContext) (c : string) (ri : RouteInfo) :
  fc_world fc = w -> fc_projectPath fc = projectPath ->
  declaredShape ri -> declaredShape (trackImportedComponent fc c ri).
Proof.
  intros _ _ [Hf (Hc & Hch & Hi)]. split; [now apply flagsMatchPath_track|].
  split; [|split; [|now apply importConsistent_track]];
    unfold trackImportedComponent;
    destruct (fc_imports fc !! c) as [importPath|]; try assumption;
    destruct (truthy importPath); assumption.
Qed.

Lemma declaredShape_setChildren (cs : list RouteInfo) (ri : RouteInfo) :
  declaredShape ri -> declaredShape (setChildren cs ri).
Proof.
  intros [Hf (Hc & _ & Hi)]. split; [exact Hf|]. split; [exact Hc|].
  split; [discriminate | exact Hi].
Qed.

Lemma siteRecords_declaredShape (r : RouteInfo) :
  In r (flat_map allRoutes (extractViteRoutes w projectPath))
  \/ In r (flat_map allRoutes (extractReactRouterRoutes w projectPath)) ->
  flagsMatchPath r /\ recordShape vite r.
Proof.
  intros H. change (declaredShape r).
  destruct H as [H|H]; revert r H; apply List.Forall_forall, List.Forall_flat_map.
  - apply extractViteRoutes_all;
      auto using declaredShape_initial, declaredShape_setPath, declaredShape_track,
                 declaredShape_setChildren.
  - apply extractReactRouterRoutes_all;
      auto using declaredShape_initial, declaredShape_setPath, declaredShape_track,
                 declaredShape_setChildren.
Qed.

Lemma siteRecords_cases (r : RouteInfo) :
  In r (flat_map allRoutes (routes (extractSiteRoutes w projectPath))) ->
  match name (framework (extractSiteRoutes w projectPath)) with
  | nextjs => exists convert dir file,
                nextJSRouteOfFile convert w dir projectPath file = Some r
                /\ importedComponent r = None
  | _ => flagsMatchPath r /\ recordShape vite r
  end.
Proof.
  unfold extractSiteRoutes.
  destruct (negb (pathExists w projectPath)); [intros []|].
  destruct (detectFramework w projectPath) as [fw|]; [|intros []].
  destruct (name fw) eqn:E; cbn [framework routes]; rewrite E; intros H.
  - now apply extractNextJSRoutes_allRoutes.
  - apply siteRecords_declaredShape. now left.
  - apply siteRecords_declaredShape. now right.
  - destruct H.
Qed.

End RecordFacts.

(** X17: the flags of a record follow from its path.  In a result for a
    file-based (nextjs) project, [dynamic] tells whether the route path
    contains ["["] or ["..."] and [catchAll] whether it contains ["..."];
    in every other result, for every record and nested record, either no
    path was read (path ["/"], both flags unset) or [dynamic] tells
    whether the path contains [":"] and [catchAll] whether it contains
    ["*"]. *)
Theorem flags_follow_path (w : World) (projectPath : string) (r : RouteInfo) :
  In r (flat_map allRoutes (routes (extractSiteRoutes w projectPath))) ->
  match name (framework (extractSiteRoutes w projectPath)) with
  | nextjs => fileFlagsMatchPath r
  | _ => flagsMatchPath r
  end.
Proof.
  intros H. apply siteRecords_cases in H.
  destruct (name (framework (extractSiteRoutes w projectPath))); try apply H.
  destruct H as (convert & dir & file & H & _).
  apply nextJSRouteOfFile_fields in H as (_ & _ & _ & Hd & Hc & _). now split.
Qed.

Lemma flags_follow_path_witness :
  let r := mkRouteInfo "*" (Some "src/App.tsx") (Some []) (Some false) (Some true)
             (Some "some-ui-kit")
             (Some (mkImportedComponent "NotFound" "some-ui-kit" (Some "some-ui-kit"))) in
  In r (flat_map allRoutes (routes (extractSiteRoutes Scenarios.routerProject "app")))
  /\ flagsMatchPath r.
Proof.
  intros r.
  assert (In r (flat_map allRoutes
                  (routes (extractSiteRoutes Scenarios.routerProject "app")))) as Hin
    by (vm_compute; auto).
  split; [exact Hin|].
  exact (flags_follow_path Scenarios.routerProject "app" r Hin).
Defined.

(** X18: the shape of the records by strategy.  Every record of a result,
    nested ones included, has a component and it is never an absolute
    path.  The records of a file-based (nextjs) project have no
    [children] and no [importedComponent], and they have a resolved path;
    the records of every other result have a [children] list, and either
    neither [importedComponent] nor a resolved path, or an import with a
    non-empty specifier whose [fullPath] is the resolved path. *)
Theorem record_shape_by_strategy (w : World) (projectPath : string) (r : RouteInfo) :
  In r (flat_map allRoutes (routes (extractSiteRoutes w projectPath))) ->
  recordShape (name (framework (extractSiteRoutes w projectPath))) r.
Proof.
  intros H. apply siteRecords_cases in H.
  destruct (name (framework (extractSiteRoutes w projectPath))); try apply H.
  destruct H as (convert & dir & file & H & Hi).
  apply nextJSRouteOfFile_fields in H as (_ & Hc & Hch & _ & _ & Hr).
  split; [|split; [exact Hch|split; [exact Hi | now rewrite Hr]]].
  eexists. split; [exact Hc|]. apply relative_not_absolute.
Qed.

Lemma record_shape_by_strategy_witness :
  let r := mkRouteInfo "/a/:b" (Some "src/App.tsx") (Some []) (Some true) (Some false)
             None None in
  In r (flat_map allRoutes (routes (extractSiteRoutes Scenarios.routerProject "app")))
  /\ recordShape react_router_dom r.
Proof.
  intros r.
  assert (In r (flat_map allRoutes
                  (routes (extractSiteRoutes Scenarios.routerProject "app")))) as Hin
    by (vm_compute; auto 10).
  split; [exact Hin|].
  exact (record_shape_by_strategy Scenarios.routerProject "app" r Hin).
Defined.

(** X19: a declared route names the file that declares it.  Every record
    extracted from a file, the records nested under [children] included,
    has as component the path of that file relative to the project root. *)
Theorem declared_records_name_their_file (w : World)
        (filePath content projectPath : string) (r : RouteInfo) :
  In r (flat_map allRoutes
          (extractReactRouterRoutesFromFile w filePath content projectPath)) ->
  component r = Some (Path.relative (cwd w) projectPath filePath).
Proof.
  revert r. apply List.Forall_forall.
  destruct (parse w content) as [ast|message] eqn:Hparse.
  - apply (fileRecords_all w projectPath filePath content ast); auto.
    intros c ri H. unfold trackImportedComponent.
    destruct (_ !! c) as [importPath|]; [|exact H].
    now destruct (truthy importPath).
  - unfold extractReactRouterRoutesFromFile. rewrite Hparse. constructor.
Qed.

Lemma declared_records_name_their_file_witness :
  let r := mkRouteInfo "/a/:b" (Some "src/App.tsx") (Some []) (Some true) (Some false)
             None None in
  In r (flat_map allRoutes
          (extractReactRouterRoutesFromFile Scenarios.routerProject
             "/w/app/src/App.tsx" Scenarios.appSourceText "app"))
  /\ component r = Some (Path.relative "/w" "app" "/w/app/src/App.tsx").
Proof.
  intros r.
  assert (In r (flat_map allRoutes
                  (extractReactRouterRoutesFromFile Scenarios.routerProject
                     "/w/app/src/App.tsx" Scenarios.appSourceText "app"))) as Hin
    by (vm_compute; auto 10).
  split; [exact Hin|].
  exact (declared_records_name_their_file Scenarios.routerProject
           "/w/app/src/App.tsx" Scenarios.appSourceText "app" r Hin).
Defined.

(** X20: a recorded import comes from the file's import table.  When a
    record extracted from a file (nested ones included) carries an
    [importedComponent], its name is bound in the import table of the
    file to the recorded specifier, the specifier is not empty, and both
    the resolved path of the record and the [fullPath] of the import are
    the result of [resolveImportPath] for that specifier; a record
    without [importedComponent] has no resolved path. *)
Theorem recorded_import_matches_table (w : World)
        (filePath content projectPath : string) (ast : Node) (r : RouteInfo) :
  parse w content = Returned ast ->
  In r (flat_map allRoutes
          (extractReactRouterRoutesFromFile w filePath content projectPath)) ->
  importRecorded (mkFileContext w filePath projectPath (collectImports ast)) r.
Proof.
  intros Hparse. revert r. apply List.Forall_forall.
  apply (fileRecords_all w projectPath filePath content ast); auto.
  - reflexivity.
  - intros c ri H. unfold trackImportedComponent.
    destruct (_ !! c) as [importPath|] eqn:Hc; [|exact H].
    destruct (truthy importPath) eqn:E; [|exact H].
    unfold importRecorded.
    cbn [importedComponent ic_name ic_path ic_fullPath resolvedComponentPath].
    repeat split; [exact Hc | exact E].
Qed.

Lemma recorded_import_matches_table_witness :
  let r := mkRouteInfo "/" (Some "src/App.tsx") (Some []) (Some false) (Some false)
             (Some "src/pages/Home.jsx")
             (Some (mkImportedComponent "Home" "./pages/Home"
                      (Some "src/pages/Home.jsx"))) in
  parse Scenarios.routerProject Scenarios.appSourceText = Returned Scenarios.appSourceTree
  /\ In r (flat_map allRoutes
             (extractReactRouterRoutesFromFile Scenarios.routerProject
                "/w/app/src/App.tsx" Scenarios.appSourceText "app"))
  /\ importRecorded
       (mkFileContext Scenarios.routerProject "/w/app/src/App.tsx" "app"
          (collectImports Scenarios.appSourceTree)) r.
Proof.
  intros r.
  assert (parse Scenarios.routerProject Scenarios.appSourceText
          = Returned Scenarios.appSourceTree) as Hparse by reflexivity.
  assert (In r (flat_map allRoutes
                  (extractReactRouterRoutesFromFile Scenarios.routerProject
                     "/w/app/src/App.tsx" Scenarios.appSourceText "app"))) as Hin
    by (vm_compute; auto 10).
  split; [exact Hparse|]. split; [exact Hin|].
  exact (recorded_import_matches_table Scenarios.routerProject
           "/w/app/src/App.tsx" Scenarios.appSourceText "app"
           Scenarios.appSourceTree r Hparse Hin).
Defined.

(** ** Import specifiers through [path.resolve] and [path.relative] *)

Section ResolveFacts.

Let slashFree (x : string) : Prop := charFree "/" x = true.
Let clean (x : string) : Prop := plainSegment x = true /\ charFree "/" x = true.

Lemma segments_nonempty (s : string) : Path.segments s <> [].
Proof.
  induction s as [|c s IH]; cbn [Path.segments]; [discriminate|].
  destruct (Ascii.eqb c "/"); [discriminate|].
  now destruct (Path.segments s).
Qed.

Lemma segments_append (a b : string) :
  Path.segments (a +:+ "/" +:+ b) = Path.segments a ++ Path.segments b.
Proof.
  induction a as [|c a IH].
  - reflexivity.
  - change (String c a +:+ "/" +:+ b) with (String c (a +:+ "/" +:+ b)).
    cbn [Path.segments]. rewrite IH.
    destruct (Ascii.eqb c "/"); [reflexivity|].
    assert (H := segments_nonempty a). now destruct (Path.segments a).
Qed.

Lemma joinSegments_cons (x y : string) (l : list string) :
  Path.joinSegments (x :: y :: l) = x +:+ "/" +:+ Path.joinSegments (y :: l).
Proof. reflexivity. Qed.

Lemma joinSegments_segments (s : string) : Path.joinSegments (Path.segments s) = s.
Proof.
  induction s as [|c s IH]; [reflexivity|]. cbn [Path.segments].
  assert (H := segments_nonempty s).
  destruct (Ascii.eqb c "/") eqn:E.
  - apply Ascii.eqb_eq in E as ->.
    destruct (Path.segments s) as [|seg rest]; [easy|].
    now rewrite joinSegments_cons, IH.
  - destruct (Path.segments s) as [|seg rest]; [easy|].
    destruct rest as [|y rest].
    + cbn in IH |- *. now rewrite IH.
    + rewrite joinSegments_cons in IH |- *.
      change (String c seg +:+ ?t) with (String c (seg +:+ t)). now rewrite IH.
Qed.

Lemma segments_single (x : string) : slashFree x -> Path.segments x = [x].
Proof.
  unfold slashFree. induction x as [|c x IH]; [reflexivity|].
  cbn [charFree Path.segments]. intros H. apply andb_true_iff in H as [Hc Hx].
  apply negb_true_iff in Hc. rewrite Hc, (IH Hx). reflexivity.
Qed.

Lemma segments_joinSegments (l : list string) :
  l <> [] -> Forall slashFree l -> Path.segments (Path.joinSegments l) = l.
Proof.
  intros Hne H. induction H as [|x l Hx Hl IH]; [easy|].
  destruct l as [|y l].
  - now apply segments_single.
  - rewrite joinSegments_cons, segments_append, IH by discriminate.
    now rewrite (segments_single x).
Qed.

Lemma segments_slashFree (s : string) : Forall slashFree (Path.segments s).
Proof.
  induction s as [|c s IH]; cbn [Path.segments].
  - now repeat constructor.
  - destruct (Ascii.eqb c "/") eqn:E; [now constructor|].
    destruct IH as [|seg rest Hseg Hrest]; constructor; try easy.
    + unfold slashFree. cbn [charFree]. now rewrite E.
    + unfold slashFree in *. cbn [charFree]. now rewrite E.
Qed.

Lemma normalizeStep_plain (b : bool) (acc : list string) (seg : string) :
  plainSegment seg = true -> Path.normalizeStep b acc seg = seg :: acc.
Proof.
  unfold plainSegment, truthy, Path.normalizeStep. intros H.
  apply andb_true_iff in H as [H H3]. apply andb_true_iff in H as [H1 H2].
  apply negb_true_iff in H1, H2, H3. now rewrite H1, H2, H3.
Qed.

Lemma fold_normalizeStep_plain (b : bool) (l acc : list string) :
  forallb plainSegment l = true ->
  fold_left (Path.normalizeStep b) l acc = rev l ++ acc.
Proof.
  revert acc; induction l as [|x l IH]; intros acc H; [reflexivity|].
  cbn [forallb] in H. apply andb_true_iff in H as [Hx Hl].
  cbn [fold_left rev]. rewrite normalizeStep_plain, IH by assumption.
  now rewrite <- List.app_assoc.
Qed.

Lemma normalizeString_app_plain (b : bool) (l1 l2 : list string) :
  forallb plainSegment l2 = true ->
  Path.normalizeString b (l1 ++ l2 ++ [""])
  = Path.normalizeString b (l1 ++ [""]) ++ l2.
Proof.
  intros H. unfold Path.normalizeString.
  rewrite !List.fold_left_app, (fold_normalizeStep_plain b l2) by exact H.
  cbn [fold_left]. unfold Path.normalizeStep at 1 3. cbn [String.eqb orb].
  now rewrite List.rev_app_distr, List.rev_involutive.
Qed.

Lemma normalizeStep_clean (acc : list string) (seg : string) :
  Forall clean acc -> slashFree seg -> Forall clean (Path.normalizeStep false acc seg).
Proof.
  intros Hacc Hseg. unfold Path.normalizeStep.
  destruct (String.eqb seg "" || String.eqb seg ".") eqn:E1; [assumption|].
  apply orb_false_iff in E1 as [E1 E2].
  destruct (String.eqb seg "..") eqn:E3.
  - destruct Hacc as [|top rest Htop Hrest]; [constructor|].
    destruct (String.eqb top ".."); [now constructor | assumption].
  - constructor; [|assumption]. split; [|exact Hseg].
    unfold plainSegment, truthy. now rewrite E1, E2, E3.
Qed.

Lemma normalizeString_clean (segs : list string) :
  Forall slashFree segs -> Forall clean (Path.normalizeString false segs).
Proof.
  unfold Path.normalizeString. intros H. apply Forall_rev.
  assert (forall acc, Forall clean acc ->
                      Forall clean (fold_left (Path.normalizeStep false) segs acc)) as Hfold.
  { induction H as [|x l Hx Hl IH]; intros acc Hacc; [exact Hacc|].
    cbn [fold_left]. apply IH. now apply normalizeStep_clean. }
  apply Hfold. constructor.
Qed.

Lemma resolveSegments_clean (cwd : string) (paths : list string) :
  Forall clean (Path.resolveSegments cwd paths).
Proof.
  unfold Path.resolveSegments. destruct (Path.resolveRaw paths) as [raw absolute].
  apply normalizeString_clean, segments_slashFree.
Qed.

(** [path.resolve] leaves a resolved path as it is. *)
Lemma resolveSegments_resolve (cwd : string) (paths : list string) :
  Path.resolveSegments cwd [Path.resolve cwd paths] = Path.resolveSegments cwd paths.
Proof.
  assert (Hclean := resolveSegments_clean cwd paths).
  unfold Path.resolve. set (S := Path.resolveSegments cwd paths) in *.
  assert (Path.resolveRaw ["/" +:+ Path.joinSegments S]
          = (("/" +:+ Path.joinSegments S) +:+ "/" +:+ "", true)) as Hraw.
  { change ("/" +:+ Path.joinSegments S) with (String "/" (Path.joinSegments S)).
    cbn [Path.resolveRaw String.eqb]. unfold Path.isAbsolute.
    now rewrite startsWith_cons. }
  unfold Path.resolveSegments at 1. rewrite Hraw, segments_append.
  change (Path.segments ("/" +:+ Path.joinSegments S))
    with ("" :: Path.segments (Path.joinSegments S)).
  destruct S as [|x S]; [reflexivity|].
  rewrite segments_joinSegments.
  - change (("" :: x :: S) ++ Path.segments "") with ([""] ++ (x :: S) ++ [""]).
    rewrite normalizeString_app_plain; [reflexivity|].
    apply forallb_forall. intros y Hy.
    eapply List.Forall_forall in Hclean; [|exact Hy]. apply Hclean.
  - discriminate.
  - eapply List.Forall_impl; [|exact Hclean]. now intros y [_ Hy].
Qed.

(** Resolving a relative path of plain segments appends its segments. *)
Lemma resolveSegments_extend (cwd p x : string) :
  truthy x = true -> Path.isAbsolute x = false ->
  forallb plainSegment (Path.segments x) = true ->
  Path.resolveSegments cwd [p; x] = Path.resolveSegments cwd [p] ++ Path.segments x.
Proof.
  intros Hx Habs Hplain. unfold truthy in Hx. apply negb_true_iff in Hx.
  unfold Path.resolveSegments. cbn [Path.resolveRaw]. rewrite Hx, Habs.
  destruct (String.eqb p "").
  - rewrite !segments_append. apply normalizeString_app_plain. exact Hplain.
  - destruct (Path.isAbsolute p).
    + rewrite !segments_append. apply normalizeString_app_plain. exact Hplain.
    + rewrite !segments_append, !List.app_assoc, <- (List.app_assoc _ (Path.segments x)).
      apply normalizeString_app_plain. exact Hplain.
Qed.

Lemma resolveSegments_absolute (cwd p x : string) :
  Path.isAbsolute x = true ->
  Path.resolveSegments cwd [p; x] = Path.resolveSegments cwd [x].
Proof.
  intros Habs. unfold Path.resolveSegments. cbn [Path.resolveRaw].
  destruct (String.eqb x "") eqn:E; [apply String.eqb_eq in E; now subst|].
  now rewrite Habs.
Qed.

Lemma dropCommon_app (a b : list string) : Path.dropCommon a (a ++ b) = ([], b).
Proof.
  induction a as [|x a IH]; [now destruct b|].
  cbn [List.app Path.dropCommon]. now rewrite String.eqb_refl.
Qed.

Lemma startsWith_src (s : string) :
  startsWith s "src/" = true ->
  truthy s = true /\ startsWith s "." = false /\ startsWith s "/" = false.
Proof.
  destruct s as [|c s]; [discriminate|].
  unfold startsWith. intros H. rewrite !prefix_char.
  assert (c = "s"%char) as ->; [|now repeat split].
  cbn [String.prefix] in H. now destruct (ascii_dec "s" c).
Qed.

End ResolveFacts.

(** X21: a specifier under [src/] in normal form comes back unchanged.
    When the import specifier begins with ["src/"] and none of its
    segments is empty, ["."] or [".."], [resolveImportPath] returns the
    specifier itself, whatever the project root, the working directory
    and the importing file are. *)
Theorem src_specifier_round_trip (w : World)
        (importPath currentFile projectPath : string) :
  startsWith importPath "src/" = true ->
  forallb plainSegment (Path.segments importPath) = true ->
  resolveImportPath w importPath currentFile projectPath = importPath.
Proof.
  intros Hsrc Hplain. destruct (startsWith_src importPath Hsrc) as (Ht & Hdot & Hslash).
  unfold resolveImportPath. rewrite Hdot, Hslash, Hsrc. cbn [orb].
  unfold getRelativePath, Path.relative.
  rewrite resolveSegments_resolve, resolveSegments_extend, dropCommon_app
    by assumption.
  cbn [List.length repeat List.app]. apply joinSegments_segments.
Qed.

Lemma src_specifier_round_trip_witness :
  startsWith "src/components/Header" "src/" = true
  /\ forallb plainSegment (Path.segments "src/components/Header") = true
  /\ resolveImportPath Scenarios.routerProject "src/components/Header"
       "/w/app/src/pages/deep/Home.tsx" "../elsewhere/app"
     = "src/components/Header".
Proof.
  assert (startsWith "src/components/Header" "src/" = true) as Hsrc by reflexivity.
  assert (forallb plainSegment (Path.segments "src/components/Header") = true)
    as Hplain by reflexivity.
  split; [exact Hsrc|]. split; [exact Hplain|].
  exact (src_specifier_round_trip Scenarios.routerProject "src/components/Header"
           "/w/app/src/pages/deep/Home.tsx" "../elsewhere/app" Hsrc Hplain).
Defined.

(** X22: a specifier that begins with ["/"] is resolved against the root
    of the file system, not against the project root: the resolved path
    is the specifier taken as an absolute file path, made relative to the
    project root. *)
Theorem rooted_specifier_ignores_project_root (w : World)
        (importPath currentFile projectPath : string) :
  startsWith importPath "/" = true ->
  resolveImportPath w importPath currentFile projectPath
  = Path.relative (cwd w) projectPath importPath.
Proof.
  intros Hslash. unfold resolveImportPath.
  assert (startsWith importPath "." = false) as ->.
  { destruct importPath as [|c s]; [discriminate|].
    unfold startsWith in *. rewrite prefix_char in *.
    apply Ascii.eqb_eq in Hslash as ->. reflexivity. }
  rewrite Hslash. cbn [orb]. unfold getRelativePath, Path.relative.
  now rewrite resolveSegments_resolve, resolveSegments_absolute.
Qed.

Lemma rooted_specifier_ignores_project_root_witness :
  startsWith "/components/Header" "/" = true
  /\ resolveImportPath Scenarios.routerProject "/components/Header"
       "/w/app/src/App.tsx" "app"
     = "../../components/Header".
Proof.
  assert (startsWith "/components/Header" "/" = true) as Hslash by reflexivity.
  split; [exact Hslash|].
  exact (rooted_specifier_ignores_project_root Scenarios.routerProject
           "/components/Header" "/w/app/src/App.tsx" "app" Hslash).
Defined.

(** X23: the extension probe of a relative import.  For a specifier that
    begins with ["."] and has no extension, the resolved path is the
    path, relative to the project root, of the specifier resolved from
    the importing file's directory with one of [.tsx], [.ts], [.jsx],
    [.js] appended; the file so named exists, unless none of the four
    candidates exists, in which case [.tsx] is appended. *)
Theorem extensionless_import_probe (w : World)
        (importPath currentFile projectPath : string) :
  startsWith importPath "." = true ->
  Path.extname importPath = "" ->
  let base := Path.resolve (cwd w) [Path.dirname currentFile; importPath] in
  exists ext,
    In ext [".tsx"; ".ts"; ".jsx"; ".js"]
    /\ resolveImportPath w importPath currentFile projectPath
       = Path.relative (cwd w) projectPath (base +:+ ext)
    /\ (pathExists w (base +:+ ext) = true
        \/ (ext = ".tsx"
            /\ forall e, In e [".tsx"; ".ts"; ".jsx"; ".js"] ->
                         pathExists w (base +:+ e) = false)).
Proof.
  intros Hdot Hext base. unfold resolveImportPath. rewrite Hdot, Hext.
  cbn [truthy String.eqb negb]. fold base.
  destruct (List.find _ _) as [ext|] eqn:Hfind.
  - apply List.find_some in Hfind as [Hin Hexists].
    exists ext. split; [exact Hin|]. split; [reflexivity | now left].
  - exists ".tsx". split; [now left|]. split; [reflexivity|]. right.
    split; [reflexivity|]. intros e He.
    exact (List.find_none _ _ Hfind e He).
Qed.

Lemma extensionless_import_probe_witness :
  startsWith "./pages/Home" "." = true
  /\ Path.extname "./pages/Home" = ""
  /\ exists ext,
       In ext [".tsx"; ".ts"; ".jsx"; ".js"]
       /\ resolveImportPath Scenarios.routerProject "./pages/Home"
            "/w/app/src/App.tsx" "app"
          = Path.relative "/w" "app"
              (Path.resolve "/w" [Path.dirname "/w/app/src/App.tsx"; "./pages/Home"]
               +:+ ext)
       /\ (pathExists Scenarios.routerProject
             (Path.resolve "/w" [Path.dirname "/w/app/src/App.tsx"; "./pages/Home"]
              +:+ ext) = true
           \/ (ext = ".tsx"
               /\ forall e, In e [".tsx"; ".ts"; ".jsx"; ".js"] ->
                    pathExists Scenarios.routerProject
                      (Path.resolve "/w"
                         [Path.dirname "/w/app/src/App.tsx"; "./pages/Home"]
                       +:+ e) = false)).
Proof.
  assert (startsWith "./pages/Home" "." = true) as Hdot by reflexivity.
  assert (Path.extname "./pages/Home" = "") as Hext by reflexivity.
  split; [exact Hdot|]. split; [exact Hext|].
  exact (extensionless_import_probe Scenarios.routerProject "./pages/Home"
           "/w/app/src/App.tsx" "app" Hdot Hext).
Defined.

(** ** The record builders and the import table *)

Section BuilderFacts.

Variable fc : FileContext.

Lemma last_cons {A : Type} (l : list A) (a d : A) : List.last (a :: l) d = List.last l a.
Proof.
  revert a d; induction l as [|b l IH]; intros a d; [reflexivity|].
  change (List.last (a :: b :: l) d) with (List.last (b :: l) d).
  now rewrite (IH b d), (IH b a).
Qed.

Lemma path_track (c : string) (ri : RouteInfo) :
  path (trackImportedComponent fc c ri) = path ri
  /\ children (trackImportedComponent fc c ri) = children ri.
Proof.
  unfold trackImportedComponent.
  destruct (fc_imports fc !! c) as [importPath|]; [|easy].
  now destruct (truthy importPath).
Qed.

Lemma jsxAttributeStep_path (ri : RouteInfo) (attr : JSXAttributeNode Node) :
  path (jsxAttributeStep fc ri attr)
  = match attributePaths [attr] with v :: _ => v | [] => path ri end
  /\ children (jsxAttributeStep fc ri attr) = children ri.
Proof.
  unfold jsxAttributeStep, attributePaths. cbn [flat_map].
  destruct attr as [[attrName| |] value|]; try (split; reflexivity).
  destruct (String.eqb attrName "path"); cbn [andb].
  - destruct value as [[]|]; cbn [isStringLiteral List.app];
      try (split; reflexivity);
      repeat match goal with
             | |- context [if ?b then _ else _] => destruct b
             | |- context [match ?x with _ => _ end] => destruct x
             end;
      first [apply path_track | split; reflexivity].
  - assert (forall v : string, (if false then [v] else []) = @nil string) as Hnil
      by reflexivity.
    destruct value as [[]|]; cbn [List.app];
      repeat match goal with
             | |- context [if ?b then _ else _] => destruct b
             | |- context [match ?x with _ => _ end] => destruct x
             end;
      first [apply path_track | split; reflexivity].
Qed.

Lemma fold_jsxAttributeStep_path (attributes : list (JSXAttributeNode Node))
      (ri : RouteInfo) :
  path (fold_left (jsxAttributeStep fc) attributes ri)
  = List.last (attributePaths attributes) (path ri)
  /\ children (fold_left (jsxAttributeStep fc) attributes ri) = children ri.
Proof.
  revert ri; induction attributes as [|a l IH]; intros ri; [easy|].
  cbn [fold_left]. destruct (IH (jsxAttributeStep fc ri a)) as [-> ->].
  destruct (jsxAttributeStep_path ri a) as [-> ->]. split; [|reflexivity].
  assert (attributePaths (a :: l) = attributePaths [a] ++ attributePaths l) as ->
    by (unfold attributePaths; cbn [flat_map]; now rewrite List.app_nil_r).
  assert (attributePaths [a] = [] \/ exists v, attributePaths [a] = [v]) as [->|[v ->]].
  { unfold attributePaths. cbn [flat_map]. rewrite List.app_nil_r.
    destruct a as [[attrName| |] [[]|]|]; auto.
    destruct (String.eqb attrName "path"); eauto. }
  - reflexivity.
  - cbn [List.app]. now rewrite last_cons.
Qed.

Lemma extractRouteFromObjectExpression_path (properties : list (ObjectMember Node)) :
  exists r, extractRouteFromObjectExpression fc (ObjectExpression properties) = Some r
            /\ path r = List.last (propertyPaths properties) "/".
Proof.
  eexists. split; [reflexivity|].
  change (List.last (propertyPaths properties) "/")
    with (List.last (propertyPaths properties) (path (initialRouteInfo fc))).
  generalize (initialRouteInfo fc).
  induction properties as [|prop l IH]; intros ri; cbn [fold_left]; [reflexivity|].
  rewrite IH. clear IH.
  assert (propertyPaths (prop :: l) = propertyPaths [prop] ++ propertyPaths l) as ->
    by (unfold propertyPaths; cbn [flat_map]; now rewrite List.app_nil_r).
  unfold propertyPaths at 2. cbn [flat_map]. rewrite List.app_nil_r.
  destruct prop as [key value| |]; try reflexivity.
  destruct key as [keyName|?|? ?|? ? ?|?|?|?|? ?|?]; try reflexivity.
  destruct (String.eqb keyName "path"); cbn [andb].
  - destruct value as [?|v|? ?|tag ? ?|?|?|?|? ?|?]; cbn [isStringLiteral List.app];
      try (now rewrite last_cons);
      repeat match goal with
             | |- context [if ?b then _ else _] => destruct b
             end;
      try destruct tag; try reflexivity; now rewrite (proj1 (path_track _ _)).
  - destruct value as [?|v|? ?|tag ? ?|?|?|?|? ?|?]; cbn [List.app];
      repeat match goal with
             | |- context [if ?b then _ else _] => destruct b
             end;
      try destruct tag; try reflexivity; now rewrite (proj1 (path_track _ _)).
Qed.

End BuilderFacts.

(** X24: the last usable path wins.  The path of the record built from a
    [Route] element is the value of its last [path] attribute that is a
    string literal, and the path of the record built from an object
    literal is the value of its last [path] property that is a string
    literal; it is ["/"] when there is none.  Attributes and properties
    of other names or shapes have no effect on the path. *)
Theorem last_usable_path_wins (fc : FileContext)
        (attributes : list (JSXAttributeNode Node))
        (properties : list (ObjectMember Node)) :
  (exists r, extractRouteFromJSXElement fc attributes = Some r
             /\ path r = List.last (attributePaths attributes) "/")
  /\ (exists r, extractRouteFromObjectExpression fc (ObjectExpression properties) = Some r
                /\ path r = List.last (propertyPaths properties) "/").
Proof.
  split; [|apply extractRouteFromObjectExpression_path].
  eexists. split; [reflexivity|].
  apply (fold_jsxAttributeStep_path fc attributes (initialRouteInfo fc)).
Qed.

(** X25: nesting of [Route] elements is not recorded.  The record built
    from a [Route] element always has an empty [children] list, whatever
    its attributes are; only object literals get nested records. *)
Theorem jsx_route_has_no_children (fc : FileContext)
        (attributes : list (JSXAttributeNode Node)) (r : RouteInfo) :
  extractRouteFromJSXElement fc attributes = Some r ->
  children r = Some [] /\ allRoutes r = [r].
Proof.
  unfold extractRouteFromJSXElement. intros [= <-].
  assert (children (fold_left (jsxAttributeStep fc) attributes (initialRouteInfo fc))
          = Some []) as H
    by apply (fold_jsxAttributeStep_path fc attributes (initialRouteInfo fc)).
  split; [exact H|]. rewrite allRoutes_unfold. unfold nestedRoutes. now rewrite H.
Qed.

Lemma jsx_route_has_no_children_witness :
  let fc := mkFileContext Scenarios.routerProject "/w/app/src/App.tsx" "app"
              (collectImports Scenarios.appSourceTree) in
  let attributes := [Scenarios.jsxAttr "path" (StringLiteral "/");
                     Scenarios.jsxAttr "children" (ArrayExpression []);
                     Scenarios.jsxAttr "element" (Scenarios.jsxUse "Home")] in
  exists r, extractRouteFromJSXElement fc attributes = Some r
            /\ children r = Some [] /\ allRoutes r = [r].
Proof.
  intros fc attributes. eexists. split; [reflexivity|].
  exact (jsx_route_has_no_children fc attributes _ eq_refl).
Defined.

Section ImportTable.

Lemma specifiers_lookup (source : string) (specifiers : list ImportSpecifierNode)
      (imports : gmap string string) (c s : string) :
  fold_left (fun imports specifier =>
               match specifier with
               | ImportDefaultSpecifier componentName => <[componentName := source]> imports
               | ImportSpecifier localName => <[localName := source]> imports
               | ImportNamespaceSpecifier _ => imports
               end) specifiers imports !! c = Some s ->
  imports !! c = Some s
  \/ (s = source /\ (In (ImportDefaultSpecifier c) specifiers
                     \/ In (ImportSpecifier c) specifiers)).
Proof.
  revert imports; induction specifiers as [|x l IH]; intros imports H;
    cbn [fold_left] in H; [now left|].
  apply IH in H as [H|(-> & [H|H])]; [|right; split; [reflexivity|]; cbn [In]; auto..].
  destruct x as [d|d|d]; [| |now left].
  - destruct (decide (d = c)) as [->|Hne].
    + rewrite lookup_insert_eq in H. injection H as <-. right. cbn [In]. auto.
    + rewrite lookup_insert_ne in H by exact Hne. now left.
  - destruct (decide (d = c)) as [->|Hne].
    + rewrite lookup_insert_eq in H. injection H as <-. right. cbn [In]. auto.
    + rewrite lookup_insert_ne in H by exact Hne. now left.
Qed.

Lemma collectImports_lookup (nodes : list Node) (imports : gmap string string)
      (c s : string) :
  fold_left
    (fun imports n =>
       match n with
       | ImportDeclaration source specifiers =>
           fold_left (fun imports specifier =>
                        match specifier with
                        | ImportDefaultSpecifier componentName =>
                            <[componentName := source]> imports
                        | ImportSpecifier localName =>
                            <[localName := source]> imports
                        | ImportNamespaceSpecifier _ => imports
                        end) specifiers imports
       | _ => imports
       end) nodes imports !! c = Some s ->
  imports !! c = Some s \/ exists n, In n nodes /\ bindsName c s n.
Proof.
  revert imports; induction nodes as [|n l IH]; intros imports H;
    cbn [fold_left] in H; [now left|].
  apply IH in H as [H|(n' & Hn' & Hb)]; [|right; exists n'; split; [now right | exact Hb]].
  destruct n as [?|?|source specifiers|? ? ?|?|?|?|? ?|?]; try (now left).
  apply specifiers_lookup in H as [H|(-> & H)]; [now left|].
  right. exists (ImportDeclaration source specifiers). split; [now left|].
  now split.
Qed.

End ImportTable.

(** X26: where the import table comes from.  A name is bound in the
    import table of a file only if some import declaration of the file
    binds it, by a default or a named specifier, and the table gives the
    source of such a declaration; namespace imports bind nothing. *)
Theorem import_table_provenance (ast : Node) (componentName source : string) :
  collectImports ast !! componentName = Some source ->
  exists n, In n (preorder ast) /\ bindsName componentName source n.
Proof.
  intros H. unfold collectImports in H.
  apply collectImports_lookup in H as [H|H]; [|exact H].
  rewrite lookup_empty in H. discriminate.
Qed.

Lemma import_table_provenance_witness :
  collectImports Scenarios.appSourceTree !! "Home" = Some "./pages/Home"
  /\ exists n, In n (preorder Scenarios.appSourceTree) /\ bindsName "Home" "./pages/Home" n.
Proof.
  assert (collectImports Scenarios.appSourceTree !! "Home" = Some "./pages/Home") as H
    by (vm_compute; reflexivity).
  split; [exact H|].
  exact (import_table_provenance Scenarios.appSourceTree "Home" "./pages/Home" H).
Defined.

(** ** Resolved component paths and nested declarations *)

Section ResolvedPaths.

Variables (w : World) (projectPath : string).

(** The two outcomes of [resolveImportPath]: the specifier of an external
    package comes back as it is, every other specifier yields a path
    relative to the project root. *)
Lemma resolveImportPath_cases (importPath currentFile : string) :
  if isExternalSpecifier importPath
  then resolveImportPath w importPath currentFile projectPath = importPath
  else projectRelative w projectPath
         (resolveImportPath w importPath currentFile projectPath).
Proof.
  unfold resolveImportPath, getRelativePath, isExternalSpecifier, projectRelative.
  destruct (startsWith importPath "."); cbn [negb andb].
  - destruct (negb _); [destruct (List.find _ _)|]; eexists; reflexivity.
  - destruct (startsWith importPath "/"); cbn [orb negb andb];
      [eexists; reflexivity|].
    destruct (startsWith importPath "src/"); cbn [negb];
      [eexists; reflexivity | reflexivity].
Qed.

(** The import fields of a declared route: both absent, or the import is
    recorded together with the path resolved for its specifier. *)
Let declaredOrigin (r : RouteInfo) : Prop :=
  match importedComponent r with
  | Some ic =>
      exists p, resolvedComponentPath r = Some p
                /\ Path.isAbsolute p = false
                /\ ic_fullPath ic = Some p
                /\ if isExternalSpecifier (ic_path ic)
                   then p = ic_path ic
                   else projectRelative w projectPath p
  | None => resolvedComponentPath r = None
  end.

Lemma declaredOrigin_initial (fc : FileContext) :
  fc_world fc = w -> fc_projectPath fc = projectPath ->
  declaredOrigin (initialRouteInfo fc).
Proof. reflexivity. Qed.

Lemma declaredOrigin_setPath (v : string) (ri : RouteInfo) :
  declaredOrigin ri -> declaredOrigin (setPath v ri).
Proof. intros H. exact H. Qed.

Lemma declaredOrigin_setChildren (cs : list RouteInfo) (ri : RouteInfo) :
  declaredOrigin ri -> declaredOrigin (setChildren cs ri).
Proof. intros H. exact H. Qed.

Lemma declaredOrigin_track (fc : FileContext) (c : string) (ri : RouteInfo) :
  fc_world fc = w -> fc_projectPath fc = projectPath ->
  declaredOrigin ri -> declaredOrigin (trackImportedComponent fc c ri).
Proof.
  intros Hw Hp H. unfold trackImportedComponent.
  destruct (fc_imports fc !! c) as [importPath|]; [|exact H].
  destruct (truthy importPath); [|exact H].
  unfold declaredOrigin.
  cbn [importedComponent resolvedComponentPath ic_path ic_fullPath].
  eexists. split; [reflexivity|]. split; [apply resolveImportPath_relative|].
  split; [reflexivity|]. rewrite Hw, Hp. apply resolveImportPath_cases.
Qed.

Lemma declaredOrigin_resolvedPathOrigin (r : RouteInfo) :
  declaredOrigin r -> resolvedPathOrigin w projectPath r.
Proof.
  unfold declaredOrigin, resolvedPathOrigin. intros H p Hp.
  destruct (importedComponent r) as [ic|]; [|congruence].
  destruct H as (p' & Hp' & Habs & Hfull & Hcase).
  rewrite Hp in Hp'. injection Hp' as <-. auto.
Qed.

Lemma siteRecords_resolvedPathOrigin (r : RouteInfo) :
  In r (flat_map allRoutes (routes (extractSiteRoutes w projectPath))) ->
  resolvedPathOrigin w projectPath r.
Proof.
  unfold extractSiteRoutes.
  destruct (negb (pathExists w projectPath)); [intros []|].
  destruct (detectFramework w projectPath) as [fw|]; [|intros []].
  destruct (name fw); cbn [routes]; intros H.
  - apply extractNextJSRoutes_allRoutes in H as (convert & dir & file & H & Hi).
    apply nextJSRouteOfFile_fields in H as (_ & _ & _ & _ & _ & Hr).
    intros p Hp. rewrite Hi. rewrite Hr in Hp. injection Hp as <-.
    split; [apply relative_not_absolute | now exists file].
  - apply declaredOrigin_resolvedPathOrigin. revert r H.
    apply List.Forall_forall, List.Forall_flat_map, extractViteRoutes_all;
      auto using declaredOrigin_initial, declaredOrigin_setPath,
                 declaredOrigin_track, declaredOrigin_setChildren.
  - apply declaredOrigin_resolvedPathOrigin. revert r H.
    apply List.Forall_forall, List.Forall_flat_map, extractReactRouterRoutes_all;
      auto using declaredOrigin_initial, declaredOrigin_setPath,
                 declaredOrigin_track, declaredOrigin_setChildren.
  - destruct H.
Qed.

(** A result of [path.relative] is empty or has no empty segment. *)
Lemma relative_segments (cwd from to : string) :
  Path.relative cwd from to = ""
  \/ Forall (fun x => truthy x = true) (Path.segments (Path.relative cwd from to)).
Proof.
  unfold Path.relative.
  assert (forall paths,
             Forall (fun x => truthy x = true /\ charFree "/" x = true)
                    (Path.resolveSegments cwd paths)) as Hsegs.
  { intros paths. eapply List.Forall_impl; [|apply resolveSegments_clean].
    intros y [Hy Hfree]. split; [|exact Hfree].
    unfold plainSegment in Hy. apply andb_true_iff in Hy as [Hy _].
    now apply andb_true_iff in Hy as [Hy _]. }
  destruct (dropCommon_Forall
              (fun x => truthy x = true /\ charFree "/" x = true)
              (Path.resolveSegments cwd [from]) (Path.resolveSegments cwd [to])
              (Hsegs _) (Hsegs _)) as [_ Hdown].
  destruct (Path.dropCommon _ _) as [up down]. cbn [snd] in Hdown.
  assert (Forall (fun x => truthy x = true /\ charFree "/" x = true)
                 (repeat ".." (List.length up) ++ down)) as Hall.
  { apply List.Forall_app. split; [|exact Hdown].
    induction (List.length up); cbn [repeat]; constructor; auto. }
  destruct (repeat ".." (List.length up) ++ down) as [|x l] eqn:E; [now left|].
  right. rewrite segments_joinSegments.
  - eapply List.Forall_impl; [|exact Hall]. now intros y [Hy _].
  - discriminate.
  - eapply List.Forall_impl; [|exact Hall]. now intros y [_ Hy].
Qed.

End ResolvedPaths.

(** C8 as stated fails: a file imports a component from
    ["https://esm.sh/some-ui-kit"] and uses it in a route; the record's
    resolved path is that specifier, unchanged, and it is not a path
    relative to the project root (no result of [path.relative] has an
    empty segment). *)
Lemma C8_counterexample :
  let w := ImportScenarios.urlImportProject in
  exists r p,
    In r (flat_map allRoutes (routes (extractSiteRoutes w "app")))
    /\ resolvedComponentPath r = Some p
    /\ ~ (projectRelative w "app" p /\ Path.isAbsolute p = false).
Proof.
  intros w.
  exists (mkRouteInfo "/" (Some "src/App.tsx") (Some []) (Some false) (Some false)
            (Some "https://esm.sh/some-ui-kit")
            (Some (mkImportedComponent "Banner" "https://esm.sh/some-ui-kit"
                     (Some "https://esm.sh/some-ui-kit")))).
  exists "https://esm.sh/some-ui-kit".
  split; [vm_compute; auto|]. split; [reflexivity|].
  intros [[file Hfile] _].
  destruct (relative_segments (cwd w) "app" file) as [H|H]; rewrite <- Hfile in H.
  - discriminate H.
  - eapply List.Forall_forall in H; [|right; left; reflexivity]. discriminate H.
Qed.

(** C8, amended: in the result of [extractSiteRoutes], whatever the
    strategy, the [resolvedComponentPath] of a record (nested records
    included) is never an absolute path.  For a record without recorded
    import (the file-based strategy) and for a component imported by a
    specifier that begins with ["."], ["/"] or ["src/"] it is a path
    relative to the project root; for a component imported by any other
    specifier (an external package) it is the import specifier itself,
    unchanged.  The [fullPath] of the recorded import is the same value. *)
Theorem C8_resolved_component_path_origin (w : World) (projectPath : string)
        (r : RouteInfo) (p : string) :
  In r (flat_map allRoutes (routes (extractSiteRoutes w projectPath))) ->
  resolvedComponentPath r = Some p ->
  Path.isAbsolute p = false
  /\ match importedComponent r with
     | Some ic =>
         ic_fullPath ic = Some p
         /\ if isExternalSpecifier (ic_path ic)
            then p = ic_path ic
            else exists file, p = Path.relative (cwd w) projectPath file
     | None => exists file, p = Path.relative (cwd w) projectPath file
     end.
Proof.
  intros Hin Hp.
  exact (siteRecords_resolvedPathOrigin w projectPath r Hin p Hp).
Qed.

Lemma C8_resolved_component_path_origin_witness :
  let external :=
    mkRouteInfo "*" (Some "src/App.tsx") (Some []) (Some false) (Some true)
      (Some "some-ui-kit")
      (Some (mkImportedComponent "NotFound" "some-ui-kit" (Some "some-ui-kit"))) in
  let local :=
    mkRouteInfo "/" (Some "src/App.tsx") (Some []) (Some false) (Some false)
      (Some "src/pages/Home.jsx")
      (Some (mkImportedComponent "Home" "./pages/Home" (Some "src/pages/Home.jsx"))) in
  (In external (flat_map allRoutes (routes (extractSiteRoutes Scenarios.routerProject "app")))
   /\ resolvedComponentPath external = Some "some-ui-kit"
   /\ Path.isAbsolute "some-ui-kit" = false
   /\ isExternalSpecifier "some-ui-kit" = true)
  /\ (In local (flat_map allRoutes (routes (extractSiteRoutes Scenarios.routerProject "app")))
      /\ resolvedComponentPath local = Some "src/pages/Home.jsx"
      /\ Path.isAbsolute "src/pages/Home.jsx" = false
      /\ isExternalSpecifier "./pages/Home" = false
      /\ exists file, "src/pages/Home.jsx" = Path.relative "/w" "app" file).
Proof.
  intros external local.
  assert (In external (flat_map allRoutes
                         (routes (extractSiteRoutes Scenarios.routerProject "app"))))
    as Hexternal by (vm_compute; auto).
  assert (In local (flat_map allRoutes
                      (routes (extractSiteRoutes Scenarios.routerProject "app"))))
    as Hlocal by (vm_compute; auto).
  split.
  - split; [exact Hexternal|]. split; [reflexivity|].
    split; [|reflexivity].
    exact (proj1 (C8_resolved_component_path_origin Scenarios.routerProject "app"
                    external "some-ui-kit" Hexternal eq_refl)).
  - split; [exact Hlocal|]. split; [reflexivity|].
    destruct (C8_resolved_component_path_origin Scenarios.routerProject "app"
                local "src/pages/Home.jsx" Hlocal eq_refl) as (Habs & _ & Hfile).
    split; [exact Habs|]. split; [reflexivity | exact Hfile].
Defined.

Section NestedDescriptors.

Variable fc : FileContext.

(** The records built from the object literals of an array literal. *)
Let elementRecords (elements : list (option Node)) : list RouteInfo :=
  extractRoutesFromCreateBrowserRouter fc [ArrayExpression elements].

Lemma elementRecords_map (elements : list (option Node)) :
  List.map Some (elementRecords elements)
  = List.map (extractRouteFromObjectExpression fc) (elementObjects elements).
Proof. apply (extractRoutesFromCreateBrowserRouter_map fc [ArrayExpression elements]). Qed.

(** The [children] of the record of an object literal are the records of
    the object literals of its last [children] array. *)
Lemma extractRouteFromObjectExpression_children (properties : list (ObjectMember Node)) :
  exists r, extractRouteFromObjectExpression fc (ObjectExpression properties) = Some r
            /\ children r = Some (elementRecords (List.last (childArrays properties) [])).
Proof.
  eexists. split; [reflexivity|].
  assert (forall l : list (list (option Node)),
             List.last (List.map (fun els => Some (elementRecords els)) l) (Some [])
             = Some (elementRecords (List.last l []))) as Hlast.
  { intros l. change (Some []) with (Some (elementRecords [])).
    generalize (@nil (option Node)).
    induction l as [|a l IH]; intros d; [reflexivity|].
    cbn [List.map]. now rewrite !last_cons. }
  rewrite <- Hlast.
  change (Some []) with (children (initialRouteInfo fc)).
  generalize (initialRouteInfo fc).
  induction properties as [|prop l IH]; intros ri; cbn [fold_left]; [reflexivity|].
  rewrite IH. clear IH.
  assert (childArrays (prop :: l) = childArrays [prop] ++ childArrays l) as ->
    by (unfold childArrays; cbn [flat_map]; now rewrite List.app_nil_r).
  unfold childArrays at 2. cbn [flat_map]. rewrite List.app_nil_r.
  destruct prop as [key value| |]; try reflexivity.
  destruct key as [keyName|?|? ?|? ? ?|?|?|?|? ?|?]; try reflexivity.
  destruct value as [?|v|? ?|tag ? ?|?|elements|?|? ?|?];
    cbn [isStringLiteral isIdentifier isJSXElement isArrayExpression List.app];
    rewrite ?andb_false_r, ?andb_true_r;
    repeat match goal with
           | |- context [if ?b then _ else _] => destruct b
           end;
    try destruct tag; try reflexivity;
    try (now rewrite (proj2 (path_track _ _ _)));
    cbn [List.app List.map]; now rewrite last_cons.
Qed.

(** Every route descriptor below an object literal, at any depth, has its
    record among the records nested in the record of that literal. *)
Lemma descriptorUnder_recorded (top d : Node) :
  descriptorUnder top d ->
  forall r, extractRouteFromObjectExpression fc top = Some r ->
  exists rd, extractRouteFromObjectExpression fc d = Some rd /\ In rd (allRoutes r).
Proof.
  induction 1 as [properties|properties el d Hel Hd IH]; intros r Hr.
  - exists r. split; [exact Hr|]. rewrite allRoutes_unfold. now left.
  - destruct (extractRouteFromObjectExpression_children properties)
      as (r' & Hr' & Hchildren).
    rewrite Hr in Hr'. injection Hr' as <-.
    assert (In (extractRouteFromObjectExpression fc el)
               (List.map Some (elementRecords (List.last (childArrays properties) []))))
      as Hin by (rewrite elementRecords_map; now apply in_map).
    apply in_map_iff in Hin as (c & Hc & Hcin).
    destruct (IH c (eq_sym Hc)) as (rd & Hrd & Hrdin).
    exists rd. split; [exact Hrd|].
    rewrite allRoutes_unfold. right. unfold nestedRoutes. rewrite Hchildren.
    apply in_flat_map. now exists c.
Qed.

End NestedDescriptors.

(** C10: in the extraction of a parsed file no declaration is skipped.
    Every [Route] element and every object literal of a router array
    yields a record of the file's result (exactly one record per such
    declaration).  The [children] of the record of an object literal are
    the records of the object literals of its last [children] array, one
    per literal and in their order, so that every route descriptor at any
    depth below a router array has its record among the records of the
    result, nested ones included.  A [Route] element without a
    string-valued [path] attribute, and a route descriptor (at any depth)
    without a string-valued [path] property, yield a record with path
    ["/"] and with neither [dynamic] nor [catchAll] set. *)
Theorem C10_declarations_always_recorded (w : World)
        (filePath content projectPath : string) (ast : Node) :
  parse w content = Returned ast ->
  let fc := mkFileContext w filePath projectPath (collectImports ast) in
  let result := extractReactRouterRoutesFromFile w filePath content projectPath in
  List.length result
  = List.length (routeElements ast)
    + List.length (flat_map descriptorObjects (routerCalls ast))
  /\ (forall attributes, In attributes (routeElements ast) ->
        exists r, extractRouteFromJSXElement fc attributes = Some r /\ In r result)
  /\ (forall node, In node (flat_map descriptorObjects (routerCalls ast)) ->
        exists r, extractRouteFromObjectExpression fc node = Some r /\ In r result)
  /\ (forall properties,
        exists r cs,
          extractRouteFromObjectExpression fc (ObjectExpression properties) = Some r
          /\ children r = Some cs
          /\ List.map Some cs
             = List.map (extractRouteFromObjectExpression fc)
                 (nestedDescriptors properties))
  /\ (forall node d,
        In node (flat_map descriptorObjects (routerCalls ast)) ->
        descriptorUnder node d ->
        exists r, extractRouteFromObjectExpression fc d = Some r
                  /\ In r (flat_map allRoutes result))
  /\ (forall attributes,
        forallb (fun a => negb (isUsablePathAttribute a)) attributes = true ->
        exists r, extractRouteFromJSXElement fc attributes = Some r
                  /\ path r = "/" /\ dynamic r = None /\ catchAll r = None)
  /\ (forall properties,
        forallb (fun p => negb (isUsablePathProperty p)) properties = true ->
        exists r, extractRouteFromObjectExpression fc (ObjectExpression properties) = Some r
                  /\ path r = "/" /\ dynamic r = None /\ catchAll r = None).
Proof.
  intros Hparse fc result.
  assert (forall node, In node (flat_map descriptorObjects (routerCalls ast)) ->
            exists r, extractRouteFromObjectExpression fc node = Some r /\ In r result)
    as Htop.
  { intros node Hin.
    assert (exists properties, node = ObjectExpression properties) as [properties ->].
    { apply in_flat_map in Hin as (args & _ & Hin). unfold descriptorObjects in Hin.
      destruct args as [|[] ?]; try contradiction.
      apply in_flat_map in Hin as ([el|] & _ & Hin); [|contradiction].
      destruct el; try contradiction. destruct Hin as [<-|[]]. eauto. }
    eexists. split; [reflexivity|].
    now apply (extractReactRouterRoutesFromFile_object w filePath content projectPath ast
                 Hparse (ObjectExpression properties)). }
  split; [now apply extractReactRouterRoutesFromFile_length|].
  split.
  { intros attributes Hin. eexists. split; [reflexivity|].
    now apply (extractReactRouterRoutesFromFile_jsx w filePath content projectPath ast
                 Hparse attributes). }
  split; [exact Htop|].
  split.
  { intros properties.
    destruct (extractRouteFromObjectExpression_children fc properties)
      as (r & Hr & Hchildren).
    exists r. eexists. split; [exact Hr|]. split; [exact Hchildren|].
    apply elementRecords_map. }
  split.
  { intros node d Hin Hunder. destruct (Htop node Hin) as (r & Hr & Hrin).
    destruct (descriptorUnder_recorded fc node d Hunder r Hr) as (rd & Hrd & Hrdin).
    exists rd. split; [exact Hrd|]. apply in_flat_map. now exists r. }
  split.
  - intros attributes H. now apply extractRouteFromJSXElement_pathUnset.
  - intros properties H. now apply extractRouteFromObjectExpression_pathUnset.
Qed.

Lemma C10_declarations_always_recorded_witness :
  let w := Scenarios.routerProject in
  let fc := mkFileContext w "/w/app/src/App.tsx" "app"
              (collectImports Scenarios.appSourceTree) in
  let result :=
    extractReactRouterRoutesFromFile w "/w/app/src/App.tsx" Scenarios.appSourceText "app" in
  let nested :=
    ObjectExpression
      [ObjectProperty (Identifier "element") (JSXElement (JSXIdentifier "Home") [] [])] in
  parse w Scenarios.appSourceText = Returned Scenarios.appSourceTree
  /\ List.length result = 3 + 2
  /\ (exists r,
        extractRouteFromJSXElement fc
          [Scenarios.jsxAttr "element" (Scenarios.jsxUse "Home")] = Some r
        /\ In r result)
  /\ (exists r,
        extractRouteFromJSXElement fc
          [Scenarios.jsxAttr "element" (Scenarios.jsxUse "Home")] = Some r
        /\ path r = "/" /\ dynamic r = None /\ catchAll r = None)
  /\ (exists r,
        extractRouteFromObjectExpression fc
          (ObjectExpression
             [ObjectProperty (Identifier "component") (Identifier "NotFound")]) = Some r
        /\ path r = "/" /\ dynamic r = None /\ catchAll r = None)
  /\ (exists r,
        extractRouteFromObjectExpression fc nested = Some r
        /\ In r (flat_map allRoutes result)
        /\ path r = "/" /\ dynamic r = None /\ catchAll r = None)
  /\ (exists r,
        extractRouteFromObjectExpression fc
          (ObjectExpression
             [ObjectProperty (Identifier "path") (StringLiteral "/a/:b")]) = Some r
        /\ In r (flat_map allRoutes result)
        /\ ~ In r result).
Proof.
  intros w fc result nested.
  assert (parse w Scenarios.appSourceText = Returned Scenarios.appSourceTree) as Hparse
    by reflexivity.
  destruct (C10_declarations_always_recorded w "/w/app/src/App.tsx"
              Scenarios.appSourceText "app" Scenarios.appSourceTree Hparse)
    as (Hlen & Hjsx & _ & _ & Hdeep & Hattr & Hprop).
  split; [exact Hparse|]. split; [exact Hlen|].
  split; [apply Hjsx; vm_compute; auto|].
  split; [apply Hattr; reflexivity|]. split; [apply Hprop; reflexivity|].
  set (top :=
         ObjectExpression
           [ ObjectProperty (Identifier "path") (StringLiteral "/a");
             ObjectProperty (Identifier "children")
               (ArrayExpression
                  [ Some (ObjectExpression
                      [ObjectProperty (Identifier "path") (StringLiteral "/a/:b")]);
                    Some nested ]) ]).
  assert (In top (flat_map descriptorObjects (routerCalls Scenarios.appSourceTree)))
    as Htop by (vm_compute; auto).
  split.
  - destruct (Hdeep top nested Htop) as (r & Hr & Hin).
    { eapply descriptorUnder_child; [|apply descriptorUnder_here].
      right. left. reflexivity. }
    exists r. split; [exact Hr|]. split; [exact Hin|].
    injection Hr as <-. repeat split.
  - destruct (Hdeep top
                (ObjectExpression
                   [ObjectProperty (Identifier "path") (StringLiteral "/a/:b")]) Htop)
      as (r & Hr & Hin).
    { eapply descriptorUnder_child; [|apply descriptorUnder_here].
      left. reflexivity. }
    exists r. split; [exact Hr|]. split; [exact Hin|].
    injection Hr as <-. vm_compute. intros H.
    repeat (destruct H as [H|H]; [discriminate H|]). exact H.
Defined.
